(** * Smart Post: the Superset job-posting automator

    A shallow embedding of [services/automate_poster_v1.py] (the classes
    [JobData], [ElementInteraction] and [SupersetAutomator]), of the form
    handler in [main.py] and of the cached client of [get_model.py].

    The browser is outside the program.  Every remote command the Python
    code sends (a wait, a click, a script, ...) is answered by the
    [browser] component of the state: an arbitrary function from the
    number of commands sent so far to an answer, which may be any
    exception.  Each method becomes a function in a state, exception and
    trace monad: it threads the automator's fields, may [Raised] an
    exception or leave by an early [Returned], and emits the list of
    commands it attempted.

    Conventions.  Calls of the logger are left out: they change nothing
    and do not raise; where a log line reads [element.text], that read
    is a command and is kept.  [time.sleep] is kept as an entry of the
    trace.  The exceptions are the subclasses of [Exception] the code
    tells apart.  Elements and sessions are named by numbers. *)

From Stdlib Require Import List String Ascii NArith ZArith Lia Bool Arith.
Import ListNotations.
Open Scope string_scope.
Open Scope list_scope.
Open Scope nat_scope.

Set Implicit Arguments.

(** ** Python built-ins on text *)

Module Py.

(** A Python [str] is held as the Rocq string of its UTF-8 encoding,
    which is what a string literal of this file denotes.  The built-ins
    that look at characters work on the code points of the text; their
    tables are those of the Unicode database 14.0 that CPython 3.11
    carries. *)

(** The value of a continuation byte. *)
Definition continuation (a : ascii) : option N :=
  let b := N_of_ascii a in
  if ((128 <=? b) && (b <? 192))%N then Some (b - 128)%N else None.

(** A byte that is part of no encoded character stands for itself,
    above the code points. *)
Definition stray (b : N) : N := (1114112 + b)%N.

(** The code points of a text. *)
Fixpoint decode (s : string) : list N :=
  match s with
  | EmptyString => []
  | String a s1 =>
      let b := N_of_ascii a in
      if (b <? 128)%N then b :: decode s1
      else
        match s1 with
        | EmptyString => [stray b]
        | String a1 s2 =>
            match (if ((192 <=? b) && (b <? 224))%N then continuation a1 else None) with
            | Some c1 => ((b - 192) * 64 + c1)%N :: decode s2
            | None =>
                match s2 with
                | EmptyString => stray b :: decode s1
                | String a2 s3 =>
                    match (if ((224 <=? b) && (b <? 240))%N
                           then match continuation a1, continuation a2 with
                                | Some c1, Some c2 => Some (c1 * 64 + c2)%N
                                | _, _ => None
                                end
                           else None) with
                    | Some c => ((b - 224) * 4096 + c)%N :: decode s3
                    | None =>
                        match s3 with
                        | EmptyString => stray b :: decode s1
                        | String a3 s4 =>
                            match (if ((240 <=? b) && (b <? 248))%N
                                   then match continuation a1, continuation a2,
                                              continuation a3 with
                                        | Some c1, Some c2, Some c3 =>
                                            Some (c1 * 4096 + c2 * 64 + c3)%N
                                        | _, _, _ => None
                                        end
                                   else None) with
                            | Some c => ((b - 240) * 262144 + c)%N :: decode s4
                            | None => stray b :: decode s1
                            end
                        end
                    end
                end
            end
        end
  end.

(** The bytes of a code point. *)
Definition encode_point (p : N) : list N :=
  (if p <? 128 then [p]
   else if p <? 2048 then [192 + p / 64; 128 + p mod 64]
   else if p <? 65536 then [224 + p / 4096; 128 + (p / 64) mod 64; 128 + p mod 64]
   else if p <? 1114112
        then [240 + p / 262144; 128 + (p / 4096) mod 64; 128 + (p / 64) mod 64;
              128 + p mod 64]
   else [p - 1114112])%N.

Fixpoint string_of_bytes (l : list N) : string :=
  match l with
  | [] => EmptyString
  | b :: l' => String (ascii_of_N b) (string_of_bytes l')
  end.

(** The text of a list of code points. *)
Definition encode (l : list N) : string :=
  string_of_bytes (flat_map encode_point l).

Definition in_range (p : N) (r : N * N) : bool :=
  ((fst r <=? p) && (p <=? snd r))%N.

Definition in_table (t : list (N * N)) (p : N) : bool := existsb (in_range p) t.

(** The ranges of the characters [str.isspace] holds of (those
    [str.strip] removes). *)
Definition space_table : list (N * N) :=
  [ (9, 13); (28, 32); (133, 133); (160, 160); (5760, 5760); (8192, 8202);
    (8232, 8233); (8239, 8239); (8287, 8287); (12288, 12288) ]%N.

(** The ranges of the characters [str.isdigit] holds of: the decimal
    digits of every script and the other characters with a digit value,
    such as the superscripts. *)
Definition digit_table : list (N * N) :=
  [ (48, 57); (178, 179); (185, 185); (1632, 1641); (1776, 1785); (1984, 1993);
    (2406, 2415); (2534, 2543); (2662, 2671); (2790, 2799); (2918, 2927);
    (3046, 3055); (3174, 3183); (3302, 3311); (3430, 3439); (3558, 3567);
    (3664, 3673); (3792, 3801); (3872, 3881); (4160, 4169); (4240, 4249);
    (4969, 4977); (6112, 6121); (6160, 6169); (6470, 6479); (6608, 6618);
    (6784, 6793); (6800, 6809); (6992, 7001); (7088, 7097); (7232, 7241);
    (7248, 7257); (8304, 8304); (8308, 8313); (8320, 8329); (9312, 9320);
    (9332, 9340); (9352, 9360); (9450, 9450); (9461, 9469); (9471, 9471);
    (10102, 10110); (10112, 10120); (10122, 10130); (42528, 42537);
    (43216, 43225); (43264, 43273); (43472, 43481); (43504, 43513);
    (43600, 43609); (44016, 44025); (65296, 65305); (66720, 66729);
    (68160, 68163); (68912, 68921); (69216, 69224); (69714, 69722);
    (69734, 69743); (69872, 69881); (69942, 69951); (70096, 70105);
    (70384, 70393); (70736, 70745); (70864, 70873); (71248, 71257);
    (71360, 71369); (71472, 71481); (71904, 71913); (72016, 72025);
    (72784, 72793); (73040, 73049); (73120, 73129); (92768, 92777);
    (92864, 92873); (93008, 93017); (120782, 120831); (123200, 123209);
    (123632, 123641); (125264, 125273); (127232, 127242); (130032, 130041) ]%N.

(** The ranges of the decimal digits, the digits [int] reads; each is
    made of runs of the ten digits from zero to nine. *)
Definition decimal_table : list (N * N) :=
  [ (48, 57); (1632, 1641); (1776, 1785); (1984, 1993); (2406, 2415);
    (2534, 2543); (2662, 2671); (2790, 2799); (2918, 2927); (3046, 3055);
    (3174, 3183); (3302, 3311); (3430, 3439); (3558, 3567); (3664, 3673);
    (3792, 3801); (3872, 3881); (4160, 4169); (4240, 4249); (6112, 6121);
    (6160, 6169); (6470, 6479); (6608, 6617); (6784, 6793); (6800, 6809);
    (6992, 7001); (7088, 7097); (7232, 7241); (7248, 7257); (42528, 42537);
    (43216, 43225); (43264, 43273); (43472, 43481); (43504, 43513);
    (43600, 43609); (44016, 44025); (65296, 65305); (66720, 66729);
    (68912, 68921); (69734, 69743); (69872, 69881); (69942, 69951);
    (70096, 70105); (70384, 70393); (70736, 70745); (70864, 70873);
    (71248, 71257); (71360, 71369); (71472, 71481); (71904, 71913);
    (72016, 72025); (72784, 72793); (73040, 73049); (73120, 73129);
    (92768, 92777); (92864, 92873); (93008, 93017); (120782, 120831);
    (123200, 123209); (123632, 123641); (125264, 125273); (130032, 130041) ]%N.

(** The ranges of the cased characters that are not case-ignorable. *)
Definition cased_table : list (N * N) :=
  [ (65, 90); (97, 122); (170, 170); (181, 181); (186, 186); (192, 214);
    (216, 246); (248, 442); (444, 447); (452, 659); (661, 687); (880, 883);
    (886, 887); (891, 893); (895, 895); (902, 902); (904, 906); (908, 908);
    (910, 929); (931, 1013); (1015, 1153); (1162, 1327); (1329, 1366);
    (1376, 1416); (4256, 4293); (4295, 4295); (4301, 4301); (4304, 4346);
    (4349, 4351); (5024, 5109); (5112, 5117); (7296, 7304); (7312, 7354);
    (7357, 7359); (7424, 7467); (7531, 7543); (7545, 7578); (7680, 7957);
    (7960, 7965); (7968, 8005); (8008, 8013); (8016, 8023); (8025, 8025);
    (8027, 8027); (8029, 8029); (8031, 8061); (8064, 8116); (8118, 8124);
    (8126, 8126); (8130, 8132); (8134, 8140); (8144, 8147); (8150, 8155);
    (8160, 8172); (8178, 8180); (8182, 8188); (8450, 8450); (8455, 8455);
    (8458, 8467); (8469, 8469); (8473, 8477); (8484, 8484); (8486, 8486);
    (8488, 8488); (8490, 8493); (8495, 8500); (8505, 8505); (8508, 8511);
    (8517, 8521); (8526, 8526); (8544, 8575); (8579, 8580); (9398, 9449);
    (11264, 11387); (11390, 11492); (11499, 11502); (11506, 11507);
    (11520, 11557); (11559, 11559); (11565, 11565); (42560, 42605);
    (42624, 42651); (42786, 42863); (42865, 42887); (42891, 42894);
    (42896, 42954); (42960, 42961); (42963, 42963); (42965, 42969);
    (42997, 42998); (43002, 43002); (43824, 43866); (43872, 43880);
    (43888, 43967); (64256, 64262); (64275, 64279); (65313, 65338);
    (65345, 65370); (66560, 66639); (66736, 66771); (66776, 66811);
    (66928, 66938); (66940, 66954); (66956, 66962); (66964, 66965);
    (66967, 66977); (66979, 66993); (66995, 67001); (67003, 67004);
    (68736, 68786); (68800, 68850); (71840, 71903); (93760, 93823);
    (119808, 119892); (119894, 119964); (119966, 119967); (119970, 119970);
    (119973, 119974); (119977, 119980); (119982, 119993); (119995, 119995);
    (119997, 120003); (120005, 120069); (120071, 120074); (120077, 120084);
    (120086, 120092); (120094, 120121); (120123, 120126); (120128, 120132);
    (120134, 120134); (120138, 120144); (120146, 120485); (120488, 120512);
    (120514, 120538); (120540, 120570); (120572, 120596); (120598, 120628);
    (120630, 120654); (120656, 120686); (120688, 120712); (120714, 120744);
    (120746, 120770); (120772, 120779); (122624, 122633); (122635, 122654);
    (125184, 125251); (127280, 127305); (127312, 127337); (127344, 127369) ]%N.

(** The ranges of the case-ignorable characters. *)
Definition case_ignorable_table : list (N * N) :=
  [ (39, 39); (46, 46); (58, 58); (94, 94); (96, 96); (168, 168); (173, 173);
    (175, 175); (180, 180); (183, 184); (688, 879); (884, 885); (890, 890);
    (900, 901); (903, 903); (1155, 1161); (1369, 1369); (1375, 1375);
    (1425, 1469); (1471, 1471); (1473, 1474); (1476, 1477); (1479, 1479);
    (1524, 1524); (1536, 1541); (1552, 1562); (1564, 1564); (1600, 1600);
    (1611, 1631); (1648, 1648); (1750, 1757); (1759, 1768); (1770, 1773);
    (1807, 1807); (1809, 1809); (1840, 1866); (1958, 1968); (2027, 2037);
    (2042, 2042); (2045, 2045); (2070, 2093); (2137, 2139); (2184, 2184);
    (2192, 2193); (2200, 2207); (2249, 2306); (2362, 2362); (2364, 2364);
    (2369, 2376); (2381, 2381); (2385, 2391); (2402, 2403); (2417, 2417);
    (2433, 2433); (2492, 2492); (2497, 2500); (2509, 2509); (2530, 2531);
    (2558, 2558); (2561, 2562); (2620, 2620); (2625, 2626); (2631, 2632);
    (2635, 2637); (2641, 2641); (2672, 2673); (2677, 2677); (2689, 2690);
    (2748, 2748); (2753, 2757); (2759, 2760); (2765, 2765); (2786, 2787);
    (2810, 2815); (2817, 2817); (2876, 2876); (2879, 2879); (2881, 2884);
    (2893, 2893); (2901, 2902); (2914, 2915); (2946, 2946); (3008, 3008);
    (3021, 3021); (3072, 3072); (3076, 3076); (3132, 3132); (3134, 3136);
    (3142, 3144); (3146, 3149); (3157, 3158); (3170, 3171); (3201, 3201);
    (3260, 3260); (3263, 3263); (3270, 3270); (3276, 3277); (3298, 3299);
    (3328, 3329); (3387, 3388); (3393, 3396); (3405, 3405); (3426, 3427);
    (3457, 3457); (3530, 3530); (3538, 3540); (3542, 3542); (3633, 3633);
    (3636, 3642); (3654, 3662); (3761, 3761); (3764, 3772); (3782, 3782);
    (3784, 3789); (3864, 3865); (3893, 3893); (3895, 3895); (3897, 3897);
    (3953, 3966); (3968, 3972); (3974, 3975); (3981, 3991); (3993, 4028);
    (4038, 4038); (4141, 4144); (4146, 4151); (4153, 4154); (4157, 4158);
    (4184, 4185); (4190, 4192); (4209, 4212); (4226, 4226); (4229, 4230);
    (4237, 4237); (4253, 4253); (4348, 4348); (4957, 4959); (5906, 5908);
    (5938, 5939); (5970, 5971); (6002, 6003); (6068, 6069); (6071, 6077);
    (6086, 6086); (6089, 6099); (6103, 6103); (6109, 6109); (6155, 6159);
    (6211, 6211); (6277, 6278); (6313, 6313); (6432, 6434); (6439, 6440);
    (6450, 6450); (6457, 6459); (6679, 6680); (6683, 6683); (6742, 6742);
    (6744, 6750); (6752, 6752); (6754, 6754); (6757, 6764); (6771, 6780);
    (6783, 6783); (6823, 6823); (6832, 6862); (6912, 6915); (6964, 6964);
    (6966, 6970); (6972, 6972); (6978, 6978); (7019, 7027); (7040, 7041);
    (7074, 7077); (7080, 7081); (7083, 7085); (7142, 7142); (7144, 7145);
    (7149, 7149); (7151, 7153); (7212, 7219); (7222, 7223); (7288, 7293);
    (7376, 7378); (7380, 7392); (7394, 7400); (7405, 7405); (7412, 7412);
    (7416, 7417); (7468, 7530); (7544, 7544); (7579, 7679); (8125, 8125);
    (8127, 8129); (8141, 8143); (8157, 8159); (8173, 8175); (8189, 8190);
    (8203, 8207); (8216, 8217); (8228, 8228); (8231, 8231); (8234, 8238);
    (8288, 8292); (8294, 8303); (8305, 8305); (8319, 8319); (8336, 8348);
    (8400, 8432); (11388, 11389); (11503, 11505); (11631, 11631);
    (11647, 11647); (11744, 11775); (11823, 11823); (12293, 12293);
    (12330, 12333); (12337, 12341); (12347, 12347); (12441, 12446);
    (12540, 12542); (40981, 40981); (42232, 42237); (42508, 42508);
    (42607, 42610); (42612, 42621); (42623, 42623); (42652, 42655);
    (42736, 42737); (42752, 42785); (42864, 42864); (42888, 42890);
    (42994, 42996); (43000, 43001); (43010, 43010); (43014, 43014);
    (43019, 43019); (43045, 43046); (43052, 43052); (43204, 43205);
    (43232, 43249); (43263, 43263); (43302, 43309); (43335, 43345);
    (43392, 43394); (43443, 43443); (43446, 43449); (43452, 43453);
    (43471, 43471); (43493, 43494); (43561, 43566); (43569, 43570);
    (43573, 43574); (43587, 43587); (43596, 43596); (43632, 43632);
    (43644, 43644); (43696, 43696); (43698, 43700); (43703, 43704);
    (43710, 43711); (43713, 43713); (43741, 43741); (43756, 43757);
    (43763, 43764); (43766, 43766); (43867, 43871); (43881, 43883);
    (44005, 44005); (44008, 44008); (44013, 44013); (64286, 64286);
    (64434, 64450); (65024, 65039); (65043, 65043); (65056, 65071);
    (65106, 65106); (65109, 65109); (65279, 65279); (65287, 65287);
    (65294, 65294); (65306, 65306); (65342, 65342); (65344, 65344);
    (65392, 65392); (65438, 65439); (65507, 65507); (65529, 65531);
    (66045, 66045); (66272, 66272); (66422, 66426); (67456, 67461);
    (67463, 67504); (67506, 67514); (68097, 68099); (68101, 68102);
    (68108, 68111); (68152, 68154); (68159, 68159); (68325, 68326);
    (68900, 68903); (69291, 69292); (69446, 69456); (69506, 69509);
    (69633, 69633); (69688, 69702); (69744, 69744); (69747, 69748);
    (69759, 69761); (69811, 69814); (69817, 69818); (69821, 69821);
    (69826, 69826); (69837, 69837); (69888, 69890); (69927, 69931);
    (69933, 69940); (70003, 70003); (70016, 70017); (70070, 70078);
    (70089, 70092); (70095, 70095); (70191, 70193); (70196, 70196);
    (70198, 70199); (70206, 70206); (70367, 70367); (70371, 70378);
    (70400, 70401); (70459, 70460); (70464, 70464); (70502, 70508);
    (70512, 70516); (70712, 70719); (70722, 70724); (70726, 70726);
    (70750, 70750); (70835, 70840); (70842, 70842); (70847, 70848);
    (70850, 70851); (71090, 71093); (71100, 71101); (71103, 71104);
    (71132, 71133); (71219, 71226); (71229, 71229); (71231, 71232);
    (71339, 71339); (71341, 71341); (71344, 71349); (71351, 71351);
    (71453, 71455); (71458, 71461); (71463, 71467); (71727, 71735);
    (71737, 71738); (71995, 71996); (71998, 71998); (72003, 72003);
    (72148, 72151); (72154, 72155); (72160, 72160); (72193, 72202);
    (72243, 72248); (72251, 72254); (72263, 72263); (72273, 72278);
    (72281, 72283); (72330, 72342); (72344, 72345); (72752, 72758);
    (72760, 72765); (72767, 72767); (72850, 72871); (72874, 72880);
    (72882, 72883); (72885, 72886); (73009, 73014); (73018, 73018);
    (73020, 73021); (73023, 73029); (73031, 73031); (73104, 73105);
    (73109, 73109); (73111, 73111); (73459, 73460); (78896, 78904);
    (92912, 92916); (92976, 92982); (92992, 92995); (94031, 94031);
    (94095, 94111); (94176, 94177); (94179, 94180); (110576, 110579);
    (110581, 110587); (110589, 110590); (113821, 113822); (113824, 113827);
    (118528, 118573); (118576, 118598); (119143, 119145); (119155, 119170);
    (119173, 119179); (119210, 119213); (119362, 119364); (121344, 121398);
    (121403, 121452); (121461, 121461); (121476, 121476); (121499, 121503);
    (121505, 121519); (122880, 122886); (122888, 122904); (122907, 122913);
    (122915, 122916); (122918, 122922); (123184, 123197); (123566, 123566);
    (123628, 123631); (125136, 125142); (125252, 125259); (127995, 127999);
    (917505, 917505); (917536, 917631); (917760, 917999) ]%N.

(** The lower-case mapping: [(first, last, step, target)] sends the
    characters [first], [first + step], ... up to [last] to [target],
    [target + step], ...  Every other character is its own lower case,
    but for the two characters [lower_point] and [lower_points] name. *)
Definition lower_table : list (N * N * N * N) :=
  [ (65, 90, 1, 97); (192, 214, 1, 224); (216, 222, 1, 248); (256, 302, 2, 257);
    (306, 310, 2, 307); (313, 327, 2, 314); (330, 374, 2, 331);
    (376, 376, 1, 255); (377, 381, 2, 378); (385, 385, 1, 595);
    (386, 388, 2, 387); (390, 390, 1, 596); (391, 391, 1, 392);
    (393, 394, 1, 598); (395, 395, 1, 396); (398, 398, 1, 477);
    (399, 399, 1, 601); (400, 400, 1, 603); (401, 401, 1, 402);
    (403, 403, 1, 608); (404, 404, 1, 611); (406, 406, 1, 617);
    (407, 407, 1, 616); (408, 408, 1, 409); (412, 412, 1, 623);
    (413, 413, 1, 626); (415, 415, 1, 629); (416, 420, 2, 417);
    (422, 422, 1, 640); (423, 423, 1, 424); (425, 425, 1, 643);
    (428, 428, 1, 429); (430, 430, 1, 648); (431, 431, 1, 432);
    (433, 434, 1, 650); (435, 437, 2, 436); (439, 439, 1, 658);
    (440, 440, 1, 441); (444, 444, 1, 445); (452, 452, 1, 454);
    (453, 453, 1, 454); (455, 455, 1, 457); (456, 456, 1, 457);
    (458, 458, 1, 460); (459, 475, 2, 460); (478, 494, 2, 479);
    (497, 497, 1, 499); (498, 500, 2, 499); (502, 502, 1, 405);
    (503, 503, 1, 447); (504, 542, 2, 505); (544, 544, 1, 414);
    (546, 562, 2, 547); (570, 570, 1, 11365); (571, 571, 1, 572);
    (573, 573, 1, 410); (574, 574, 1, 11366); (577, 577, 1, 578);
    (579, 579, 1, 384); (580, 580, 1, 649); (581, 581, 1, 652);
    (582, 590, 2, 583); (880, 882, 2, 881); (886, 886, 1, 887);
    (895, 895, 1, 1011); (902, 902, 1, 940); (904, 906, 1, 941);
    (908, 908, 1, 972); (910, 911, 1, 973); (913, 929, 1, 945);
    (932, 939, 1, 964); (975, 975, 1, 983); (984, 1006, 2, 985);
    (1012, 1012, 1, 952); (1015, 1015, 1, 1016); (1017, 1017, 1, 1010);
    (1018, 1018, 1, 1019); (1021, 1023, 1, 891); (1024, 1039, 1, 1104);
    (1040, 1071, 1, 1072); (1120, 1152, 2, 1121); (1162, 1214, 2, 1163);
    (1216, 1216, 1, 1231); (1217, 1229, 2, 1218); (1232, 1326, 2, 1233);
    (1329, 1366, 1, 1377); (4256, 4293, 1, 11520); (4295, 4295, 1, 11559);
    (4301, 4301, 1, 11565); (5024, 5103, 1, 43888); (5104, 5109, 1, 5112);
    (7312, 7354, 1, 4304); (7357, 7359, 1, 4349); (7680, 7828, 2, 7681);
    (7838, 7838, 1, 223); (7840, 7934, 2, 7841); (7944, 7951, 1, 7936);
    (7960, 7965, 1, 7952); (7976, 7983, 1, 7968); (7992, 7999, 1, 7984);
    (8008, 8013, 1, 8000); (8025, 8031, 2, 8017); (8040, 8047, 1, 8032);
    (8072, 8079, 1, 8064); (8088, 8095, 1, 8080); (8104, 8111, 1, 8096);
    (8120, 8121, 1, 8112); (8122, 8123, 1, 8048); (8124, 8124, 1, 8115);
    (8136, 8139, 1, 8050); (8140, 8140, 1, 8131); (8152, 8153, 1, 8144);
    (8154, 8155, 1, 8054); (8168, 8169, 1, 8160); (8170, 8171, 1, 8058);
    (8172, 8172, 1, 8165); (8184, 8185, 1, 8056); (8186, 8187, 1, 8060);
    (8188, 8188, 1, 8179); (8486, 8486, 1, 969); (8490, 8490, 1, 107);
    (8491, 8491, 1, 229); (8498, 8498, 1, 8526); (8544, 8559, 1, 8560);
    (8579, 8579, 1, 8580); (9398, 9423, 1, 9424); (11264, 11311, 1, 11312);
    (11360, 11360, 1, 11361); (11362, 11362, 1, 619); (11363, 11363, 1, 7549);
    (11364, 11364, 1, 637); (11367, 11371, 2, 11368); (11373, 11373, 1, 593);
    (11374, 11374, 1, 625); (11375, 11375, 1, 592); (11376, 11376, 1, 594);
    (11378, 11378, 1, 11379); (11381, 11381, 1, 11382); (11390, 11391, 1, 575);
    (11392, 11490, 2, 11393); (11499, 11501, 2, 11500);
    (11506, 11506, 1, 11507); (42560, 42604, 2, 42561);
    (42624, 42650, 2, 42625); (42786, 42798, 2, 42787);
    (42802, 42862, 2, 42803); (42873, 42875, 2, 42874); (42877, 42877, 1, 7545);
    (42878, 42886, 2, 42879); (42891, 42891, 1, 42892); (42893, 42893, 1, 613);
    (42896, 42898, 2, 42897); (42902, 42920, 2, 42903); (42922, 42922, 1, 614);
    (42923, 42923, 1, 604); (42924, 42924, 1, 609); (42925, 42925, 1, 620);
    (42926, 42926, 1, 618); (42928, 42928, 1, 670); (42929, 42929, 1, 647);
    (42930, 42930, 1, 669); (42931, 42931, 1, 43859); (42932, 42946, 2, 42933);
    (42948, 42948, 1, 42900); (42949, 42949, 1, 642); (42950, 42950, 1, 7566);
    (42951, 42953, 2, 42952); (42960, 42960, 1, 42961);
    (42966, 42968, 2, 42967); (42997, 42997, 1, 42998);
    (65313, 65338, 1, 65345); (66560, 66599, 1, 66600);
    (66736, 66771, 1, 66776); (66928, 66964, 2, 66967);
    (66929, 66937, 2, 66968); (66941, 66953, 2, 66980);
    (66957, 66961, 2, 66996); (66965, 66965, 1, 67004);
    (68736, 68786, 1, 68800); (71840, 71871, 1, 71872);
    (93760, 93791, 1, 93792); (125184, 125217, 1, 125218) ]%N.

(** [c.isspace()], [c.isdigit()] for one character *)
Definition is_space (p : N) : bool := in_table space_table p.

Definition is_digit (p : N) : bool := in_table digit_table p.

(** The value of a decimal digit. *)
Definition decimal_value (p : N) : option Z :=
  match find (in_range p) decimal_table with
  | Some (first, _) => Some (Z.of_N ((p - first) mod 10))
  | None => None
  end.

Definition cased (p : N) : bool := in_table cased_table p.

Definition case_ignorable (p : N) : bool := in_table case_ignorable_table p.

(** The lower case of one character, out of context.  The capital I
    with a dot above (304) becomes an i and a combining dot. *)
Definition lower_point (p : N) : list N :=
  if (p =? 304)%N then [105; 775]%N
  else
    match find (fun r => match r with
                         | (first, last, step, _) =>
                             ((first <=? p) && (p <=? last)
                              && ((p - first) mod step =? 0))%N
                         end) lower_table with
    | Some (first, _, _, target) => [(target + (p - first))%N]
    | None => [p]
    end.

(** Whether a cased character follows, case-ignorable ones apart. *)
Fixpoint before_cased (l : list N) : bool :=
  match l with
  | [] => false
  | c :: l' => if case_ignorable c then before_cased l' else cased c
  end.

(** The lower case of a text.  The capital sigma (931) becomes the
    final sigma (962) when a cased character comes before it and none
    after it, case-ignorable characters apart, and the small sigma
    (963) otherwise; [after_cased] tells whether a cased character
    comes before. *)
Fixpoint lower_points (after_cased : bool) (l : list N) : list N :=
  match l with
  | [] => []
  | c :: l' =>
      (if (c =? 931)%N
       then [if after_cased && negb (before_cased l') then 962%N else 963%N]
       else lower_point c)
      ++ lower_points (if case_ignorable c then after_cased else cased c) l'
  end.

(** [str.lower()] *)
Definition lower (s : string) : string := encode (lower_points false (decode s)).

Fixpoint drop_space (l : list N) : list N :=
  match l with
  | [] => []
  | c :: l' => if is_space c then drop_space l' else l
  end.

(** [str.strip()] *)
Definition strip (s : string) : string :=
  encode (rev (drop_space (rev (drop_space (decode s))))).

(** truth value of a string *)
Definition truthy (s : string) : bool :=
  match s with EmptyString => false | _ => true end.

(** [needle in hay].  No encoded character starts inside another, so
    the text [needle] is part of the text [hay] exactly when its bytes
    are part of the bytes of [hay]. *)
Fixpoint contains (needle hay : string) : bool :=
  if String.prefix needle hay then true
  else match hay with
       | EmptyString => false
       | String _ hay' => contains needle hay'
       end.

(** [s.replace(a, b)] for two characters below 128, which are single
    bytes that are part of no other encoded character *)
Fixpoint replace (a b : ascii) (s : string) : string :=
  match s with
  | EmptyString => EmptyString
  | String c s' => String (if Ascii.eqb c a then b else c) (replace a b s')
  end.

(** [str.isdigit()]: there is at least one character and every
    character is a digit *)
Definition isdigit (s : string) : bool :=
  match decode s with
  | [] => false
  | l => forallb is_digit l
  end.

(** What [int] makes of a character: white space, a decimal digit with
    its value, a sign, an underscore, or anything else.  Below 127 only
    the six ASCII white-space characters and the ASCII digits count. *)
Inductive token : Type :=
| TSpace | TDigit (d : Z) | TPlus | TMinus | TUnderscore | TOther.

Definition token_of (p : N) : token :=
  if (p <? 127)%N then
    if (((9 <=? p) && (p <=? 13)) || (p =? 32))%N then TSpace
    else if ((48 <=? p) && (p <=? 57))%N then TDigit (Z.of_N (p - 48))
    else if (p =? 43)%N then TPlus
    else if (p =? 45)%N then TMinus
    else if (p =? 95)%N then TUnderscore
    else TOther
  else if is_space p then TSpace
  else match decimal_value p with
       | Some d => TDigit d
       | None => TOther
       end.

Fixpoint skip_spaces (l : list token) : list token :=
  match l with
  | TSpace :: l' => skip_spaces l'
  | _ => l
  end.

(** The digits after the first, with single underscores between
    digits: the number read, the number of digits and what follows
    them. *)
Fixpoint more_digits (acc : Z) (count : nat) (after_underscore : bool)
    (l : list token) : option (Z * nat * list token) :=
  match l with
  | TDigit d :: l' => more_digits (10 * acc + d) (S count) false l'
  | TUnderscore :: l' =>
      if after_underscore then None else more_digits acc count true l'
  | _ => if after_underscore then None else Some (acc, count, l)
  end.

(** The interpreter bounds the decimal digits [int] reads and [str]
    writes: with the limit [sys.get_int_max_str_digits()], which is
    4300 unless the interpreter is told otherwise and 0 when there is
    none (as in the interpreters before the limit was introduced), a
    number of more than 640 digits and of more digits than a limit
    above 0 is refused with a [ValueError]. *)
Definition over_limit (limit digits : nat) : bool :=
  (640 <? digits) && (0 <? limit) && (limit <? digits).

(** The number a text denotes in base ten, with the number of its
    digits: white space, an optional sign, digits, white space; [None]
    when the text denotes no number. *)
Definition read_number (s : string) : option (Z * nat) :=
  let l := skip_spaces (map token_of (decode s)) in
  let signed := match l with
                | TPlus :: l' => (1%Z, l')
                | TMinus :: l' => ((-1)%Z, l')
                | _ => (1%Z, l)
                end in
  match snd signed with
  | TDigit d :: l' =>
      match more_digits d 1 false l' with
      | Some (v, count, rest) =>
          match skip_spaces rest with
          | [] => Some ((fst signed * v)%Z, count)
          | _ => None
          end
      | None => None
      end
  | _ => None
  end.

(** [int(s)], in base ten, under the limit [limit]; [None] when [int]
    raises [ValueError]: the text denotes no number, or one of too
    many digits. *)
Definition int (limit : nat) (s : string) : option Z :=
  match read_number s with
  | Some (z, count) => if over_limit limit count then None else Some z
  | None => None
  end.

(** The decimal digits of [n], most significant first, in front of
    [acc]; [fuel] bounds the number of digits. *)
Fixpoint digits (fuel : nat) (n : Z) (acc : string) : string :=
  match fuel with
  | O => acc
  | S fuel' =>
      let acc' := String (ascii_of_nat (48 + Z.to_nat (n mod 10))) acc in
      if (n / 10 =? 0)%Z then acc' else digits fuel' (n / 10) acc'
  end.

(** [str(z)] for an integer, under the limit [limit]: its decimal
    digits, after a minus sign when it is negative; [None] when [str]
    raises [ValueError], the digits being more than the limit. *)
Definition str_int (limit : nat) (z : Z) : option string :=
  let fuel := S (Z.to_nat (Z.log2 (Z.abs z))) in
  let text := digits fuel (Z.abs z) EmptyString in
  if over_limit limit (String.length text) then None
  else Some (if (z <? 0)%Z then String "-" text else text).

End Py.

(** ** Selenium: exceptions, locators, commands *)

(** The exception classes the program distinguishes.  All of them are
    subclasses of [Exception]; the first three are subclasses of
    [WebDriverException]. *)
Inductive exn : Type :=
| TimeoutException
| NoSuchElementException
| ElementClickInterceptedException
| WebDriverException   (* any other WebDriverException: stale element,
                          element not interactable, session lost, ... *)
| AttributeError       (* attribute access on [None] *)
| Exception.           (* any other exception, and [raise Exception(..)] *)

Definition is_TimeoutException (e : exn) : bool :=
  match e with TimeoutException => true | _ => false end.

Definition is_NoSuchElementException (e : exn) : bool :=
  match e with NoSuchElementException => true | _ => false end.

Definition is_ElementClickInterceptedException (e : exn) : bool :=
  match e with ElementClickInterceptedException => true | _ => false end.

Definition is_WebDriverException (e : exn) : bool :=
  match e with
  | TimeoutException | NoSuchElementException
  | ElementClickInterceptedException | WebDriverException => true
  | AttributeError | Exception => false
  end.

(** [except Exception] and a bare [except:] *)
Definition is_Exception (e : exn) : bool := true.

Inductive By : Type := ID | XPATH | NAME | CLASS_NAME | CSS_SELECTOR | TAG_NAME.

Definition locator : Type := (By * string)%type.

(** the expected conditions the program waits for *)
Inductive condition : Type :=
| element_to_be_clickable
| presence_of_element_located
| presence_of_all_elements_located.

(** a remote handle on a page element *)
Definition element : Type := nat.

Definition session_id : Type := nat.

Inductive pyval : Type := PInt (z : Z) | PStr (s : string).

Inductive jsarg : Type := AElement (e : element) | AValue (v : pyval).

(** What the program asks of the browser (and of the clock). *)
Inductive command : Type :=
| CInstall                                   (* ChromeDriverManager().install() *)
| CNewSession (headless : bool)              (* webdriver.Chrome(..) *)
| CQuit (d : session_id)                     (* driver.quit() *)
| CGet (url : string)                        (* driver.get(url) *)
| CUntil (timeout : nat) (c : condition) (l : locator)
                                             (* WebDriverWait(driver, timeout).until(c(l)) *)
| CFindElement (l : locator)                 (* driver.find_element *)
| CFindElements (l : locator)                (* driver.find_elements *)
| CFindElementIn (parent : element) (l : locator)   (* element.find_element *)
| CFindElementsIn (parent : element) (l : locator)  (* element.find_elements *)
| CClick (e : element)                       (* element.click() *)
| CClear (e : element)                       (* element.clear() *)
| CSendKeys (e : element) (text : string)    (* element.send_keys(text) *)
| CText (e : element)                        (* element.text *)
| CIsDisplayed (e : element)                 (* element.is_displayed() *)
| CExecuteScript (script : string) (args : list jsarg)
                                             (* driver.execute_script *)
| CSwitchToFrame (e : element)               (* driver.switch_to.frame *)
| CSwitchToDefaultContent                    (* driver.switch_to.default_content() *)
| CSaveScreenshot (file : string)            (* driver.save_screenshot *)
| CActionChainsClick (e : element)
    (* ActionChains(driver).move_to_element(e).click().perform() *)
| CSleep (milliseconds : Z).               (* time.sleep *)

(** One entry of the trace: the command attempted and how it failed, if
    it did. *)
Record event : Type := Ev { cmd : command; failure : option exn }.

(** ** The state: the browser and the automator's fields *)

(** The answers of the browser, by the number of commands sent before. *)
Record browser : Type := {
  reply_unit : nat -> option exn;
  reply_element : nat -> exn + element;
  reply_elements : nat -> exn + list element;
  reply_bool : nat -> exn + bool;
  reply_text : nat -> exn + string
}.

Inductive context : Type := DefaultContent | InFrame (iframe : element).

(** [WebDriverWait(driver, timeout)]; the driver it was built on may be
    [None] *)
Record WebDriverWait : Type := { wait_driver : option session_id; timeout : nat }.

(** the fields of an [ElementInteraction] object *)
Record Interaction : Type := { ei_driver : session_id; ei_wait : WebDriverWait }.

Record core : Type := {
  (* the outside world *)
  ui : browser;
  tick : nat;
  open_sessions : list session_id;
  context_of : context;
  (* the fields of [SupersetAutomator] *)
  url : string;
  username : string;
  password : string;
  headless : bool;
  driver : option session_id;
  wait : option WebDriverWait;
  element_interaction : option Interaction
}.

Definition bump (s : core) : core :=
  {| ui := ui s; tick := S (tick s); open_sessions := open_sessions s;
     context_of := context_of s;
     url := url s; username := username s; password := password s;
     headless := headless s; driver := driver s; wait := wait s;
     element_interaction := element_interaction s |}.

Definition set_context (k : context) (s : core) : core :=
  {| ui := ui s; tick := tick s; open_sessions := open_sessions s;
     context_of := k;
     url := url s; username := username s; password := password s;
     headless := headless s; driver := driver s; wait := wait s;
     element_interaction := element_interaction s |}.

Definition set_open_sessions (l : list session_id) (s : core) : core :=
  {| ui := ui s; tick := tick s; open_sessions := l;
     context_of := context_of s;
     url := url s; username := username s; password := password s;
     headless := headless s; driver := driver s; wait := wait s;
     element_interaction := element_interaction s |}.

Definition set_driver (d : session_id) (s : core) : core :=
  {| ui := ui s; tick := tick s; open_sessions := open_sessions s;
     context_of := context_of s;
     url := url s; username := username s; password := password s;
     headless := headless s; driver := Some d; wait := wait s;
     element_interaction := element_interaction s |}.

Definition set_wait (w : WebDriverWait) (s : core) : core :=
  {| ui := ui s; tick := tick s; open_sessions := open_sessions s;
     context_of := context_of s;
     url := url s; username := username s; password := password s;
     headless := headless s; driver := driver s; wait := Some w;
     element_interaction := element_interaction s |}.

Definition set_element_interaction (i : Interaction) (s : core) : core :=
  {| ui := ui s; tick := tick s; open_sessions := open_sessions s;
     context_of := context_of s;
     url := url s; username := username s; password := password s;
     headless := headless s; driver := driver s; wait := wait s;
     element_interaction := Some i |}.

(** ** The monad *)

(** How a block of statements ends: it falls through with a value, it
    executes [return r], or it raises. *)
Inductive outcome (R A : Type) : Type :=
| Normal (a : A)
| Returned (r : R)
| Raised (e : exn).

Arguments Normal {R A} a.
Arguments Returned {R A} r.
Arguments Raised {R A} e.

(** [E] is the type of trace entries, [R] the return type of the
    enclosing function, [A] the value of the block. *)
Definition M (E R A : Type) : Type := core -> outcome R A * core * list E.

Definition ret {E R A} (a : A) : M E R A := fun s => (Normal a, s, []).

Definition bind {E R A B} (m : M E R A) (f : A -> M E R B) : M E R B :=
  fun s =>
    match m s with
    | (Normal a, s1, t1) =>
        match f a s1 with (r, s2, t2) => (r, s2, t1 ++ t2) end
    | (Returned r, s1, t1) => (Returned r, s1, t1)
    | (Raised e, s1, t1) => (Raised e, s1, t1)
    end.

Notation "x <- m ;; k" := (bind m (fun x => k))
  (at level 61, m at next level, right associativity).
Notation "m ;; k" := (bind m (fun _ => k))
  (at level 61, right associativity).

(** [return r] *)
Definition return_ {E R A} (r : R) : M E R A := fun s => (Returned r, s, []).

(** [raise e] *)
Definition raise {E R A} (e : exn) : M E R A := fun s => (Raised e, s, []).

(** reading a field of [self] *)
Definition gets {E R A} (f : core -> A) : M E R A := fun s => (Normal (f s), s, []).

Definition modify {E R} (f : core -> core) : M E R unit :=
  fun s => (Normal tt, f s, []).

(** A function call: the body's [return r] and its final value are both
    the value of the call. *)
Definition call {E R R'} (body : M E R R) : M E R' R :=
  fun s =>
    match body s with
    | (Normal r, s1, t1) => (Normal r, s1, t1)
    | (Returned r, s1, t1) => (Normal r, s1, t1)
    | (Raised e, s1, t1) => (Raised e, s1, t1)
    end.

(** [except C as e: handler], as the test for the class and the handler *)
Definition clause (E R A : Type) : Type := ((exn -> bool) * (exn -> M E R A))%type.

Fixpoint pick {E R A} (e : exn) (cs : list (clause E R A)) : option (M E R A) :=
  match cs with
  | [] => None
  | (test, h) :: cs' => if test e then Some (h e) else pick e cs'
  end.

(** [try: body except ..: ..]: the first clause whose class matches
    handles the exception; what a handler raises is not handled here. *)
Definition try_except {E R A} (body : M E R A) (cs : list (clause E R A)) : M E R A :=
  fun s =>
    match body s with
    | (Raised e, s1, t1) =>
        match pick e cs with
        | Some h => match h s1 with (r, s2, t2) => (r, s2, t1 ++ t2) end
        | None => (Raised e, s1, t1)
        end
    | other => other
    end.

(** [try: body finally: fin]: [fin] runs on every way out of [body]; the
    way out is [body]'s unless [fin] itself returns or raises. *)
Definition try_finally {E R A} (body : M E R A) (fin : M E R unit) : M E R A :=
  fun s =>
    match body s with
    | (r, s1, t1) =>
        match fin s1 with
        | (Normal _, s2, t2) => (r, s2, t1 ++ t2)
        | (Returned x, s2, t2) => (Returned x, s2, t1 ++ t2)
        | (Raised e, s2, t2) => (Raised e, s2, t1 ++ t2)
        end
    end.

(** One round of a [for] loop ends with [continue] (or by falling
    through) or with [break]; the loop carries the local variables it
    assigns. *)
Inductive control (S : Type) : Type := Continue (s : S) | Break (s : S).
Arguments Continue {S} s.
Arguments Break {S} s.

Fixpoint for_ {E R X S} (xs : list X) (acc : S) (body : X -> S -> M E R (control S))
  : M E R S :=
  match xs with
  | [] => ret acc
  | x :: xs' =>
      c <- body x acc ;;
      match c with
      | Continue acc' => for_ xs' acc' body
      | Break acc' => ret acc'
      end
  end.

(** ** Remote commands *)

Section Remote.
Context {R : Type}.

Definition failure_of {A} (a : exn + A) : option exn :=
  match a with inl e => Some e | inr _ => None end.

Definition outcome_of {A} (a : exn + A) : outcome R A :=
  match a with inl e => Raised e | inr x => Normal x end.

Definition remote_unit (c : command) : M event R unit :=
  fun s =>
    let a := reply_unit (ui s) (tick s) in
    (match a with Some e => Raised e | None => Normal tt end, bump s, [Ev c a]).

Definition remote_element (c : command) : M event R element :=
  fun s =>
    let a := reply_element (ui s) (tick s) in
    (outcome_of a, bump s, [Ev c (failure_of a)]).

Definition remote_elements (c : command) : M event R (list element) :=
  fun s =>
    let a := reply_elements (ui s) (tick s) in
    (outcome_of a, bump s, [Ev c (failure_of a)]).

Definition remote_bool (c : command) : M event R bool :=
  fun s =>
    let a := reply_bool (ui s) (tick s) in
    (outcome_of a, bump s, [Ev c (failure_of a)]).

Definition remote_text (c : command) : M event R string :=
  fun s =>
    let a := reply_text (ui s) (tick s) in
    (outcome_of a, bump s, [Ev c (failure_of a)]).

(** [time.sleep]; the duration is kept in milliseconds *)
Definition sleep (ms : Z) : M event R unit :=
  fun s => (Normal tt, s, [Ev (CSleep ms) None]).

(** [w.until(c(l))] for the two conditions on one element.  A wait
    built on a missing driver fails on the attribute access, before
    any command is sent. *)
Definition until (w : WebDriverWait) (c : condition) (l : locator)
  : M event R element :=
  match wait_driver w with
  | None => raise AttributeError
  | Some _ => remote_element (CUntil (timeout w) c l)
  end.

(** [w.until(EC.presence_of_all_elements_located(l))]: [until] returns
    only a true value, so an empty list of elements is a timeout. *)
Definition until_all (w : WebDriverWait) (l : locator)
  : M event R (list element) :=
  match wait_driver w with
  | None => raise AttributeError
  | Some _ =>
      fun s =>
        let c := CUntil (timeout w) presence_of_all_elements_located l in
        match reply_elements (ui s) (tick s) with
        | inl e => (Raised e, bump s, [Ev c (Some e)])
        | inr [] => (Raised TimeoutException, bump s, [Ev c (Some TimeoutException)])
        | inr (x :: xs) => (Normal (x :: xs), bump s, [Ev c None])
        end
  end.

(** Methods of the driver; [d] is the receiver. *)
Definition get (d : session_id) (u : string) : M event R unit :=
  remote_unit (CGet u).
Definition find_element (d : session_id) (l : locator) : M event R element :=
  remote_element (CFindElement l).
Definition find_elements (d : session_id) (l : locator) : M event R (list element) :=
  remote_elements (CFindElements l).
Definition execute_script (d : session_id) (script : string) (args : list jsarg)
  : M event R unit :=
  remote_unit (CExecuteScript script args).
Definition save_screenshot (d : session_id) (file : string) : M event R unit :=
  remote_unit (CSaveScreenshot file).
Definition action_chains_click (d : session_id) (e : element) : M event R unit :=
  remote_unit (CActionChainsClick e).

(** [driver.switch_to.frame(e)] moves the interaction context into the
    frame when the command succeeds. *)
Definition switch_to_frame (d : session_id) (e : element) : M event R unit :=
  fun s =>
    let a := reply_unit (ui s) (tick s) in
    match a with
    | Some x => (Raised x, bump s, [Ev (CSwitchToFrame e) a])
    | None => (Normal tt, set_context (InFrame e) (bump s), [Ev (CSwitchToFrame e) a])
    end.

(** [driver.switch_to.default_content()] *)
Definition switch_to_default_content (d : session_id) : M event R unit :=
  fun s =>
    let a := reply_unit (ui s) (tick s) in
    match a with
    | Some x => (Raised x, bump s, [Ev CSwitchToDefaultContent a])
    | None => (Normal tt, set_context DefaultContent (bump s), [Ev CSwitchToDefaultContent a])
    end.

(** Methods of an element. *)
Definition click (e : element) : M event R unit := remote_unit (CClick e).
Definition clear (e : element) : M event R unit := remote_unit (CClear e).
Definition send_keys (e : element) (text : string) : M event R unit :=
  remote_unit (CSendKeys e text).
Definition text (e : element) : M event R string := remote_text (CText e).
Definition is_displayed (e : element) : M event R bool := remote_bool (CIsDisplayed e).
Definition find_element_in (e : element) (l : locator) : M event R element :=
  remote_element (CFindElementIn e l).
Definition find_elements_in (e : element) (l : locator) : M event R (list element) :=
  remote_elements (CFindElementsIn e l).

(** [ChromeDriverManager().install()] *)
Definition install : M event R unit := remote_unit CInstall.

(** [webdriver.Chrome(..)]: on success a new session is open; it is
    named by the number of the command that opened it. *)
Definition Chrome (headless : bool) : M event R session_id :=
  fun s =>
    let a := reply_unit (ui s) (tick s) in
    match a with
    | Some x => (Raised x, bump s, [Ev (CNewSession headless) a])
    | None => (Normal (tick s),
               set_open_sessions (tick s :: open_sessions s) (bump s),
               [Ev (CNewSession headless) a])
    end.

(** [driver.quit()].  Selenium's Chromium driver swallows every error
    of the remote quit command and then stops the driver service, so
    [quit] does not raise and the session is gone afterwards. *)
Definition quit (d : session_id) : M event R unit :=
  fun s =>
    let a := reply_unit (ui s) (tick s) in
    (Normal tt,
     set_open_sessions (remove Nat.eq_dec d (open_sessions s)) (bump s),
     [Ev (CQuit d) a]).

(** [self.driver], [self.wait] and [self.element_interaction]: the
    attribute access that follows fails on [None]. *)
Definition self_driver : M event R session_id :=
  fun s => match driver s with
           | Some d => (Normal d, s, [])
           | None => (Raised AttributeError, s, [])
           end.

Definition self_wait : M event R WebDriverWait :=
  fun s => match wait s with
           | Some w => (Normal w, s, [])
           | None => (Raised AttributeError, s, [])
           end.

Definition self_element_interaction : M event R Interaction :=
  fun s => match element_interaction s with
           | Some i => (Normal i, s, [])
           | None => (Raised AttributeError, s, [])
           end.

(** [WebDriverWait(self.driver, t)] *)
Definition new_wait (t : nat) : M event R WebDriverWait :=
  gets (fun s => {| wait_driver := driver s; timeout := t |}).

End Remote.

(** The scripts the program runs in the page. *)
Definition js_scroll_center : string :=
  "arguments[0].scrollIntoView({block: 'center'});".
Definition js_scroll_center_smooth : string :=
  "arguments[0].scrollIntoView({block: 'center', behavior: 'smooth'});".
Definition js_scroll_true : string := "arguments[0].scrollIntoView(true);".
Definition js_click : string := "arguments[0].click();".
Definition js_set_value : string :=
  "arguments[0].value = arguments[1]; arguments[0].dispatchEvent(new Event('input'));".
Definition js_scroll_top : string := "window.scrollTo(0, 0);".
Definition js_force_checked : string :=
  "arguments[0].checked = true; arguments[0].dispatchEvent(new Event('change'));".

(** ** [JobData] *)

Record JobData : Type := {
  company_name : string;
  job_title : string;
  location : string;
  min_salary : Z;
  max_salary : Z;
  job_description : string;
  job_function : string;
  salary_breakup : string;
  posted_by : string;
  timestamp : string;
  is_ai_generated : bool
}.

(** [JobData(company_name=.., job_title=..)]: the other fields take the
    defaults of the dataclass. *)
Definition JobData_defaults (company title : string) : JobData :=
  {| company_name := company;
     job_title := title;
     location := "Pune";
     min_salary := 1000000;
     max_salary := 1500000;
     job_description := EmptyString;
     job_function := EmptyString;
     salary_breakup := EmptyString;
     posted_by := EmptyString;
     timestamp := EmptyString;
     is_ai_generated := false |}.

(** ** [class ElementInteraction] *)

Module ElementInteraction.

(** [safe_click(self, element)] *)
Definition safe_click {R} (self : Interaction) (el : element) : M event R bool :=
  call
    (try_except
       (execute_script (ei_driver self) js_scroll_center [AElement el] ;;
        sleep 500 ;;
        click el ;;
        return_ true)
       [ (is_ElementClickInterceptedException, fun _ =>
          try_except
            (execute_script (ei_driver self) js_click [AElement el] ;;
             return_ true)
            [ (is_Exception, fun _ => return_ false) ]);
         (is_Exception, fun _ => return_ false) ]).

(** [safe_input(self, element, value)] *)
Definition safe_input {R} (self : Interaction) (el : element) (value : string)
  : M event R bool :=
  call
    (try_except
       (clear el ;;
        send_keys el value ;;
        return_ true)
       [ (is_Exception, fun _ => return_ false) ]).

(** [js_input(self, element, value)] *)
Definition js_input {R} (self : Interaction) (el : element) (value : pyval)
  : M event R bool :=
  call
    (try_except
       (execute_script (ei_driver self) js_set_value [AElement el; AValue value] ;;
        return_ true)
       [ (is_Exception, fun _ => return_ false) ]).

End ElementInteraction.

(** ** [class SupersetAutomator] *)

Module SupersetAutomator.

Import ElementInteraction.

(** [SupersetAutomator(url, username, password, headless)] in front of
    a browser [b]: no driver yet, nothing open. *)
Definition init (b : browser) (u n p : string) (h : bool) : core :=
  {| ui := b; tick := 0; open_sessions := []; context_of := DefaultContent;
     url := u; username := n; password := p; headless := h;
     driver := None; wait := None; element_interaction := None |}.

(** [self.wait.until(EC.c(l))] *)
Definition wait_until {R} (c : condition) (l : locator) : M event R element :=
  w <- self_wait ;; until w c l.

Definition wait_until_all {R} (l : locator) : M event R (list element) :=
  w <- self_wait ;; until_all w l.

(** [self.driver.execute_script(script, *args)] and the like *)
Definition driver_execute_script {R} (script : string) (args : list jsarg)
  : M event R unit :=
  d <- self_driver ;; execute_script d script args.

Definition driver_find_element {R} (l : locator) : M event R element :=
  d <- self_driver ;; find_element d l.

Definition driver_find_elements {R} (l : locator) : M event R (list element) :=
  d <- self_driver ;; find_elements d l.

Definition driver_save_screenshot {R} (file : string) : M event R unit :=
  d <- self_driver ;; save_screenshot d file.

(** [ActionChains(self.driver).move_to_element(e).click().perform()] *)
Definition driver_action_chains_click {R} (e : element) : M event R unit :=
  d <- self_driver ;; action_chains_click d e.

(** [setup_driver(self)] *)
Definition setup_driver {R} : M event R unit :=
  call
    (try_except
       (h <- gets headless ;;
        install ;;
        d <- Chrome h ;;
        modify (set_driver d) ;;
        modify (set_wait {| wait_driver := Some d; timeout := 15 |}) ;;
        modify (set_element_interaction
                  {| ei_driver := d;
                     ei_wait := {| wait_driver := Some d; timeout := 15 |} |}))
       [ (is_WebDriverException, fun e => raise e) ]).

(** [_find_login_button(self)] *)
Definition _find_login_button {R} : M event R (option element) :=
  call
    (try_except
       (b <- wait_until element_to_be_clickable
               (XPATH, "//input[@type='submit' and @value='Login']") ;;
        return_ (Some b))
       [ (is_TimeoutException, fun _ =>
          try_except
            (b <- driver_find_element (XPATH, "//button[contains(text(),'Login')]") ;;
             return_ (Some b))
            [ (is_NoSuchElementException, fun _ =>
               try_except
                 (b <- driver_find_element (CSS_SELECTOR, "button") ;;
                  return_ (Some b))
                 [ (is_NoSuchElementException, fun _ => return_ None) ]) ]) ]).

(** [_check_for_login_errors(self)] *)
Definition _check_for_login_errors {R} : M event R bool :=
  call
    (sleep 2000 ;;
     try_except
       (error_element <- driver_find_element (XPATH, "//div[contains(@class, 'error')]") ;;
        t <- text error_element ;;
        let error_text := Py.lower (Py.strip t) in
        if Py.truthy error_text then return_ true else ret tt)
       [ (is_NoSuchElementException, fun _ => ret tt) ] ;;
     return_ false).

(** [login(self)] *)
Definition login {R} : M event R bool :=
  call
    (try_except
       (d <- self_driver ;; u <- gets url ;; get d u ;;
        email_input <- wait_until element_to_be_clickable (ID, "email") ;;
        password_input <- wait_until element_to_be_clickable (ID, "password") ;;
        ei <- self_element_interaction ;; n <- gets username ;;
        safe_input ei email_input n ;;
        ei <- self_element_interaction ;; p <- gets password ;;
        safe_input ei password_input p ;;
        login_button <- _find_login_button ;;
        match login_button with
        | None => return_ false
        | Some login_button =>
            ei <- self_element_interaction ;;
            safe_click ei login_button ;;
            errors <- _check_for_login_errors ;;
            if errors then return_ false
            else
              try_except
                (wait_until presence_of_element_located (ID, "ui_container") ;;
                 return_ true)
                [ (is_TimeoutException, fun _ => return_ false) ]
        end)
       [ (is_TimeoutException, fun _ => return_ false);
         (is_NoSuchElementException, fun _ => return_ false);
         (is_Exception, fun _ => return_ false) ]).

(** [is_on_job_posting_form(self)] *)
Definition is_on_job_posting_form {R} : M event R bool :=
  call
    (try_except
       (wait_until presence_of_element_located (NAME, "createJobProfileForm") ;;
        driver_find_element
          (XPATH, "//label[@for='campus_placement' and contains(text(), 'Company')]") ;;
        return_ true)
       [ (is_TimeoutException, fun _ => return_ false);
         (is_NoSuchElementException, fun _ => return_ false);
         (is_Exception, fun _ => return_ false) ]).

(** [select_placement_option(self, option_text)] *)
Definition select_placement_option {R} (option_text : string) : M event R bool :=
  call
    (try_except
       (dropdown_button <- wait_until element_to_be_clickable
                             (XPATH, "//button[contains(text(),'Add Job Profile')]") ;;
        driver_execute_script js_scroll_center [AElement dropdown_button] ;;
        sleep 500 ;;
        b <- wait_until element_to_be_clickable
               (XPATH, "//button[contains(text(),'Add Job Profile')]") ;;
        click b ;;
        sleep 1000 ;;
        placement_option <- wait_until element_to_be_clickable
          (XPATH, String.append "//ul[contains(@class, 'dropdown-menu')]//a[contains(text(), '"
                    (String.append option_text "')]")) ;;
        click placement_option ;;
        sleep 5000 ;;
        return_ true)
       [ (is_TimeoutException, fun _ => return_ false);
         (is_Exception, fun _ => return_ false) ]).

(** [add_new_company(self, company_name)] *)
Definition add_new_company {R} (company_name : string) : M event R bool :=
  call
    (try_except
       (no_match_message <- driver_find_element
          (XPATH, "//p[contains(text(), 'No matching companies found in your account')]") ;;
        shown <- is_displayed no_match_message ;;
        if shown then
          add_new_company_button <- driver_find_element
            (XPATH, "//button[@type='button' and @ng-click='addNewCompany(true);']") ;;
          click add_new_company_button ;;
          wait_until presence_of_element_located
            (XPATH, "//h3[@class='modal-title' and text()='Add a Company Contact']") ;;
          company_name_input <- wait_until presence_of_element_located (ID, "companyName") ;;
          clear company_name_input ;;
          send_keys company_name_input company_name ;;
          company_list <- wait_until_all
            (XPATH, "//ul[contains(@class, 'inline-select-list')]/li") ;;
          (* the loop sets [selected], which only the log reads *)
          for_ company_list false (fun company selected =>
            t <- text company ;;
            if String.eqb (Py.lower company_name) (Py.lower t) then
              text company ;;        (* the log line reads [company.text] *)
              click company ;;
              ret (Break true)
            else ret (Continue selected)) ;;
          add_company_button <- wait_until element_to_be_clickable
            (XPATH, "//button[@class='btn btn-primary' and @type='submit' and text()='Add Company']") ;;
          click add_company_button ;;
          wait_until presence_of_element_located
            (XPATH, "//div[@class='toast-message' and text()='Company added successfully.']") ;;
          return_ true
        else ret tt)
       [ (is_NoSuchElementException, fun _ => ret tt);
         (is_Exception, fun _ => ret tt) ] ;;
     return_ false).

(** [select_company(self, company_name)] *)
Definition select_company {R} (company_name : string) : M event R bool :=
  call
    (try_except
       (company_input <- wait_until presence_of_element_located (ID, "campus_placement") ;;
        clear company_input ;;
        send_keys company_input company_name ;;
        sleep 1500 ;;
        suggestions <- wait_until_all
          (XPATH, "//ul[contains(@class, 'dropdown-menu')]/li/a") ;;
        for_ suggestions tt (fun suggestion _ =>
          t <- text suggestion ;;
          if Py.contains (Py.lower company_name) (Py.lower t) then
            text suggestion ;;       (* the log line reads [suggestion.text] *)
            click suggestion ;;
            return_ true
          else ret (Continue tt)) ;;
        return_ false)
       [ (is_TimeoutException, fun _ => return_ false);
         (is_Exception, fun _ => return_ false) ]).

(** [fill_company_data(self, company_name)] *)
Definition fill_company_data {R} (company_name : string) : M event R bool :=
  call
    (try_except
       (company_selected <- select_company company_name ;;
        (if negb company_selected then
           new_company_added <- add_new_company company_name ;;
           if new_company_added then
             select_company company_name ;;
             ret tt
           else return_ false
         else ret tt) ;;
        return_ true)
       [ (is_Exception, fun _ => return_ false) ]).

(** [fill_job_profile_title(self, job_title)] *)
Definition fill_job_profile_title {R} (job_title : string) : M event R bool :=
  call
    (try_except
       (job_title_input <- wait_until presence_of_element_located (ID, "title") ;;
        clear job_title_input ;;
        send_keys job_title_input job_title ;;
        return_ true)
       [ (is_TimeoutException, fun _ => return_ false);
         (is_Exception, fun _ => return_ false) ]).

(** [fill_job_profile_source(self)]: the loop returns in its first
    round. *)
Definition fill_job_profile_source {R} : M event R bool :=
  call
    (try_except
       (dropdown_container <- wait_until element_to_be_clickable
                                (CLASS_NAME, "chosen-container") ;;
        driver_execute_script js_scroll_center [AElement dropdown_container] ;;
        sleep 500 ;;
        click dropdown_container ;;
        sleep 500 ;;
        dropdown_options <- wait_until_all (CLASS_NAME, "active-result") ;;
        for_ dropdown_options tt (fun option _ =>
          driver_execute_script js_scroll_center [AElement option] ;;
          click option ;;
          return_ true) ;;
        return_ false)
       [ (is_TimeoutException, fun _ => return_ false);
         (is_Exception, fun _ => return_ false) ]).

(** [fill_job_location(self, location)] *)
Definition fill_job_location {R} (location : string) : M event R bool :=
  call
    (try_except
       (location_input <- wait_until presence_of_element_located (ID, "location") ;;
        clear location_input ;;
        send_keys location_input location ;;
        return_ true)
       [ (is_TimeoutException, fun _ => return_ false);
         (is_Exception, fun _ => return_ false) ]).

(** [fill_position_type(self)] *)
Definition fill_position_type {R} : M event R bool :=
  call
    (try_except
       (dropdown_container <- wait_until presence_of_element_located
                                (ID, "position_type_chosen") ;;
        driver_execute_script js_scroll_center [AElement dropdown_container] ;;
        dropdown_toggle <- find_element_in dropdown_container (CLASS_NAME, "chosen-single") ;;
        click dropdown_toggle ;;
        full_time_option <- wait_until element_to_be_clickable
          (XPATH, "//div[@id='position_type_chosen']//ul[contains(@class, 'chosen-results')]/li[normalize-space()='Full Time']") ;;
        click full_time_option ;;
        return_ true)
       [ (is_TimeoutException, fun _ => ret tt);
         (is_NoSuchElementException, fun _ => ret tt);
         (is_ElementClickInterceptedException, fun _ => ret tt);
         (is_Exception, fun _ => ret tt) ] ;;
     return_ false).

(** [fill_job_function(self, item)] *)
Definition fill_job_function {R} (item : string) : M event R bool :=
  call
    (try_except
       (container <- wait_until element_to_be_clickable (ID, "sectorCode_chosen") ;;
        click container ;;
        input_box <- find_element_in container
          (XPATH, ".//input[@class='chosen-search-input' or contains(@class, 'default')]") ;;
        clear input_box ;;
        send_keys input_box item ;;
        match_option <- wait_until element_to_be_clickable
          (XPATH, String.append
                    "//div[@id='sectorCode_chosen']//ul[@class='chosen-results']/li[normalize-space()='"
                    (String.append item "']")) ;;
        click match_option ;;
        return_ true)
       [ (is_TimeoutException, fun _ => ret tt);
         (is_Exception, fun _ => ret tt) ] ;;
     return_ false).

(** [fill_category(self)] *)
Definition fill_category {R} : M event R bool :=
  call
    (try_except
       (dropdown <- wait_until element_to_be_clickable (ID, "jpCategory_chosen") ;;
        click dropdown ;;
        option <- wait_until element_to_be_clickable
          (XPATH, "//div[@id='jpCategory_chosen']//ul[@class='chosen-results']/li[normalize-space()='Level 1 - Open to all students']") ;;
        click option ;;
        return_ true)
       [ (is_Exception, fun _ => return_ false) ]).

(** [add_ctc_details(self, min_salary, max_salary)]: what the two
    calls of [js_input] return is dropped. *)
Definition add_ctc_details {R} (min_salary max_salary : Z) : M event R bool :=
  call
    (try_except
       (specify_range <- wait_until element_to_be_clickable
                           (XPATH, "//div[text()='Specify Range']") ;;
        driver_execute_script js_scroll_true [AElement specify_range] ;;
        try_except
          (click specify_range)
          [ (is_ElementClickInterceptedException, fun _ =>
             driver_execute_script js_click [AElement specify_range]) ] ;;
        sleep 2000 ;;
        driver_execute_script js_scroll_top [] ;;
        sleep 1000 ;;
        min_input <- driver_find_element (ID, "ctcMin") ;;
        max_input <- driver_find_element (ID, "ctcMax") ;;
        ei <- self_element_interaction ;;
        js_input ei min_input (PInt min_salary) ;;
        sleep 500 ;;
        ei <- self_element_interaction ;;
        js_input ei max_input (PInt max_salary) ;;
        return_ true)
       [ (is_TimeoutException, fun _ => return_ false);
         (is_NoSuchElementException, fun _ => return_ false);
         (is_ElementClickInterceptedException, fun _ => return_ false);
         (is_WebDriverException, fun _ => return_ false);
         (is_Exception, fun _ => return_ false) ]).

(** [click_is_equity_checkbox(self)] *)
Definition click_is_equity_checkbox {R} : M event R bool :=
  call
    (try_except
       (checkbox <- wait_until presence_of_element_located (ID, "isEquity") ;;
        driver_execute_script js_scroll_center [AElement checkbox] ;;
        sleep 500 ;;
        driver_execute_script js_click [AElement checkbox] ;;
        return_ true)
       [ (is_TimeoutException, fun _ => return_ false);
         (is_Exception, fun _ => return_ false) ]).

(** [except (TimeoutException, NoSuchElementException)] *)
Definition is_Timeout_or_NoSuchElement (e : exn) : bool :=
  is_TimeoutException e || is_NoSuchElementException e.

(** [fill_tinymce_field_by_label(self, label_text, content)] *)
Definition fill_tinymce_field_by_label {R} (label_text content : string)
  : M event R bool :=
  call
    (try_except
       (w <- new_wait 10 ;;
        label <- until w presence_of_element_located
          (XPATH, String.append "//label[contains(text(), '"
                    (String.append label_text "')]")) ;;
        iframe <- find_element_in label
          (XPATH, ".//following::iframe[contains(@id, '_ifr')]") ;;
        d <- self_driver ;; switch_to_frame d iframe ;;
        w <- new_wait 10 ;;
        body <- until w presence_of_element_located (TAG_NAME, "body") ;;
        clear body ;;
        send_keys body content ;;
        (* Always switch back *)
        d <- self_driver ;; switch_to_default_content d ;;
        return_ true)
       [ (is_Timeout_or_NoSuchElement, fun _ =>
          try_except
            (d <- self_driver ;; switch_to_default_content d)  (* Ensure clean state *)
            [ (is_Exception, fun _ => ret tt) ] ;;
          return_ false) ]).

(** [click_create_and_confirm(self)];
    [except (TimeoutException, NoSuchElementException, WebDriverException)]
    is [is_WebDriverException]. *)
Definition click_create_and_confirm {R} : M event R bool :=
  call
    (try_except
       (w <- new_wait 10 ;;
        create_button <- until w presence_of_element_located
          (XPATH, "//button[contains(text(), 'Create New Job Profile')]") ;;
        driver_execute_script js_scroll_center_smooth [AElement create_button] ;;
        sleep 1000 ;;
        try_except
          (click create_button)
          [ (is_ElementClickInterceptedException, fun _ =>
             driver_execute_script js_click [AElement create_button]);
            (is_Exception, fun _ =>
             try_except
               (overlays <- driver_find_elements
                  (XPATH, "//div[contains(@class, 'modal') or contains(@class, 'overlay')]") ;;
                for_ overlays tt (fun overlay _ =>
                  shown <- is_displayed overlay ;;
                  (if shown then
                     close_buttons <- find_elements_in overlay
                       (XPATH, ".//button[contains(@class, 'close') or contains(text(), 'Close')]") ;;
                     match close_buttons with
                     | b :: _ => click b ;; sleep 500
                     | [] => ret tt
                     end
                   else ret tt) ;;
                  ret (Continue tt)))
               [ (is_Exception, fun _ => ret tt) ] ;;
             driver_action_chains_click create_button) ] ;;
        w <- new_wait 10 ;;
        ok_button <- until w element_to_be_clickable
          (XPATH, "//div[@class='modal-footer']//button[contains(text(), 'OK')]") ;;
        driver_execute_script js_scroll_center [AElement ok_button] ;;
        sleep 500 ;;
        try_except
          (click ok_button)
          [ (is_ElementClickInterceptedException, fun _ =>
             driver_execute_script js_click [AElement ok_button]) ] ;;
        try_except
          (w <- new_wait 10 ;;
           until w presence_of_element_located
             (XPATH, "//div[contains(@class, 'toast-success') or contains(text(), 'successfully')]") ;;
           ret tt)
          [ (is_TimeoutException, fun _ => ret tt) ] ;;
        return_ true)
       [ (is_WebDriverException, fun _ => return_ false) ]).

(** The block the long stages repeat:
    [try: e.click()] / [except Exception: try: JS click] /
    [except Exception: ActionChains click]. *)
Definition click_js_actions {R} (e : element) : M event R unit :=
  try_except
    (click e)
    [ (is_Exception, fun _ =>
       try_except
         (driver_execute_script js_click [AElement e])
         [ (is_Exception, fun _ => driver_action_chains_click e) ]) ].

(** [try: e.click()] / [except Exception: JS click] *)
Definition click_js {R} (e : element) : M event R unit :=
  try_except
    (click e)
    [ (is_Exception, fun _ => driver_execute_script js_click [AElement e]) ].

(** The search loop the long stages repeat: [found = None], then for
    each selector [try: found = w.until(EC.element_to_be_clickable(selector));
    if found: break] / [except: log]. *)
Definition first_clickable {R} (w : WebDriverWait) (selectors : list locator)
  : M event R (option element) :=
  for_ selectors None (fun selector found =>
    try_except
      (e <- until w element_to_be_clickable selector ;;
       ret (Break (Some e)))
      [ (is_Exception, fun _ => ret (Continue found)) ]).

Definition toast_success : locator :=
  (XPATH, "//div[contains(@class, 'toast-success') or contains(text(), 'successfully')]").

(** [select_applicable_courses(self)] *)
Definition select_applicable_courses {R} : M event R bool :=
  call
    (try_except
       (long_wait <- new_wait 30 ;;
        sleep 10000 ;;
        try_except
          (applicable_courses_link <- first_clickable long_wait
             [ (XPATH, "//li//a[@href='#jp-applicable-courses']//span[contains(@class, 'text') and contains(text(), 'Select applicable courses')]");
               (XPATH, "//a[@href='#jp-applicable-courses']");
               (XPATH, "//span[contains(text(), 'Select applicable courses')]");
               (XPATH, "//li[contains(.,'Select applicable courses')]//a") ] ;;
           match applicable_courses_link with
           | None => raise Exception
           | Some link =>
               driver_execute_script js_scroll_center_smooth [AElement link] ;;
               sleep 3000 ;;
               click_js_actions link
           end)
          [ (is_Exception, fun _ =>
             driver_save_screenshot "courses_link_error.png" ;; return_ false) ] ;;
        try_except
          (sleep 5000 ;;
           add_courses_button <- first_clickable long_wait
             [ (XPATH, "//button[contains(@class, 'btn-sm') and contains(@ng-click, 'openEditCourseModal()')]");
               (XPATH, "//button[contains(@class, 'btn-sm')]//span[contains(@class, 'lnr-plus')]/..");
               (XPATH, "//button[contains(text(), 'Add Eligible Courses')]");
               (XPATH, "//button[contains(@ng-click, 'openEditCourseModal')]") ] ;;
           add_courses_button <-
             match add_courses_button with
             | Some b => ret (Some b)
             | None =>
                 buttons <- driver_find_elements (XPATH, "//button[contains(@class, 'btn')]") ;;
                 for_ buttons None (fun button found =>
                   try_except
                     (shown <- is_displayed button ;;
                      hit <- (if shown then
                                t1 <- text button ;;
                                if Py.contains "Add" t1 then ret true
                                else
                                  t2 <- text button ;;
                                  if Py.contains "add" t2 then ret true
                                  else
                                    icons <- find_elements_in button
                                      (XPATH, ".//span[contains(@class, 'lnr-plus') or contains(@class, 'plus') or contains(@class, 'add')]") ;;
                                    ret (match icons with [] => false | _ => true end)
                              else ret false) ;;
                      if hit then
                        (* [add_courses_button = button] is done when the
                           log line reads [button.text]; if that raises,
                           the loop goes on with the variable set *)
                        try_except
                          (text button ;; ret (Break (Some button)))
                          [ (is_Exception, fun _ => ret (Continue (Some button))) ]
                      else ret (Continue found))
                     [ (is_Exception, fun _ => ret (Continue found)) ])
             end ;;
           match add_courses_button with
           | None =>
               driver_save_screenshot "missing_add_courses_button.png" ;;
               raise Exception
           | Some b =>
               driver_execute_script js_scroll_center [AElement b] ;;
               sleep 2000 ;;
               click_js_actions b ;;
               sleep 3000
           end)
          [ (is_Exception, fun _ =>
             driver_save_screenshot "add_courses_button_error.png" ;; return_ false) ] ;;
        try_except
          (until long_wait presence_of_element_located
             (XPATH, "//div[contains(@class, 'modal-dialog') or contains(@class, 'modal-content')]") ;;
           ret tt)
          [ (is_Exception, fun _ =>
             driver_save_screenshot "popup_error.png" ;; return_ false) ] ;;
        checkboxes <-
          try_except
            (for_ [ (XPATH, "//input[@type='checkbox' and @checklist-model='selectedCourses']");
                    (XPATH, "//input[@type='checkbox' and contains(@class, 'ng-pristine')]");
                    (XPATH, "//input[@type='checkbox']");
                    (CSS_SELECTOR, "input[type='checkbox']") ]
               None (fun locator found =>
               try_except
                 (l <- until_all long_wait locator ;;
                  match l with
                  | [] => ret (Continue (Some l))
                  | _ :: _ => ret (Break (Some l))
                  end)
                 [ (is_Exception, fun _ => ret (Continue found)) ]))
            [ (is_Exception, fun _ =>
               driver_save_screenshot "checkbox_error.png" ;; return_ false) ] ;;
        match checkboxes with
        | None | Some [] => return_ false
        | Some (checkbox :: _) =>
            try_except
              (driver_execute_script js_scroll_center [AElement checkbox] ;;
               sleep 2000 ;;
               try_except
                 (click checkbox)
                 [ (is_Exception, fun _ =>
                    try_except
                      (driver_execute_script js_click [AElement checkbox])
                      [ (is_Exception, fun _ =>
                         driver_execute_script js_force_checked [AElement checkbox]) ]) ])
              [ (is_Exception, fun _ =>
                 driver_save_screenshot "checkbox_click_error.png" ;; return_ false) ] ;;
            try_except
              (save_button <- first_clickable long_wait
                 [ (XPATH, "//button[contains(@class, 'btn-primary') and contains(text(), 'Save') and contains(@ng-click, 'editCourses')]");
                   (XPATH, "//button[contains(@class, 'btn-primary') and contains(text(), 'Save')]");
                   (XPATH, "//button[contains(text(), 'Save')]");
                   (CSS_SELECTOR, ".modal-footer .btn-primary") ] ;;
               match save_button with
               | None => raise Exception
               | Some b =>
                   driver_execute_script js_scroll_center [AElement b] ;;
                   sleep 2000 ;;
                   click_js b
               end)
              [ (is_Exception, fun _ =>
                 driver_save_screenshot "save_button_error.png" ;; return_ false) ] ;;
            sleep 10000 ;;
            try_except
              (driver_find_elements toast_success ;; ret tt)
              [ (is_Exception, fun _ => ret tt) ] ;;
            return_ true
        end)
       [ (is_TimeoutException, fun _ =>
          driver_save_screenshot "timeout_error.png" ;; return_ false);
         (is_Exception, fun _ =>
          driver_save_screenshot "general_error.png" ;; return_ false) ]).

(** The last resort of [set_eligibility_criteria] and
    [setup_hiring_workflow] when no selector found the button: one [try]
    around the whole loop over all buttons of the page.
    [matches button] is the test of the [if]; the log line after the
    assignment reads [button.text] once more, and when that raises the
    handler of the enclosing [try] only logs, so the button stays
    assigned. *)
Definition last_resort_button {R} (matches : element -> M event R bool)
  : M event R (option element) :=
  try_except
    (buttons <- driver_find_elements (XPATH, "//button[contains(@class, 'btn')]") ;;
     for_ buttons None (fun button found =>
       hit <- matches button ;;
       if hit then
         try_except
           (text button ;; ret (Break (Some button)))
           [ (is_Exception, fun _ => ret (Break (Some button))) ]
       else ret (Continue found)))
    [ (is_Exception, fun _ => ret None) ].

(** [set_eligibility_criteria(self)] *)
Definition set_eligibility_criteria {R} : M event R bool :=
  call
    (try_except
       (long_wait <- new_wait 30 ;;
        sleep 5000 ;;
        eligibility_link <- first_clickable long_wait
          [ (XPATH, "//li//a[@href='#jp-eligibility-criteria']//span[contains(@class, 'text') and contains(text(), 'Set eligibility criteria')]");
            (XPATH, "//a[@href='#jp-eligibility-criteria']");
            (XPATH, "//span[contains(text(), 'Set eligibility criteria')]");
            (XPATH, "//li[contains(.,'Set eligibility criteria')]//a") ] ;;
        match eligibility_link with
        | None => raise Exception
        | Some link =>
            driver_execute_script js_scroll_center_smooth [AElement link] ;;
            sleep 3000 ;;
            click_js_actions link ;;
            sleep 5000 ;;
            allow_all_button <- first_clickable long_wait
              [ (XPATH, "//button[contains(@ng-click, 'updateAllEligibileIfNoItemsFlag') and contains(@confirm, 'make all students')]");
                (XPATH, "//button[contains(@class, 'btn-sm')]//span[contains(@class, 'lnr-users')]/..");
                (XPATH, "//button[contains(text(), 'Allow all students')]");
                (XPATH, "//button[contains(@ng-click, 'updateAllEligibileIfNoItemsFlag')]") ] ;;
            allow_all_button <-
              match allow_all_button with
              | Some b => ret (Some b)
              | None =>
                  last_resort_button (fun button =>
                    shown <- is_displayed button ;;
                    if shown then
                      t1 <- text button ;;
                      if Py.contains "Allow all" t1 then ret true
                      else
                        t2 <- text button ;;
                        if Py.contains "all students" t2 then ret true
                        else
                          icons <- find_elements_in button
                            (XPATH, ".//span[contains(@class, 'lnr-users')]") ;;
                          ret (match icons with [] => false | _ => true end)
                    else ret false)
              end ;;
            match allow_all_button with
            | None =>
                driver_save_screenshot "missing_allow_all_button.png" ;;
                raise Exception
            | Some b =>
                driver_execute_script js_scroll_center [AElement b] ;;
                sleep 2000 ;;
                click_js_actions b ;;
                try_except
                  (confirm_yes_button <- until long_wait element_to_be_clickable
                     (XPATH, "//button[contains(@class, 'btn-primary') and (text()='Yes' or @ng-click='ok()')]") ;;
                   sleep 1000 ;;
                   click_js confirm_yes_button)
                  [ (is_Exception, fun _ =>
                     driver_save_screenshot "confirm_popup_error.png" ;; return_ false) ] ;;
                sleep 5000 ;;
                try_except
                  (driver_find_elements toast_success ;; ret tt)
                  [ (is_Exception, fun _ => ret tt) ] ;;
                try_except
                  (driver_find_element
                     (XPATH, "//a[@href='#jp-eligibility-criteria']//span[contains(@class, 'checklist-done')]") ;;
                   ret tt)
                  [ (is_Exception, fun _ => ret tt) ] ;;
                return_ true
            end
        end)
       [ (is_TimeoutException, fun _ =>
          driver_save_screenshot "eligibility_timeout_error.png" ;; return_ false);
         (is_Exception, fun _ =>
          driver_save_screenshot "eligibility_general_error.png" ;; return_ false) ]).

(** [setup_hiring_workflow(self)] *)
Definition setup_hiring_workflow {R} : M event R bool :=
  call
    (try_except
       (long_wait <- new_wait 30 ;;
        sleep 5000 ;;
        workflow_link <- first_clickable long_wait
          [ (XPATH, "//li//a[@href='#jp-stages']//span[contains(@class, 'text') and contains(text(), 'Setup hiring workflow')]");
            (XPATH, "//a[@href='#jp-stages']");
            (XPATH, "//span[contains(text(), 'Setup hiring workflow')]");
            (XPATH, "//li[contains(.,'Setup hiring workflow')]//a") ] ;;
        match workflow_link with
        | None => raise Exception
        | Some link =>
            driver_execute_script js_scroll_center_smooth [AElement link] ;;
            sleep 3000 ;;
            click_js_actions link ;;
            sleep 5000 ;;
            for_ ["Resume shortlisting"; "Technical interview"; "HR interview"] tt
              (fun stage_name _ =>
                 try_except
                   (stage_container <- until long_wait presence_of_element_located
                      (XPATH, String.append
                                "//div[contains(@class, 'has-light-border') and contains(text(), '"
                                (String.append stage_name "')]")) ;;
                    add_button <- find_element_in stage_container
                      (XPATH, ".//button[contains(@ng-click, 'addPopularStage')]") ;;
                    driver_execute_script js_scroll_center [AElement add_button] ;;
                    sleep 1000 ;;
                    click_js add_button ;;
                    sleep 2000)
                   [ (is_Exception, fun _ =>
                      driver_save_screenshot
                        (String.append (Py.replace " " "_" stage_name) "_stage_error.png")) ] ;;
                 ret (Continue tt)) ;;
            sleep 5000 ;;
            submit_button <- first_clickable long_wait
              [ (XPATH, "//button[contains(@class, 'btn-success') and contains(@ng-click, 'submitJobProfile')]");
                (XPATH, "//button[contains(text(), 'Submit Now')]");
                (XPATH, "//button[contains(@confirm, 'Are you sure you want to submit job profile')]") ] ;;
            submit_button <-
              match submit_button with
              | Some b => ret (Some b)
              | None =>
                  last_resort_button (fun button =>
                    shown <- is_displayed button ;;
                    if shown then
                      t1 <- text button ;;
                      if Py.contains "Submit" t1 then ret true
                      else
                        t2 <- text button ;;
                        ret (Py.contains "submit" (Py.lower t2))
                    else ret false)
              end ;;
            match submit_button with
            | None =>
                driver_save_screenshot "missing_submit_button.png" ;;
                return_ false
            | Some b =>
                driver_execute_script js_scroll_center [AElement b] ;;
                sleep 2000 ;;
                click_js_actions b ;;
                try_except
                  (yes_button <- until long_wait element_to_be_clickable
                     (XPATH, "//button[text()='Yes' and contains(@class, 'btn-primary')]") ;;
                   sleep 1000 ;;
                   click yes_button)
                  [ (is_Exception, fun _ =>
                     driver_save_screenshot "confirm_submit_error.png" ;; return_ false) ] ;;
                sleep 10000 ;;
                try_except
                  (success_elements <- driver_find_elements
                     (XPATH, "//div[contains(@class, 'toast-success') or contains(text(), 'successfully') or contains(text(), 'submitted')]") ;;
                   match success_elements with
                   | _ :: _ => return_ true
                   | [] => ret tt
                   end)
                  [ (is_Exception, fun _ => ret tt) ] ;;
                return_ true
            end
        end)
       [ (is_TimeoutException, fun _ =>
          driver_save_screenshot "workflow_timeout_error.png" ;; return_ false);
         (is_Exception, fun _ =>
          driver_save_screenshot "workflow_general_error.png" ;; return_ false) ]).

(** [teardown(self)] *)
Definition teardown {R} : M event R unit :=
  call
    (d <- gets driver ;;
     match d with
     | Some d => quit d
     | None => ret tt
     end).

(** *** The orchestrator *)

(** The methods [run] calls, in the order of its text, and [teardown]. *)
Inductive stage : Type :=
| DriverSetup | Login | PlacementSelection | CompanyData | JobTitle
| ProfileSource | Location | PositionType | JobFunction | Category
| CtcDetails | EquityCheckbox | SalaryBreakup | JobDescription
| CreateAndConfirm | ApplicableCourses | EligibilityCriteria
| HiringWorkflow | Teardown.

(** What a call gave back to [run]. *)
Inductive report : Type :=
| ReturnedBool (b : bool)
| ReturnedNone
| Threw (e : exn).

(** The trace of [run]: one entry for each method it called, with what
    the call reported and the commands it sent, and one for the pause at
    the end of a successful run. *)
Inductive step : Type :=
| Called (st : stage) (r : report) (commands : list event)
| Paused (ms : Z).

(** A call of a method from [run], entered in the trace of [run]. *)
Definition invoke {R A} (st : stage) (rep : A -> report) (m : M event Empty_set A)
  : M step R A :=
  fun s =>
    match m s with
    | (Normal a, s1, t) => (Normal a, s1, [Called st (rep a) t])
    | (Returned r, _, _) => match r with end
    | (Raised e, s1, t) => (Raised e, s1, [Called st (Threw e) t])
    end.

Definition pause {R} (ms : Z) : M step R unit :=
  fun s => (Normal tt, s, [Paused ms]).

(** [if not ok: return False] *)
Definition return_False_unless {E} (ok : bool) : M E bool unit :=
  if ok then ret tt else return_ false.

(** [run(self, job_data=None)] *)
Definition run {R} (job_data : option JobData) : M step R bool :=
  call
    (let job_data :=
       match job_data with
       | Some j => j
       | None => JobData_defaults "Mercedes Benz" "Full Stack Developer"
       end in
     success <-
       try_finally
         (try_except
            (invoke DriverSetup (fun _ => ReturnedNone) setup_driver ;;
             login_success <- invoke Login ReturnedBool login ;;
             return_False_unless login_success ;;
             placement_success <-
               invoke PlacementSelection ReturnedBool
                 (select_placement_option "Placements 2025") ;;
             return_False_unless placement_success ;;
             company_name_success <-
               invoke CompanyData ReturnedBool
                 (fill_company_data (company_name job_data)) ;;
             return_False_unless company_name_success ;;
             job_title_success <-
               invoke JobTitle ReturnedBool
                 (fill_job_profile_title (job_title job_data)) ;;
             return_False_unless job_title_success ;;
             job_profile_source_success <-
               invoke ProfileSource ReturnedBool fill_job_profile_source ;;
             return_False_unless job_profile_source_success ;;
             job_location_success <-
               invoke Location ReturnedBool (fill_job_location (location job_data)) ;;
             return_False_unless job_location_success ;;
             position_type_success <-
               invoke PositionType ReturnedBool fill_position_type ;;
             return_False_unless position_type_success ;;
             job_function_success <-
               invoke JobFunction ReturnedBool
                 (fill_job_function (job_function job_data)) ;;
             return_False_unless job_function_success ;;
             fill_category_success <- invoke Category ReturnedBool fill_category ;;
             return_False_unless fill_category_success ;;
             ctc_details_success <-
               invoke CtcDetails ReturnedBool
                 (add_ctc_details (min_salary job_data) (max_salary job_data)) ;;
             return_False_unless ctc_details_success ;;
             equity_check_success <-
               invoke EquityCheckbox ReturnedBool click_is_equity_checkbox ;;
             return_False_unless equity_check_success ;;
             ctc_breakdown_success <-
               invoke SalaryBreakup ReturnedBool
                 (fill_tinymce_field_by_label
                    "Salary break-up / Additional Compensation"
                    (salary_breakup job_data)) ;;
             return_False_unless ctc_breakdown_success ;;
             jd_success <-
               invoke JobDescription ReturnedBool
                 (fill_tinymce_field_by_label "Job Description"
                    (job_description job_data)) ;;
             return_False_unless jd_success ;;
             create_and_confirm_success <-
               invoke CreateAndConfirm ReturnedBool click_create_and_confirm ;;
             return_False_unless create_and_confirm_success ;;
             applicable_courses_success <-
               invoke ApplicableCourses ReturnedBool select_applicable_courses ;;
             return_False_unless applicable_courses_success ;;
             eligibility_criteria_success <-
               invoke EligibilityCriteria ReturnedBool set_eligibility_criteria ;;
             return_False_unless eligibility_criteria_success ;;
             hiring_workflow_success <-
               invoke HiringWorkflow ReturnedBool setup_hiring_workflow ;;
             return_False_unless hiring_workflow_success ;;
             pause 10000 ;;
             ret true)
            [ (is_Exception, fun _ => ret false) ])
         (invoke Teardown (fun _ => ReturnedNone) teardown) ;;
     return_ success).

End SupersetAutomator.

(** ** [main.py]: the form handler *)

Module Main.

(** [int(text) if text.isdigit() else 0], in an interpreter whose
    limit on the digits of a number is [limit]; the [ValueError] of
    [int] is an [Exception]. *)
Definition salary_of_text (limit : nat) (text : string) : exn + Z :=
  if Py.isdigit text
  then match Py.int limit text with
       | Some z => inr z
       | None => inl Exception
       end
  else inr 0%Z.


(** A Python value of the session dictionary: a number or a text. *)
Definition dict : Type := list (string * pyval).

(** [d.get(key, default)] *)
Fixpoint dict_get (d : dict) (key : string) (default : pyval) : pyval :=
  match d with
  | [] => default
  | (k, v) :: d' => if String.eqb k key then v else dict_get d' key default
  end.

(** [str(v)]; the [ValueError] of a number of too many digits is an
    [Exception]. *)
Definition str (limit : nat) (v : pyval) : exn + string :=
  match v with
  | PInt z => match Py.str_int limit z with
              | Some text => inr text
              | None => inl Exception
              end
  | PStr s => inr s
  end.

(** What the form shows in "Minimum Salary" and "Maximum Salary":
    [str(st.session_state.job_data.get('min_salary', '1000000'))] and
    [str(st.session_state.job_data.get('max_salary', '1500000'))]. *)
Definition min_salary_shown (limit : nat) (job_data : dict) : exn + string :=
  str limit (dict_get job_data "min_salary" (PStr "1000000")).

Definition max_salary_shown (limit : nat) (job_data : dict) : exn + string :=
  str limit (dict_get job_data "max_salary" (PStr "1500000")).

(** The options of the "Job Function" select box. *)
Definition job_functions : list string :=
  [ "Software Development"; "Sales"; "General Management";
    "Marketing - General"; "Product Management" ].

(** [v in options], for a list of texts *)
Definition is_in (v : pyval) (options : list string) : bool :=
  match v with
  | PStr s => existsb (String.eqb s) options
  | PInt _ => false
  end.

(** [options.index(v)]: the place of the first option equal to [v];
    a [ValueError] (an [Exception]) when there is none. *)
Fixpoint list_index (v : pyval) (options : list string) : exn + nat :=
  match options with
  | [] => inl Exception
  | o :: options' =>
      match v with
      | PStr s =>
          if String.eqb o s then inr 0
          else match list_index v options' with
               | inr i => inr (S i)
               | inl e => inl e
               end
      | PInt _ => list_index v options'
      end
  end.

(** The [index] argument of the select box:
    [0 if job_data.get('job_function', '') not in options else
     options.index(job_data.get('job_function', "Software Development"))]. *)
Definition job_function_index (job_data : dict) : exn + nat :=
  if negb (is_in (dict_get job_data "job_function" (PStr EmptyString)) job_functions)
  then inr 0
  else list_index (dict_get job_data "job_function" (PStr "Software Development"))
         job_functions.

End Main.

(** ** [get_model.py]: the cached model client *)

Module OpenAIModel.

(** An [AzureChatOpenAI] object, by the number of the construction that
    made it. *)
Definition client : Type := nat.

(** The class: its attribute [_instance] and, beside it, how many times
    [AzureChatOpenAI(..)] has been called and what each call gives: the
    object or the exception it raises. *)
Record cls : Type := {
  AzureChatOpenAI : nat -> option exn;
  constructed : nat;
  _instance : option client
}.

(** [load_model()] *)
Definition load_model (c : cls) : (exn + client) * cls :=
  let c' := {| AzureChatOpenAI := AzureChatOpenAI c;
               constructed := S (constructed c);
               _instance := _instance c |} in
  match AzureChatOpenAI c (constructed c) with
  | Some e => (inl e, c')
  | None => (inr (constructed c), c')
  end.

(** [get_instance(cls)] *)
Definition get_instance (c : cls) : (exn + client) * cls :=
  match _instance c with
  | None =>
      match load_model c with
      | (inr m, c') =>
          (inr m, {| AzureChatOpenAI := AzureChatOpenAI c';
                     constructed := constructed c';
                     _instance := Some m |})
      | (inl e, c') => (inl e, c')
      end
  | Some m => (inr m, c)
  end.

(** [n] calls of [get_instance] in a row: what each gave, and the class
    after the last. *)
Fixpoint get_instances (n : nat) (c : cls) : list (exn + client) * cls :=
  match n with
  | O => ([], c)
  | S n' =>
      let (r, c1) := get_instance c in
      let (rs, c2) := get_instances n' c1 in
      (r :: rs, c2)
  end.

End OpenAIModel.

Import ElementInteraction SupersetAutomator.

(** ** Reading a run *)

Definition result_of {E R A} (x : outcome R A * core * list E) : outcome R A :=
  fst (fst x).

Definition state_of {E R A} (x : outcome R A * core * list E) : core :=
  snd (fst x).

Definition events_of {E R A} (x : outcome R A * core * list E) : list E :=
  snd x.

(** What a stage leaves alone: the driver, the session's wait, the
    interaction helper and the set of open sessions. *)
Definition same_self (s s' : core) : Prop :=
  driver s' = driver s /\ wait s' = wait s /\
  element_interaction s' = element_interaction s /\
  open_sessions s' = open_sessions s.

(** The wait a method uses: [self.wait], or one it builds with a budget
    of its own. *)
Inductive budget : Type := Session | Fixed (n : nat).

Definition budget_ok (b : budget) (s : core) (e : event) : Prop :=
  match cmd e with
  | CUntil t _ _ =>
      match b with
      | Fixed n => t = n
      | Session => option_map timeout (wait s) = Some t
      end
  | _ => True
  end.

(** [keeps b m]: from every state, [m] leaves the fields of [same_self]
    alone and waits only within the budget [b]. *)
Definition keeps {R A} (b : budget) (m : M event R A) : Prop :=
  forall s, same_self s (state_of (m s)) /\ Forall (budget_ok b s) (events_of (m s)).

Definition not_wait (c : command) : Prop :=
  match c with CUntil _ _ _ => False | _ => True end.

Definition no_wait (e : event) : Prop := not_wait (cmd e).

(** *** [run] as a list of stages

    The text of [run] after [setup_driver] repeats one pattern, [ok =
    self.stage(..)] then [if not ok: return False].  [pipeline] is that
    pattern over a list of stages; [run_as_pipeline] is [run] written
    with it, and [run_pipeline] below shows that the two are the same
    function. *)

Fixpoint pipeline {A} (l : list (stage * M event Empty_set bool)) (k : M step bool A)
  : M step bool A :=
  match l with
  | [] => k
  | (st, m) :: l' =>
      ok <- invoke st ReturnedBool m ;;
      return_False_unless ok ;;
      pipeline l' k
  end.

Definition stages_after_setup (job_data : JobData)
  : list (stage * M event Empty_set bool) :=
  [ (Login, login);
    (PlacementSelection, select_placement_option "Placements 2025");
    (CompanyData, fill_company_data (company_name job_data));
    (JobTitle, fill_job_profile_title (job_title job_data));
    (ProfileSource, fill_job_profile_source);
    (Location, fill_job_location (location job_data));
    (PositionType, fill_position_type);
    (JobFunction, fill_job_function (job_function job_data));
    (Category, fill_category);
    (CtcDetails, add_ctc_details (min_salary job_data) (max_salary job_data));
    (EquityCheckbox, click_is_equity_checkbox);
    (SalaryBreakup,
     fill_tinymce_field_by_label "Salary break-up / Additional Compensation"
       (salary_breakup job_data));
    (JobDescription,
     fill_tinymce_field_by_label "Job Description" (job_description job_data));
    (CreateAndConfirm, click_create_and_confirm);
    (ApplicableCourses, select_applicable_courses);
    (EligibilityCriteria, set_eligibility_criteria);
    (HiringWorkflow, setup_hiring_workflow) ].

Definition job_or_default (job_data : option JobData) : JobData :=
  match job_data with
  | Some j => j
  | None => JobData_defaults "Mercedes Benz" "Full Stack Developer"
  end.

Definition run_as_pipeline {R} (job_data : option JobData) : M step R bool :=
  call
    (success <-
       try_finally
         (try_except
            (invoke DriverSetup (fun _ => ReturnedNone) setup_driver ;;
             pipeline (stages_after_setup (job_or_default job_data))
               (pause 10000 ;; ret true))
            [ (is_Exception, fun _ => ret false) ])
         (invoke Teardown (fun _ => ReturnedNone) teardown) ;;
     return_ success).

(** The stage functions in the order of the text of [run]. *)
Definition stage_names : list stage :=
  [ Login; PlacementSelection; CompanyData; JobTitle; ProfileSource; Location;
    PositionType; JobFunction; Category; CtcDetails; EquityCheckbox;
    SalaryBreakup; JobDescription; CreateAndConfirm; ApplicableCourses;
    EligibilityCriteria; HiringWorkflow ].

Definition stage_order : list stage := DriverSetup :: stage_names.

(** What [run] enters in its trace for a call of [m]: what the call
    reported, the state it left and the commands it sent. *)
Definition observed {A} (rep : A -> report) (m : M event Empty_set A)
  : core -> report * core * list event :=
  fun s =>
    match m s with
    | (Normal a, s1, t) => (rep a, s1, t)
    | (Returned r, _, _) => match r with end
    | (Raised e, s1, t) => (Threw e, s1, t)
    end.

(** The method each stage names, with the arguments [run] gives it. *)
Definition method (job_data : JobData) (st : stage)
  : core -> report * core * list event :=
  match st with
  | DriverSetup => observed (fun _ => ReturnedNone) setup_driver
  | Login => observed ReturnedBool login
  | PlacementSelection =>
      observed ReturnedBool (select_placement_option "Placements 2025")
  | CompanyData => observed ReturnedBool (fill_company_data (company_name job_data))
  | JobTitle => observed ReturnedBool (fill_job_profile_title (job_title job_data))
  | ProfileSource => observed ReturnedBool fill_job_profile_source
  | Location => observed ReturnedBool (fill_job_location (location job_data))
  | PositionType => observed ReturnedBool fill_position_type
  | JobFunction => observed ReturnedBool (fill_job_function (job_function job_data))
  | Category => observed ReturnedBool fill_category
  | CtcDetails =>
      observed ReturnedBool
        (add_ctc_details (min_salary job_data) (max_salary job_data))
  | EquityCheckbox => observed ReturnedBool click_is_equity_checkbox
  | SalaryBreakup =>
      observed ReturnedBool
        (fill_tinymce_field_by_label "Salary break-up / Additional Compensation"
           (salary_breakup job_data))
  | JobDescription =>
      observed ReturnedBool
        (fill_tinymce_field_by_label "Job Description" (job_description job_data))
  | CreateAndConfirm => observed ReturnedBool click_create_and_confirm
  | ApplicableCourses => observed ReturnedBool select_applicable_courses
  | EligibilityCriteria => observed ReturnedBool set_eligibility_criteria
  | HiringWorkflow => observed ReturnedBool setup_hiring_workflow
  | Teardown => observed (fun _ => ReturnedNone) teardown
  end.

(** [genuine job_data s tr s']: the calls entered in [tr] took place.
    Each is the call of the method of its stage in the state the calls
    before it left, starting from [s]: it reported what the method
    reported there and sent the commands the method sent there; [s'] is
    the state the last call left. *)
Fixpoint genuine (job_data : JobData) (s : core) (tr : list step) (s' : core) : Prop :=
  match tr with
  | [] => s' = s
  | Called st r evs :: tr' =>
      exists s1, method job_data st s = (r, s1, evs) /\ genuine job_data s1 tr' s'
  | Paused _ :: tr' => genuine job_data s tr' s'
  end.

(** A call reports success when it returns [True], or returns at all
    for a method without a result ([setup_driver]). *)
Definition success (r : report) : bool :=
  match r with
  | ReturnedBool b => b
  | ReturnedNone => true
  | Threw _ => false
  end.

(** The wait each stage uses. *)
Definition stage_budget (st : stage) : budget :=
  match st with
  | SalaryBreakup | JobDescription | CreateAndConfirm => Fixed 10
  | ApplicableCourses | EligibilityCriteria | HiringWorkflow => Fixed 30
  | _ => Session
  end.

(** [piped s0 l tr ok]: [tr] is a trace of the stages [l] run in order
    from [s0] up to the first that does not return [True]; [ok] tells
    whether all did. *)
Inductive piped (s0 : core) : list stage -> list step -> bool -> Prop :=
| piped_done : piped s0 [] [] true
| piped_next st l evs tr ok :
    Forall (budget_ok (stage_budget st) s0) evs ->
    piped s0 l tr ok ->
    piped s0 (st :: l) (Called st (ReturnedBool true) evs :: tr) ok
| piped_stop st l r evs :
    success r = false ->
    Forall (budget_ok (stage_budget st) s0) evs ->
    piped s0 (st :: l) [Called st r evs] false.

Definition call_of (x : step) : list (stage * report) :=
  match x with
  | Called st r _ => [(st, r)]
  | Paused _ => []
  end.

(** The calls [run] made, with what each reported. *)
Definition calls (tr : list step) : list (stage * report) := flat_map call_of tr.

Definition is_teardown (st : stage) : bool :=
  match st with Teardown => true | _ => false end.

(** The calls of stage functions: all calls but those of [teardown]. *)
Definition stage_calls (tr : list step) : list (stage * report) :=
  filter (fun c => negb (is_teardown (fst c))) (calls tr).


(** *** The budgets of the waits *)

(** The budget of the waits of each stage; [setup_driver] and [teardown]
    do not wait. *)
Definition wait_budget (st : stage) : option nat :=
  match st with
  | DriverSetup | Teardown => None
  | SalaryBreakup | JobDescription | CreateAndConfirm => Some 10
  | ApplicableCourses | EligibilityCriteria | HiringWorkflow => Some 30
  | _ => Some 15
  end.

(** The budgets as the specification states them: 15, and 30 in the
    three long-running stages. *)
Definition stated_budget (st : stage) : option nat :=
  match st with
  | ApplicableCourses | EligibilityCriteria | HiringWorkflow => Some 30
  | _ => Some 15
  end.

(** Every wait of a call has the budget [budget_of] gives its stage. *)
Definition waits_with (budget_of : stage -> option nat) (x : step) : Prop :=
  match x with
  | Called st _ evs =>
      Forall (fun e => match cmd e with
                       | CUntil t _ _ => budget_of st = Some t
                       | _ => True
                       end) evs
  | Paused _ => True
  end.

(** No wait of a call has a budget below [n]. *)
Definition waits_at_least (n : nat) (x : step) : Prop :=
  match x with
  | Called _ _ evs =>
      Forall (fun e => match cmd e with
                       | CUntil t _ _ => n <= t
                       | _ => True
                       end) evs
  | Paused _ => True
  end.

(** *** What the page was made to hold *)

(** The value the forced assignment [js_set_value] gave the field [el]
    in [e], if [e] is such an assignment and it succeeded. *)
Definition assigned (el : element) (e : event) : option pyval :=
  match cmd e, failure e with
  | CExecuteScript script [AElement el'; AValue v], None =>
      if String.eqb script js_set_value && (el' =? el) then Some v else None
  | _, _ => None
  end.

(** The value of the field [el] after the commands [evs]: that of the
    last assignment that succeeded. *)
Fixpoint field_value (evs : list event) (el : element) : option pyval :=
  match evs with
  | [] => None
  | e :: evs' =>
      match field_value evs' el with
      | Some v => Some v
      | None => assigned el e
      end
  end.

(** The elements clicked with success, natively or by script. *)
Definition clicked (evs : list event) : list element :=
  flat_map (fun e =>
              match cmd e, failure e with
              | CClick el, None => [el]
              | CExecuteScript script [AElement el], None =>
                  if String.eqb script js_click then [el] else []
              | _, _ => []
              end) evs.

(** The texts typed with success. *)
Definition typed (evs : list event) : list string :=
  flat_map (fun e =>
              match cmd e, failure e with
              | CSendKeys _ t, None => [t]
              | _, _ => []
              end) evs.


(** All commands of a run, in order. *)
Definition commands_of (tr : list step) : list event :=
  flat_map (fun x => match x with
                     | Called _ _ evs => evs
                     | Paused ms => [Ev (CSleep ms) None]
                     end) tr.

(** The waits of [select_company] for the list of suggestions, each
    with how it failed. *)
Definition suggestion_waits (evs : list event) : list (option exn) :=
  flat_map (fun e =>
              match cmd e with
              | CUntil _ presence_of_all_elements_located (XPATH, x) =>
                  if String.eqb x "//ul[contains(@class, 'dropdown-menu')]/li/a"
                  then [failure e] else []
              | _ => []
              end) evs.

(** *** Two runs that differ in what they write *)




(** *** Browsers for the examples *)

(** A browser in which every command succeeds and every element asked
    for is there, named by the number of the command that found it.
    Every text read is [shown].  The one thing missing is the login
    error banner, which the thirteenth command of a run looks for. *)
Definition healthy (shown : string) : browser :=
  {| reply_unit := fun _ => None;
     reply_element := fun n => if n =? 12 then inl NoSuchElementException else inr n;
     reply_elements := fun n => inr [n];
     reply_bool := fun _ => inr true;
     reply_text := fun _ => inr shown |}.

(** A fresh automator in front of the browser [b]. *)
Definition fresh (b : browser) : core :=
  SupersetAutomator.init b "https://superset.example/" "operator" "secret" false.

(** The automator after [setup_driver], ready for a stage: the two
    commands of the setup are answered, the next has number 2. *)
Definition ready (b : browser) : core :=
  state_of (setup_driver (R := Empty_set) (fresh b)).

(** The page is as it should be, but the body of the rich-text editor
    cannot be cleared: [body.clear()], the seventh command of
    [fill_tinymce_field_by_label] after the setup, raises a
    [WebDriverException] that is neither a timeout nor a missing
    element (Selenium's ElementNotInteractableException or
    StaleElementReferenceException). *)
Definition editor_not_interactable : browser :=
  {| reply_unit := fun n => if n =? 6 then Some WebDriverException else None;
     reply_element := fun n => inr n;
     reply_elements := fun n => inr [n];
     reply_bool := fun _ => inr true;
     reply_text := fun _ => inr "Acme Robotics" |}.

(** The company is not known: no suggestion ever shows (both waits for
    the suggestion list time out), while the sub-flow that adds the
    company goes through; the list in its modal holds one other
    company. *)
Definition company_unknown : browser :=
  {| reply_unit := fun _ => None;
     reply_element := fun n => inr n;
     reply_elements := fun n => if n =? 14 then inr [20] else inl TimeoutException;
     reply_bool := fun _ => inr true;
     reply_text := fun _ => inr "Another Company" |}.

(** The forced assignment of the minimum salary fails in the page (the
    ninth command of [add_ctc_details] after the setup raises
    Selenium's JavascriptException, a [WebDriverException]). *)
Definition assignment_fails : browser :=
  {| reply_unit := fun n => if n =? 8 then Some WebDriverException else None;
     reply_element := fun n => inr n;
     reply_elements := fun n => inr [n];
     reply_bool := fun _ => inr true;
     reply_text := fun _ => inr "Acme Robotics" |}.


(** *** Reading one method *)

(** A command went through, or it failed. *)
Definition passed (e : event) : Prop := failure e = None.

Definition failed (e : event) : Prop := failure e <> None.

Definition succeeded (a : option exn) : bool :=
  match a with None => true | Some _ => false end.

(** The automator as [setup_driver] leaves it: a driver, the session's
    wait of 15 on that driver, and the interaction helper built on
    both. *)
Definition set_up (s : core) : Prop :=
  exists d,
    driver s = Some d /\
    wait s = Some {| wait_driver := Some d; timeout := 15 |} /\
    element_interaction s =
      Some {| ei_driver := d; ei_wait := {| wait_driver := Some d; timeout := 15 |} |}.

(** The text has nothing but the characters [strip] removes. *)
Definition blank (t : string) : bool := forallb Py.is_space (Py.decode t).

(** [true_only_if P m]: when [m] gives [True], its commands satisfy [P]. *)
Definition true_only_if {R} (P : list event -> Prop) (m : M event R bool) : Prop :=
  forall s,
    match result_of (m s) with
    | Normal true => P (events_of (m s))
    | _ => True
    end.

(** A wait for the element at [l] went through. *)
Definition waited_for (l : locator) (e : event) : Prop :=
  exists n c, e = Ev (CUntil n c l) None.

(** The text [t] was typed into some element. *)
Definition typed_text (t : string) (e : event) : Prop :=
  exists el, e = Ev (CSendKeys el t) None.

(** The elements some stages wait for before they report success. *)
Definition dashboard : locator := (ID, "ui_container").
Definition create_button : locator :=
  (XPATH, "//button[contains(text(), 'Create New Job Profile')]").
Definition ok_button : locator :=
  (XPATH, "//div[@class='modal-footer']//button[contains(text(), 'OK')]").
Definition courses_popup : locator :=
  (XPATH, "//div[contains(@class, 'modal-dialog') or contains(@class, 'modal-content')]").
Definition eligibility_yes_button : locator :=
  (XPATH, "//button[contains(@class, 'btn-primary') and (text()='Yes' or @ng-click='ok()')]").
Definition submit_yes_button : locator :=
  (XPATH, "//button[text()='Yes' and contains(@class, 'btn-primary')]").

(** What a stage of [run] that returned [True] has done at least: the
    wait that ends it went through, or the value of the job record it
    is given was typed. *)
Definition stage_evidence (job : JobData) (st : stage) (evs : list event) : Prop :=
  match st with
  | Login => Exists (waited_for dashboard) evs
  | CompanyData => Exists (typed_text (company_name job)) evs
  | JobTitle => Exists (typed_text (job_title job)) evs
  | Location => Exists (typed_text (location job)) evs
  | JobFunction => Exists (typed_text (job_function job)) evs
  | SalaryBreakup => Exists (typed_text (salary_breakup job)) evs
  | JobDescription => Exists (typed_text (job_description job)) evs
  | CreateAndConfirm => Exists (waited_for ok_button) evs
  | ApplicableCourses => Exists (waited_for courses_popup) evs
  | EligibilityCriteria => Exists (waited_for eligibility_yes_button) evs
  | HiringWorkflow => Exists (waited_for submit_yes_button) evs
  | _ => True
  end.

(** Every call in the trace of [run] that reported [True] satisfies [P]. *)
Definition reports (P : stage -> list event -> Prop) (x : step) : Prop :=
  match x with
  | Called st (ReturnedBool true) evs => P st evs
  | _ => True
  end.

(** The screenshot of an error handler failed with [e], as the last
    command sent. *)
Definition screenshot_failed (e : exn) (t : list event) : Prop :=
  exists pre file, t = pre ++ [Ev (CSaveScreenshot file) (Some e)].

(** The only exceptions that leave [m]: that of a failed screenshot, or
    the [AttributeError] of an automator without a driver. *)
Definition raises_only_from_the_screenshot {R} (m : M event R bool) : Prop :=
  forall s,
    match result_of (m s) with
    | Raised e =>
        (e = AttributeError /\ driver s = None) \/ screenshot_failed e (events_of (m s))
    | Returned _ => False
    | Normal _ => True
    end.

(** *** Conditions on the commands of a block *)

(** [ensures N Q X m]: whatever the state, the commands of [m] satisfy
    [N] when [m] ends normally, [Q r] when it returns [r], and [X] when
    it raises. *)
Definition ensures {R A} (N : list event -> Prop) (Q : R -> list event -> Prop)
    (X : list event -> Prop) (m : M event R A) : Prop :=
  forall s,
    match result_of (m s) with
    | Normal _ => N (events_of (m s))
    | Returned r => Q r (events_of (m s))
    | Raised _ => X (events_of (m s))
    end.

(** What lets the three conditions go through a sequence of statements. *)
Record sequential {R} (N : list event -> Prop) (Q : R -> list event -> Prop)
    (X : list event -> Prop) : Prop := {
  seq_nil : N [];
  seq_normal : forall t1 t2, N t1 -> N t2 -> N (t1 ++ t2);
  seq_return : forall r t1 t2, N t1 -> Q r t2 -> Q r (t1 ++ t2);
  seq_raise : forall t1 t2, N t1 -> X t2 -> X (t1 ++ t2)
}.

(** Every command went through when the block ends normally or returns
    [True]. *)
Definition faultless {A} (m : M event bool A) : Prop :=
  ensures (Forall passed) (fun r t => r = true -> Forall passed t) (fun _ => True) m.

(** The block returns [True] only after a command that satisfies [p]. *)
Definition reached {A} (p : event -> Prop) (m : M event bool A) : Prop :=
  ensures (fun _ => True) (fun r t => r = true -> Exists p t) (fun _ => True) m.

(** The block never falls off its end: it returns or raises. *)
Definition leaves {R A} (m : M event R A) : Prop :=
  forall s, match result_of (m s) with Normal _ => False | _ => True end.

(** The block never returns [True]. *)
Definition never_true {A} (m : M event bool A) : Prop :=
  forall s, match result_of (m s) with Returned true => False | _ => True end.

(** *** The rounds of two loops *)

(** One round of the loop of [first_clickable]. *)
Definition clickable_round {R} (w : WebDriverWait) (selector : locator)
    (found : option element) : M event R (control (option element)) :=
  try_except
    (e <- until w element_to_be_clickable selector ;;
     ret (Break (Some e)))
    [ (is_Exception, fun _ => ret (Continue found)) ].

(** One round of the loop of [select_company]. *)
Definition suggestion_round (company_name : string) (suggestion : element) (_ : unit)
  : M event bool (control unit) :=
  t <- text suggestion ;;
  if Py.contains (Py.lower company_name) (Py.lower t) then
    text suggestion ;;
    click suggestion ;;
    return_ true
  else ret (Continue tt).

Unset Implicit Arguments.

(** ** Texts and numbers *)

(** [l] has an element. *)
Definition nonempty {A : Type} (l : list A) : bool :=
  match l with [] => false | _ => true end.

(** The code point of the decimal digit [d]. *)
Definition digit_point (d : Z) : N := (48 + Z.to_N d)%N.

(** Reading one more digit. *)
Definition read_digit (x d : Z) : Z := (10 * x + d)%Z.

(** The number of decimal digits of a number. *)
Definition decimal_length (z : Z) : nat :=
  String.length
    (Py.digits (S (Z.to_nat (Z.log2 (Z.abs z)))) (Z.abs z) EmptyString).

(** The text of [n] nines. *)
Fixpoint nines (n : nat) : string :=
  match n with
  | O => EmptyString
  | S n' => String "9" (nines n')
  end.

(** * Proofs *)

(** ** What a stage leaves alone, and the budget of its waits *)

Lemma same_self_refl s : same_self s s.
Proof. repeat split. Qed.

Lemma same_self_trans s1 s2 s3 : same_self s1 s2 -> same_self s2 s3 -> same_self s1 s3.
Proof. unfold same_self; intuition congruence. Qed.

Lemma budget_ok_frame b s s' e : same_self s s' -> budget_ok b s' e -> budget_ok b s e.
Proof.
  unfold budget_ok, same_self. intros (_ & Hw & _) H.
  destruct (cmd e); auto. destruct b; auto. now rewrite <- Hw.
Qed.

Lemma Forall_budget_frame b s s' t :
  same_self s s' -> Forall (budget_ok b s') t -> Forall (budget_ok b s) t.
Proof. intros H. apply Forall_impl. intros e. now apply budget_ok_frame. Qed.

Section Keeps.
Context {R : Type} (b : budget).

Lemma keeps_ret A (a : A) : keeps b (ret (R := R) a).
Proof. intros s. split; [apply same_self_refl | constructor]. Qed.

Lemma keeps_return A (r : R) : keeps b (return_ (A := A) r).
Proof. intros s. split; [apply same_self_refl | constructor]. Qed.

Lemma keeps_raise A (e : exn) : keeps b (raise (R := R) (A := A) e).
Proof. intros s. split; [apply same_self_refl | constructor]. Qed.

Lemma keeps_gets A (f : core -> A) : keeps b (gets (R := R) f).
Proof. intros s. split; [apply same_self_refl | constructor]. Qed.

Lemma keeps_bind A B (m : M event R A) (f : A -> M event R B) :
  keeps b m -> (forall a, keeps b (f a)) -> keeps b (bind m f).
Proof.
  intros Hm Hf s. unfold bind. specialize (Hm s).
  destruct (m s) as [[r s1] t1]. unfold state_of, events_of in *; simpl in *.
  destruct Hm as [H1 F1]. destruct r as [a | r | e]; simpl; auto.
  specialize (Hf a s1). destruct (f a s1) as [[r2 s2] t2]; simpl in *.
  destruct Hf as [H2 F2]. split.
  - eapply same_self_trans; eauto.
  - apply Forall_app. split; auto. eapply Forall_budget_frame; eauto.
Qed.

Lemma keeps_try_except A (body : M event R A) (cs : list (clause event R A)) :
  keeps b body -> Forall (fun c => forall e, keeps b (snd c e)) cs ->
  keeps b (try_except body cs).
Proof.
  intros Hm Hc s. unfold try_except. specialize (Hm s).
  destruct (body s) as [[r s1] t1]. unfold state_of, events_of in *; simpl in *.
  destruct Hm as [H1 F1]. destruct r as [a | r | e]; simpl; auto.
  assert (Hp : forall h, pick e cs = Some h -> keeps b h).
  { clear - Hc. induction Hc as [| [test h'] cs' Hh _ IH]; simpl; intros h.
    - discriminate.
    - destruct (test e); [ intros [= <-]; apply Hh | apply IH ]. }
  destruct (pick e cs) as [h |]; simpl; auto.
  specialize (Hp h eq_refl s1). destruct (h s1) as [[r2 s2] t2]; simpl in *.
  destruct Hp as [H2 F2]. split.
  - eapply same_self_trans; eauto.
  - apply Forall_app. split; auto. eapply Forall_budget_frame; eauto.
Qed.

Lemma keeps_for X S (xs : list X) (acc : S) (body : X -> S -> M event R (control S)) :
  (forall x a, keeps b (body x a)) -> keeps b (for_ xs acc body).
Proof.
  intros Hb. revert acc. induction xs as [| x xs IH]; intros acc; simpl.
  - apply keeps_ret.
  - apply keeps_bind; auto. intros [a | a]; auto. apply keeps_ret.
Qed.

End Keeps.

Lemma keeps_call R R' b (body : M event R R) : keeps b body -> keeps b (call (R' := R') body).
Proof.
  intros Hm s. unfold call. specialize (Hm s).
  destruct (body s) as [[r s1] t1]. destruct r; exact Hm.
Qed.

Lemma budget_ok_not_wait b s c a : not_wait c -> budget_ok b s (Ev c a).
Proof. unfold budget_ok; simpl. destruct c; simpl; tauto. Qed.

Section KeepsRemote.
Context {R : Type} (b : budget).

Lemma keeps_remote_unit c : not_wait c -> keeps b (remote_unit (R := R) c).
Proof.
  intros H s. unfold remote_unit, state_of, events_of; simpl. split.
  - repeat split.
  - repeat constructor. now apply budget_ok_not_wait.
Qed.

Lemma keeps_remote_element c : not_wait c -> keeps b (remote_element (R := R) c).
Proof.
  intros H s. unfold remote_element, state_of, events_of; simpl. split.
  - repeat split.
  - repeat constructor. now apply budget_ok_not_wait.
Qed.

Lemma keeps_remote_elements c : not_wait c -> keeps b (remote_elements (R := R) c).
Proof.
  intros H s. unfold remote_elements, state_of, events_of; simpl. split.
  - repeat split.
  - repeat constructor. now apply budget_ok_not_wait.
Qed.

Lemma keeps_remote_bool c : not_wait c -> keeps b (remote_bool (R := R) c).
Proof.
  intros H s. unfold remote_bool, state_of, events_of; simpl. split.
  - repeat split.
  - repeat constructor. now apply budget_ok_not_wait.
Qed.

Lemma keeps_remote_text c : not_wait c -> keeps b (remote_text (R := R) c).
Proof.
  intros H s. unfold remote_text, state_of, events_of; simpl. split.
  - repeat split.
  - repeat constructor. now apply budget_ok_not_wait.
Qed.

Lemma keeps_sleep ms : keeps b (sleep (R := R) ms).
Proof.
  intros s. unfold sleep, state_of, events_of; simpl. split.
  - repeat split.
  - repeat constructor.
Qed.

Lemma keeps_switch_to_frame d e : keeps b (switch_to_frame (R := R) d e).
Proof.
  intros s. unfold switch_to_frame, state_of, events_of.
  destruct (reply_unit (ui s) (tick s)); simpl; split;
    try (repeat split); repeat constructor.
Qed.

Lemma keeps_switch_to_default_content d :
  keeps b (switch_to_default_content (R := R) d).
Proof.
  intros s. unfold switch_to_default_content, state_of, events_of.
  destruct (reply_unit (ui s) (tick s)); simpl; split;
    try (repeat split); repeat constructor.
Qed.

Lemma keeps_self_driver : keeps b (self_driver (R := R)).
Proof.
  intros s. unfold self_driver, state_of, events_of.
  destruct (driver s); simpl; split; try (repeat split); constructor.
Qed.

Lemma keeps_self_wait : keeps b (self_wait (R := R)).
Proof.
  intros s. unfold self_wait, state_of, events_of.
  destruct (wait s); simpl; split; try (repeat split); constructor.
Qed.

Lemma keeps_self_element_interaction : keeps b (self_element_interaction (R := R)).
Proof.
  intros s. unfold self_element_interaction, state_of, events_of.
  destruct (element_interaction s); simpl; split; try (repeat split); constructor.
Qed.

End KeepsRemote.

Lemma keeps_until R (w : WebDriverWait) n c l :
  timeout w = n -> keeps (Fixed n) (until (R := R) w c l).
Proof.
  intros <- s. unfold until. destruct (wait_driver w).
  - unfold remote_element, state_of, events_of; simpl. split.
    + repeat split.
    + repeat constructor.
  - apply keeps_raise.
Qed.

Lemma keeps_until_all R (w : WebDriverWait) n l :
  timeout w = n -> keeps (Fixed n) (until_all (R := R) w l).
Proof.
  intros <- s. unfold until_all. destruct (wait_driver w).
  - unfold state_of, events_of.
    destruct (reply_elements (ui s) (tick s)) as [e | [| x xs]]; simpl; split;
      try (repeat split); repeat constructor.
  - apply keeps_raise.
Qed.

Lemma keeps_wait_until R c l : keeps Session (wait_until (R := R) c l).
Proof.
  intros s. unfold wait_until, bind, self_wait, until, state_of, events_of.
  destruct (wait s) as [w |] eqn:Hw; simpl.
  - destruct (wait_driver w); simpl.
    + split; [repeat split |]. repeat constructor.
      unfold budget_ok; simpl. now rewrite Hw.
    + split; [repeat split | constructor].
  - split; [repeat split | constructor].
Qed.

Lemma keeps_wait_until_all R l : keeps Session (wait_until_all (R := R) l).
Proof.
  intros s. unfold wait_until_all, bind, self_wait, until_all, state_of, events_of.
  destruct (wait s) as [w |] eqn:Hw; simpl.
  - destruct (wait_driver w); simpl.
    + destruct (reply_elements (ui s) (tick s)) as [e | [| x xs]]; simpl;
        (split; [repeat split |]); repeat constructor;
        unfold budget_ok; simpl; now rewrite Hw.
    + split; [repeat split | constructor].
  - split; [repeat split | constructor].
Qed.

Lemma keeps_new_wait R A b t (f : WebDriverWait -> M event R A) :
  (forall d, keeps b (f {| wait_driver := d; timeout := t |})) ->
  keeps b (bind (new_wait t) f).
Proof.
  intros H s. unfold bind, new_wait, gets. specialize (H (driver s) s).
  destruct (f _ s) as [[r s1] t1]. exact H.
Qed.

Ltac keeps_leaf :=
  first
    [ apply keeps_ret | apply keeps_return | apply keeps_raise | apply keeps_gets
    | apply keeps_sleep | apply keeps_self_driver | apply keeps_self_wait
    | apply keeps_self_element_interaction
    | apply keeps_switch_to_frame | apply keeps_switch_to_default_content
    | apply keeps_wait_until | apply keeps_wait_until_all
    | apply keeps_until; reflexivity | apply keeps_until_all; reflexivity
    | apply keeps_remote_unit; exact I | apply keeps_remote_element; exact I
    | apply keeps_remote_elements; exact I | apply keeps_remote_bool; exact I
    | apply keeps_remote_text; exact I ].

Ltac keeps_clauses :=
  lazymatch goal with
  | |- Forall _ (_ :: _) => constructor; [ simpl; intros | keeps_clauses ]
  | |- Forall _ [] => constructor
  end.

Ltac keeps_step :=
  lazymatch goal with
  | |- keeps _ (bind (new_wait _) _) => apply keeps_new_wait; intros
  | |- keeps _ (bind _ _) => apply keeps_bind; [ | intros ]
  | |- keeps _ (call _) => apply keeps_call
  | |- keeps _ (try_except _ _) =>
      apply keeps_try_except; [ | keeps_clauses ]
  | |- keeps _ (for_ _ _ _) => apply keeps_for; intros
  | |- keeps _ (if ?c then _ else _) => destruct c
  | |- keeps _ (match ?x with _ => _ end) => destruct x
  | |- Forall _ [] => constructor
  | |- keeps _ _ => keeps_leaf
  end.

Ltac keeps_unfold :=
  unfold safe_click, safe_input, js_input,
    driver_execute_script, driver_find_element, driver_find_elements,
    driver_save_screenshot, driver_action_chains_click,
    get, find_element, find_elements, execute_script, save_screenshot,
    action_chains_click, click, clear, send_keys, text, is_displayed,
    find_element_in, find_elements_in.

Ltac keeps_all := keeps_unfold; repeat keeps_step.

(** Each stage function keeps the driver, the session's wait and the
    open sessions, and waits within its budget. *)

Lemma keeps_login R : keeps Session (login (R := R)).
Proof. unfold login, _find_login_button, _check_for_login_errors. keeps_all. Qed.

Lemma keeps_select_placement_option R o : keeps Session (select_placement_option (R := R) o).
Proof. unfold select_placement_option. keeps_all. Qed.

Lemma keeps_fill_company_data R c : keeps Session (fill_company_data (R := R) c).
Proof. unfold fill_company_data, select_company, add_new_company. keeps_all. Qed.

Lemma keeps_fill_tinymce R l c : keeps (Fixed 10) (fill_tinymce_field_by_label (R := R) l c).
Proof. unfold fill_tinymce_field_by_label. keeps_all. Qed.

Lemma keeps_click_create_and_confirm R : keeps (Fixed 10) (click_create_and_confirm (R := R)).
Proof. unfold click_create_and_confirm. keeps_all. Qed.

Lemma keeps_select_applicable_courses R : keeps (Fixed 30) (select_applicable_courses (R := R)).
Proof. unfold select_applicable_courses, first_clickable, click_js_actions, click_js. keeps_all. Qed.

Lemma keeps_set_eligibility_criteria R : keeps (Fixed 30) (set_eligibility_criteria (R := R)).
Proof. unfold set_eligibility_criteria, last_resort_button, first_clickable, click_js_actions, click_js. keeps_all. Qed.

Lemma keeps_setup_hiring_workflow R : keeps (Fixed 30) (setup_hiring_workflow (R := R)).
Proof. unfold setup_hiring_workflow, last_resort_button, first_clickable, click_js_actions, click_js. keeps_all. Qed.

Lemma keeps_fill_job_profile_title R t : keeps Session (fill_job_profile_title (R := R) t).
Proof. unfold fill_job_profile_title. keeps_all. Qed.

Lemma keeps_fill_job_profile_source R : keeps Session (fill_job_profile_source (R := R)).
Proof. unfold fill_job_profile_source. keeps_all. Qed.

Lemma keeps_fill_job_location R l : keeps Session (fill_job_location (R := R) l).
Proof. unfold fill_job_location. keeps_all. Qed.

Lemma keeps_fill_position_type R : keeps Session (fill_position_type (R := R)).
Proof. unfold fill_position_type. keeps_all. Qed.

Lemma keeps_fill_job_function R i : keeps Session (fill_job_function (R := R) i).
Proof. unfold fill_job_function. keeps_all. Qed.

Lemma keeps_fill_category R : keeps Session (fill_category (R := R)).
Proof. unfold fill_category. keeps_all. Qed.

Lemma keeps_add_ctc_details R mn mx : keeps Session (add_ctc_details (R := R) mn mx).
Proof. unfold add_ctc_details. keeps_all. Qed.

Lemma keeps_click_is_equity_checkbox R : keeps Session (click_is_equity_checkbox (R := R)).
Proof. unfold click_is_equity_checkbox. keeps_all. Qed.

(** ** The shape of a run *)

Lemma run_pipeline R job : run (R := R) job = run_as_pipeline job.
Proof. reflexivity. Qed.

Lemma piped_frame s s' l tr ok : same_self s s' -> piped s' l tr ok -> piped s l tr ok.
Proof.
  intros H P. induction P.
  - constructor.
  - constructor; auto. eapply Forall_budget_frame; eauto.
  - constructor; auto. eapply Forall_budget_frame; eauto.
Qed.

Lemma pipeline_cons A st m l (k : M step bool A) s :
  pipeline ((st, m) :: l) k s =
  match m s with
  | (Normal true, s1, t) =>
      match pipeline l k s1 with
      | (r, s2, t2) => (r, s2, Called st (ReturnedBool true) t :: t2)
      end
  | (Normal false, s1, t) => (Returned false, s1, [Called st (ReturnedBool false) t])
  | (Returned r, _, _) => match r with end
  | (Raised e, s1, t) => (Raised e, s1, [Called st (Threw e) t])
  end.
Proof.
  simpl. unfold bind, invoke.
  destruct (m s) as [[[[|] | [] | e] s1] t]; simpl; auto.
  destruct (pipeline l k s1) as [[r s2] t2]; reflexivity.
Qed.

Lemma pipeline_piped A (k : M step bool A) l :
  Forall (fun p => keeps (stage_budget (fst p)) (snd p)) l ->
  forall s, exists tr ok s1,
    piped s (map fst l) tr ok /\ same_self s s1 /\
    if ok
    then forall r s2 t2, k s1 = (r, s2, t2) -> pipeline l k s = (r, s2, tr ++ t2)
    else exists r, pipeline l k s = (r, s1, tr) /\
                   (r = Returned false \/ exists e, r = Raised e).
Proof.
  induction 1 as [| [st m] l Hm _ IH]; intros s.
  - exists [], true, s. repeat split; [constructor |]. intros r s2 t2 E. exact E.
  - specialize (Hm s). simpl in Hm. unfold state_of, events_of in Hm.
    rewrite pipeline_cons.
    destruct (m s) as [[[[|] | [] | e] sa] ta]; simpl in Hm; destruct Hm as [Hs Hb].
    + destruct (IH sa) as (tr & ok & s1 & P & Hs1 & Hk).
      exists (Called st (ReturnedBool true) ta :: tr), ok, s1. split; [| split].
      * simpl. constructor; auto. eapply piped_frame; eauto.
      * eapply same_self_trans; eauto.
      * destruct ok.
        -- intros r s2 t2 E. rewrite (Hk _ _ _ E). reflexivity.
        -- destruct Hk as (r & E & Hr). exists r. rewrite E. auto.
    + exists [Called st (ReturnedBool false) ta], false, sa. split; [| split]; auto.
      * simpl. constructor; auto.
      * exists (Returned false). auto.
    + exists [Called st (Threw e) ta], false, sa. split; [| split]; auto.
      * simpl. constructor; auto.
      * exists (Raised e). eauto.
Qed.

Lemma stages_keep jd :
  Forall (fun p => keeps (stage_budget (fst p)) (snd p)) (stages_after_setup jd).
Proof.
  unfold stages_after_setup.
  constructor; [ apply keeps_login | ].
  constructor; [ apply keeps_select_placement_option | ].
  constructor; [ apply keeps_fill_company_data | ].
  constructor; [ apply keeps_fill_job_profile_title | ].
  constructor; [ apply keeps_fill_job_profile_source | ].
  constructor; [ apply keeps_fill_job_location | ].
  constructor; [ apply keeps_fill_position_type | ].
  constructor; [ apply keeps_fill_job_function | ].
  constructor; [ apply keeps_fill_category | ].
  constructor; [ apply keeps_add_ctc_details | ].
  constructor; [ apply keeps_click_is_equity_checkbox | ].
  constructor; [ apply keeps_fill_tinymce | ].
  constructor; [ apply keeps_fill_tinymce | ].
  constructor; [ apply keeps_click_create_and_confirm | ].
  constructor; [ apply keeps_select_applicable_courses | ].
  constructor; [ apply keeps_set_eligibility_criteria | ].
  constructor; [ apply keeps_setup_hiring_workflow | ].
  constructor.
Qed.

Lemma setup_driver_cases R s :
  (exists e s1 t,
      setup_driver (R := R) s = (Raised e, s1, t) /\ same_self s s1 /\ Forall no_wait t)
  \/ (exists d s1 t,
         setup_driver (R := R) s = (Normal tt, s1, t) /\
         driver s1 = Some d /\
         wait s1 = Some {| wait_driver := Some d; timeout := 15 |} /\
         open_sessions s1 = d :: open_sessions s /\
         Forall no_wait t).
Proof.
  unfold setup_driver, call, try_except, bind, gets, install, remote_unit, Chrome, modify.
  simpl.
  destruct (reply_unit (ui s) (tick s)) as [e |] eqn:E0; simpl.
  - left. destruct (is_WebDriverException e); simpl;
      (do 3 eexists; split; [ reflexivity | split; [ repeat split | repeat constructor ] ]).
  - destruct (reply_unit (ui s) (S (tick s))) as [e |] eqn:E1; simpl.
    + left. destruct (is_WebDriverException e); simpl;
        (do 3 eexists; split; [ reflexivity | split; [ repeat split | repeat constructor ] ]).
    + right. do 3 eexists. split; [ reflexivity | ]. simpl.
      repeat split; repeat constructor.
Qed.

Lemma teardown_spec R s :
  exists s' t,
    teardown (R := R) s = (Normal tt, s', t) /\ Forall no_wait t /\
    driver s' = driver s /\
    open_sessions s' =
      match driver s with
      | Some d => remove Nat.eq_dec d (open_sessions s)
      | None => open_sessions s
      end.
Proof.
  unfold teardown, call, bind, gets, quit. simpl.
  destruct (driver s) as [d |] eqn:D; simpl.
  - do 2 eexists. split; [ reflexivity | ]. simpl. rewrite D.
    repeat split; repeat constructor.
  - do 2 eexists. split; [ reflexivity | ]. simpl.
    repeat split; auto.
Qed.

Lemma closed_after_teardown s s' :
  driver s' = driver s ->
  open_sessions s' =
    match driver s with
    | Some d => remove Nat.eq_dec d (open_sessions s)
    | None => open_sessions s
    end ->
  incl (open_sessions s') (open_sessions s) /\
  (forall d, driver s' = Some d -> ~ In d (open_sessions s')).
Proof.
  intros Hd Ho. rewrite Hd, Ho. destruct (driver s) as [d |]; split.
  - intros x Hx. apply in_remove in Hx. tauto.
  - intros d' [= <-]. apply remove_In.
  - apply incl_refl.
  - discriminate.
Qed.

Lemma run_shape R job s :
  exists r0 t0 mid t1 b s',
    run (R := R) job s =
      (Normal b, s', Called DriverSetup r0 t0 :: mid ++ [Called Teardown ReturnedNone t1]) /\
    Forall no_wait t0 /\ Forall no_wait t1 /\
    incl (open_sessions s') (open_sessions s) /\
    (forall d, driver s' = Some d -> ~ In d (open_sessions s')) /\
    ((exists e, r0 = Threw e /\ mid = [] /\ b = false)
     \/ (exists s1 tr,
            r0 = ReturnedNone /\ option_map timeout (wait s1) = Some 15 /\
            piped s1 stage_names tr b /\
            mid = tr ++ (if b then [Paused 10000] else []))).
Proof.
  rewrite run_pipeline. unfold run_as_pipeline.
  set (k := pause 10000 ;; ret true).
  unfold call, bind, try_finally, try_except, invoke, return_.
  destruct (setup_driver_cases Empty_set s)
    as [(e & s1 & t & Hs & Hself & Hnw) | (d & s1 & t & Hs & Hd & Hw & Ho & Hnw)];
    rewrite Hs; cbv beta iota zeta.
  - simpl. destruct (teardown_spec Empty_set s1) as (s' & t1 & Ht & Hnw1 & Hd1 & Ho1).
    rewrite Ht; simpl.
    destruct (closed_after_teardown s1 s' Hd1 Ho1) as [Hi Hc].
    destruct Hself as (Hsd & _ & _ & Hso).
    exists (Threw e), t, [], t1, false, s'. simpl.
    repeat split; auto.
    + rewrite <- Hso. exact Hi.
    + left. eauto.
  - destruct (pipeline_piped bool k _
                (stages_keep (job_or_default job)) s1)
      as (tr & ok & s2 & P & Hs2 & Hk).
    destruct Hs2 as (Hd2 & Hw2 & _ & Ho2).
    destruct (teardown_spec Empty_set s2) as (s' & t1 & Ht & Hnw1 & Hd1 & Ho1).
    assert (Hclosed : incl (open_sessions s') (open_sessions s) /\
                      (forall d, driver s' = Some d -> ~ In d (open_sessions s'))).
    { split.
      - rewrite Ho1, Hd2, Hd, Ho2, Ho. simpl.
        destruct (Nat.eq_dec d d) as [_ | N]; [ | congruence ].
        intros x Hx. apply in_remove in Hx. tauto.
      - rewrite Hd1, Hd2, Hd, Ho1, Hd2, Hd. intros d' [= <-]. apply remove_In. }
    destruct Hclosed as [Hi Hc].
    destruct ok.
    + rewrite (Hk (Normal true) s2 [Paused 10000] eq_refl). cbv beta iota zeta.
      rewrite Ht; simpl.
      exists ReturnedNone, t, (tr ++ [Paused 10000]), t1, true, s'.
      repeat split; auto.
      * now rewrite !app_nil_r.
      * right. exists s1, tr. rewrite Hw. repeat split; auto.
    + destruct Hk as (r & E & [-> | (e & ->)]); rewrite E; simpl; rewrite Ht; simpl.
      * exists ReturnedNone, t, tr, t1, false, s'.
        repeat split; auto.
        right. exists s1, tr. rewrite Hw, app_nil_r. repeat split; auto.
      * exists ReturnedNone, t, tr, t1, false, s'.
        repeat split; auto.
        -- now rewrite !app_nil_r.
        -- right. exists s1, tr. rewrite Hw, app_nil_r. repeat split; auto.
Qed.

(** ** The calls of a run *)

Lemma calls_app tr1 tr2 : calls (tr1 ++ tr2) = calls tr1 ++ calls tr2.
Proof. unfold calls. apply flat_map_app. Qed.

Lemma In_firstn {A} (x : A) n l : In x (firstn n l) -> In x l.
Proof.
  intros H. rewrite <- (firstn_skipn n l). apply in_or_app. now left.
Qed.

Lemma NoDup_firstn {A} n (l : list A) : NoDup l -> NoDup (firstn n l).
Proof.
  intros H. rewrite <- (firstn_skipn n l) in H. now apply NoDup_app_remove_r in H.
Qed.

Lemma piped_calls s l tr ok :
  piped s l tr ok ->
  (exists n, map fst (calls tr) = firstn n l) /\
  forallb success (map snd (removelast (calls tr))) = true /\
  forallb success (map snd (calls tr)) = ok /\
  (ok = true -> map fst (calls tr) = l).
Proof.
  induction 1 as [| st l evs tr ok Hb P IH | st l r evs Hr Hb].
  - repeat split; auto. exists 0. reflexivity.
  - destruct IH as ([n Hn] & Hl & Ha & Hk).
    change (calls (Called st (ReturnedBool true) evs :: tr))
      with ((st, ReturnedBool true) :: calls tr).
    repeat split.
    + exists (S n). simpl. now rewrite Hn.
    + destruct (calls tr) as [| c cs] eqn:E; [ reflexivity | ].
      change (removelast ((st, ReturnedBool true) :: c :: cs))
        with ((st, ReturnedBool true) :: removelast (c :: cs)).
      simpl map. simpl forallb. exact Hl.
    + simpl. exact Ha.
    + intros Hok. simpl. now rewrite Hk.
  - simpl. repeat split; auto.
    + exists 1. reflexivity.
    + now rewrite Hr.
    + discriminate.
Qed.

Lemma prefix_no_teardown n (cs : list (stage * report)) :
  map fst cs = firstn n stage_names ->
  filter (fun c => negb (is_teardown (fst c))) cs = cs /\
  filter (fun c => is_teardown (fst c)) cs = [].
Proof.
  intros H.
  assert (F : Forall (fun c => is_teardown (fst c) = false) cs).
  { apply Forall_forall. intros c Hc.
    assert (Hin : In (fst c) stage_names).
    { apply (In_firstn _ n). rewrite <- H. now apply in_map. }
    revert Hin. generalize (fst c). clear. intros st. unfold stage_names. simpl.
    intuition (subst; reflexivity). }
  clear H. induction F as [| c cs Hc _ [IH1 IH2]]; simpl; [ auto | ].
  rewrite Hc. simpl. now rewrite IH1, IH2.
Qed.

Lemma pipeline_genuine job A (k : M step bool A) l :
  Forall (fun p => forall s, method job (fst p) s = observed ReturnedBool (snd p) s) l ->
  (forall s, genuine job s (events_of (k s)) (state_of (k s))) ->
  forall s, genuine job s (events_of (pipeline l k s)) (state_of (pipeline l k s)).
Proof.
  intros Hl Hk. induction Hl as [| [st m] l Hm _ IH]; intros s.
  - apply Hk.
  - rewrite pipeline_cons. specialize (Hm s). simpl in Hm. unfold observed in Hm.
    unfold state_of, events_of in *.
    destruct (m s) as [[[[|] | [] | e] sa] ta]; simpl.
    + specialize (IH sa). destruct (pipeline l k sa) as [[r s2] t2]. simpl in *.
      exists sa. split; [ exact Hm | exact IH ].
    + exists sa. split; [ exact Hm | reflexivity ].
    + exists sa. split; [ exact Hm | reflexivity ].
Qed.

Lemma stages_are_the_methods job :
  Forall (fun p => forall s, method job (fst p) s = observed ReturnedBool (snd p) s)
    (stages_after_setup job).
Proof.
  unfold stages_after_setup.
  repeat (constructor; [ intros s; reflexivity | ]). constructor.
Qed.

(** The trace of [run] is made of the calls that took place. *)
Lemma run_genuine R job_data s :
  genuine (job_or_default job_data) s
    (events_of (run (R := R) job_data s)) (state_of (run (R := R) job_data s)).
Proof.
  rewrite run_pipeline. unfold run_as_pipeline.
  set (job := job_or_default job_data).
  set (k := pause 10000 ;; ret true).
  assert (Hk : forall s, genuine job s (events_of (k s)) (state_of (k s))).
  { intros s0. reflexivity. }
  pose proof (pipeline_genuine job bool k _ (stages_are_the_methods job) Hk) as Hp.
  clearbody k.
  assert (Ht : forall s2,
            exists s' t1,
              teardown (R := Empty_set) s2 = (Normal tt, s', t1) /\
              method job Teardown s2 = (ReturnedNone, s', t1)).
  { intros s2. destruct (teardown_spec Empty_set s2) as (s' & t1 & Ht & _).
    exists s', t1. split; [ exact Ht | ].
    unfold method, observed. rewrite Ht. reflexivity. }
  assert (Happ : forall tr sa sb sc t1,
            genuine job sa tr sb ->
            method job Teardown sb = (ReturnedNone, sc, t1) ->
            genuine job sa (tr ++ [Called Teardown ReturnedNone t1]) sc).
  { induction tr as [| x tr IH]; intros sa sb sc t1 G M1; simpl in *.
    - subst sb. exists sc. split; [ exact M1 | reflexivity ].
    - destruct x as [st r evs | ms].
      + destruct G as (s1 & M0 & G). exists s1. split; [ exact M0 | ]. eapply IH; eauto.
      + eapply IH; eauto. }
  unfold call, bind, try_finally, try_except, invoke, return_, state_of, events_of.
  assert (Hs : method job DriverSetup s = observed (fun _ => ReturnedNone) setup_driver s)
    by reflexivity.
  unfold observed in Hs.
  destruct (setup_driver s) as [[[[] | [] | e] s1] t0]; cbv beta iota zeta.
  - specialize (Hp s1). unfold state_of, events_of in Hp.
    destruct (pipeline _ k s1) as [[[b | b | e] s2] t2]; simpl in *.
    all: destruct (Ht s2) as (s' & t1 & E1 & M1); rewrite E1; simpl.
    all: rewrite ?app_nil_r; exists s1; (split; [ exact Hs | ]).
    all: eapply Happ; eauto.
  - simpl. destruct (Ht s1) as (s' & t1 & E1 & M1). rewrite E1. simpl.
    exists s1. split; [ exact Hs | ]. exists s'. split; [ exact M1 | reflexivity ].
Qed.

(** C1. For every job record and every behaviour of the browser: the
    trace of [run] is made of the calls that took place, each the call
    of the method of its stage, with the arguments [run] gives it, in
    the state the calls before it left, entered with what that method
    reported and sent; the stage functions called are a prefix of
    [stage_order], each called at most once; every call but the last
    reported success; [run] returns [True] exactly when every call it
    made reported success, and then all eighteen were made. *)
Theorem run_true_iff_every_stage_succeeds :
  forall (R : Type) (job_data : option JobData) (s : core),
    let out := run (R := R) job_data s in
    let cs := stage_calls (events_of out) in
    genuine (job_or_default job_data) s (events_of out) (state_of out) /\
    (exists n, map fst cs = firstn n stage_order) /\
    NoDup (map fst cs) /\
    forallb success (map snd (removelast cs)) = true /\
    result_of out = Normal (forallb success (map snd cs)) /\
    (forallb success (map snd cs) = true -> map fst cs = stage_order).
Proof.
  intros R job s out cs. subst out cs.
  split; [ apply run_genuine | ].
  destruct (run_shape R job s)
    as (r0 & t0 & mid & t1 & b & s' & E & _ & _ & _ & _ & Hcase).
  rewrite E. unfold result_of, events_of, stage_calls. simpl fst. simpl snd.
  change (calls (Called DriverSetup r0 t0 :: mid ++ [Called Teardown ReturnedNone t1]))
    with ((DriverSetup, r0) :: calls (mid ++ [Called Teardown ReturnedNone t1])).
  rewrite calls_app. simpl filter. rewrite filter_app. simpl.
  rewrite app_nil_r.
  assert (Hnodup : forall n, NoDup (firstn n stage_order)).
  { intros n. apply NoDup_firstn. unfold stage_order, stage_names.
    repeat (constructor; [ simpl; intuition discriminate | ]). constructor. }
  destruct Hcase as [(e & -> & -> & ->) | (s1 & tr & -> & _ & P & ->)].
  - simpl. repeat split; auto.
    + exists 1. reflexivity.
    + apply (Hnodup 1).
    + discriminate.
  - apply piped_calls in P. destruct P as ([n Hn] & Hl & Ha & Hk).
    assert (Hc : calls (tr ++ (if b then [Paused 10000] else [])) = calls tr).
    { rewrite calls_app. destruct b; simpl; apply app_nil_r. }
    rewrite Hc. destruct (prefix_no_teardown n _ Hn) as [-> _].
    assert (Hp : map fst ((DriverSetup, ReturnedNone) :: calls tr)
                 = firstn (S n) stage_order).
    { simpl. now rewrite Hn. }
    repeat split.
    + exists (S n). exact Hp.
    + change (NoDup (map fst ((DriverSetup, ReturnedNone) :: calls tr))).
      rewrite Hp. apply Hnodup.
    + destruct (calls tr) as [| c cs]; [ reflexivity | ].
      change (removelast ((DriverSetup, ReturnedNone) :: c :: cs))
        with ((DriverSetup, ReturnedNone) :: removelast (c :: cs)).
      simpl map. simpl forallb. exact Hl.
    + simpl. now rewrite Ha.
    + simpl. rewrite Ha. intros Hb. unfold stage_order. now rewrite Hk.
Qed.


(** ** The budgets of the waits *)

Lemma budget_to_wait_budget s st e :
  option_map timeout (wait s) = Some 15 ->
  wait_budget st <> None ->
  budget_ok (stage_budget st) s e ->
  match cmd e with
  | CUntil t _ _ => wait_budget st = Some t
  | _ => True
  end.
Proof.
  intros Hw Hst H. unfold budget_ok in H.
  destruct (cmd e); auto.
  destruct st; simpl in *; try congruence; try (now subst).
Qed.

Lemma piped_waits s l tr ok :
  option_map timeout (wait s) = Some 15 ->
  Forall (fun st => wait_budget st <> None) l ->
  piped s l tr ok ->
  Forall (waits_with wait_budget) tr.
Proof.
  intros Hw Hl P. induction P as [| st l evs tr ok Hb P IH | st l r evs Hr Hb].
  - constructor.
  - inversion Hl; subst. constructor; auto. simpl.
    eapply Forall_impl; [ | exact Hb ]. intros e. now apply budget_to_wait_budget.
  - inversion Hl; subst. constructor; [ | constructor ]. simpl.
    eapply Forall_impl; [ | exact Hb ]. intros e. now apply budget_to_wait_budget.
Qed.

Lemma no_wait_waits_with st r evs :
  Forall no_wait evs -> waits_with wait_budget (Called st r evs).
Proof.
  intros H. simpl. eapply Forall_impl; [ | exact H ].
  intros e. unfold no_wait, not_wait. destruct (cmd e); tauto.
Qed.

Lemma waits_with_at_least x : waits_with wait_budget x -> waits_at_least 10 x.
Proof.
  destruct x as [st r evs | ms]; simpl; auto.
  apply Forall_impl. intros e. destruct (cmd e); auto.
  destruct st; simpl; intros [= <-]; lia.
Qed.

(** C8, as amended.  For every job record and every behaviour of the
    browser, every wait of a run has the budget of its stage: 15 (the
    session's wait) from the login to the equity checkbox, 10 in the two
    rich-text stages and in create-and-confirm, 30 in the three
    long-running stages; [setup_driver] and [teardown] do not wait.  So
    no wait has a budget below 10. *)
Theorem waits_use_the_budget_of_their_stage :
  forall (R : Type) (job_data : option JobData) (s : core),
    Forall (waits_with wait_budget) (events_of (run (R := R) job_data s)) /\
    Forall (waits_at_least 10) (events_of (run (R := R) job_data s)).
Proof.
  intros R job s.
  assert (H : Forall (waits_with wait_budget) (events_of (run (R := R) job s))).
  { destruct (run_shape R job s)
      as (r0 & t0 & mid & t1 & b & s' & E & Hn0 & Hn1 & _ & _ & Hcase).
    rewrite E. unfold events_of. simpl snd.
    constructor; [ now apply no_wait_waits_with | ].
    apply Forall_app. split; [ | constructor; [ now apply no_wait_waits_with | constructor ] ].
    destruct Hcase as [(e & _ & -> & _) | (s1 & tr & _ & Hw & P & ->)].
    - constructor.
    - apply Forall_app. split.
      + apply (piped_waits s1 stage_names tr b Hw); [ | exact P ].
        unfold stage_names.
        repeat (constructor; [ simpl; discriminate | ]). constructor.
      + destruct b; repeat constructor. }
  split; [ exact H | ].
  eapply Forall_impl; [ | exact H ]. apply waits_with_at_least.
Qed.

(** C8, as stated, fails on a run in front of a healthy browser: the
    salary break-up stage, which is not one of the long-running stages,
    waits with a budget of 10. *)
Lemma waits_below_the_stated_budget :
  ~ Forall (waits_with stated_budget)
      (events_of (run (R := Empty_set) None (fresh (healthy "Mercedes Benz")))).
Proof.
  intros H. rewrite Forall_forall in H.
  set (tr := events_of (run (R := Empty_set) None (fresh (healthy "Mercedes Benz")))) in *.
  assert (Hin : In (nth 12 tr (Paused 0)) tr).
  { apply nth_In. vm_compute. lia. }
  specialize (H _ Hin). vm_compute in H.
  inversion H as [| e evs Hhd _]. discriminate Hhd.
Qed.

(** ** The interaction primitives *)

(** C5.  For every element, every text and every behaviour of the
    browser, [safe_click] and [safe_input] return a boolean and raise
    nothing.  [safe_click] first scrolls the element into view, then
    clicks it; when the first failure of the two is an
    [ElementClickInterceptedException] (and only then) it goes on to the
    forced click by script and returns whether that succeeded; on any
    other failure it returns [False].  [safe_input] returns [False] as
    soon as clearing or typing fails. *)
Theorem interaction_primitives_collapse_failures :
  forall (R : Type) (self : Interaction) (el : element) (value : string) (s : core),
    let a0 := reply_unit (ui s) (tick s) in
    let a1 := reply_unit (ui s) (S (tick s)) in
    let a2 := reply_unit (ui s) (S (S (tick s))) in
    let scroll := CExecuteScript js_scroll_center [AElement el] in
    let forced := CExecuteScript js_click [AElement el] in
    let none (a : option exn) := match a with None => true | Some _ => false end in
    safe_click (R := R) self el s =
      match a0 with
      | None =>
          match a1 with
          | None =>
              (Normal true, bump (bump s),
               [Ev scroll None; Ev (CSleep 500) None; Ev (CClick el) None])
          | Some ElementClickInterceptedException =>
              (Normal (none a2), bump (bump (bump s)),
               [Ev scroll None; Ev (CSleep 500) None; Ev (CClick el) a1; Ev forced a2])
          | Some _ =>
              (Normal false, bump (bump s),
               [Ev scroll None; Ev (CSleep 500) None; Ev (CClick el) a1])
          end
      | Some ElementClickInterceptedException =>
          (Normal (none a1), bump (bump s), [Ev scroll a0; Ev forced a1])
      | Some _ => (Normal false, bump s, [Ev scroll a0])
      end
    /\
    safe_input (R := R) self el value s =
      match a0 with
      | None =>
          (Normal (none a1), bump (bump s),
           [Ev (CClear el) None; Ev (CSendKeys el value) a1])
      | Some _ => (Normal false, bump s, [Ev (CClear el) a0])
      end
    /\ (exists b, result_of (safe_click (R := R) self el s) = Normal b)
    /\ (exists b, result_of (safe_input (R := R) self el value s) = Normal b).
Proof.
  intros R self el value s a0 a1 a2 scroll forced none.
  subst a0 a1 a2 scroll forced none.
  unfold result_of, safe_click, safe_input, call, try_except, bind, execute_script,
    sleep, click, clear, send_keys, remote_unit, return_.
  simpl.
  repeat split.
  - destruct (reply_unit (ui s) (tick s)) as [[] |]; simpl;
      try reflexivity;
      destruct (reply_unit (ui s) (S (tick s))) as [[] |]; simpl;
        try reflexivity;
        destruct (reply_unit (ui s) (S (S (tick s)))) as [[] |]; reflexivity.
  - destruct (reply_unit (ui s) (tick s)) as [[] |]; simpl;
      try reflexivity;
      destruct (reply_unit (ui s) (S (tick s))) as [[] |]; reflexivity.
  - destruct (reply_unit (ui s) (tick s)) as [[] |]; simpl; eauto;
      destruct (reply_unit (ui s) (S (tick s))) as [[] |]; simpl; eauto;
        destruct (reply_unit (ui s) (S (S (tick s)))) as [[] |]; simpl; eauto.
  - destruct (reply_unit (ui s) (tick s)) as [[] |]; simpl; eauto;
      destruct (reply_unit (ui s) (S (tick s))) as [[] |]; simpl; eauto.
Qed.

(** ** The rich-text stages *)

(** C3, at the failing input.  When the body of the editor cannot be
    cleared, [fill_tinymce_field_by_label] returns no boolean: the
    [WebDriverException] of [body.clear()] leaves the method, whatever
    the label and the content. *)
Theorem fill_tinymce_lets_exceptions_out :
  forall label_text content : string,
    result_of
      (fill_tinymce_field_by_label (R := Empty_set) label_text content
         (ready editor_not_interactable))
    = Raised WebDriverException.
Proof. intros. vm_compute. reflexivity. Qed.

(** C4, at the failing input.  On the same exit path the driver is left
    inside the frame of the editor (the element found by the fourth
    command), though it started in the default content. *)
Theorem fill_tinymce_leaves_the_frame_switched :
  forall label_text content : string,
    context_of (ready editor_not_interactable) = DefaultContent /\
    context_of
      (state_of
         (fill_tinymce_field_by_label (R := Empty_set) label_text content
            (ready editor_not_interactable)))
    = InFrame 3.
Proof. intros. split; vm_compute; reflexivity. Qed.

(** ** The company stage *)

(** C6, at the failing input.  No suggestion for the company ever
    shows, before or after the sub-flow added the company: both waits
    for the suggestions time out and the only elements clicked are the
    two buttons of the sub-flow.  [fill_company_data] returns [True]
    all the same. *)
Theorem company_stage_succeeds_without_selection :
  let out :=
    fill_company_data (R := Empty_set) "Acme Robotics" (ready company_unknown) in
  result_of out = Normal true /\
  suggestion_waits (events_of out) = [Some TimeoutException; Some TimeoutException] /\
  clicked (events_of out) = [8; 16].
Proof. vm_compute. repeat split. Qed.

(** ** The salary stage *)

(** C7, at the failing input.  The forced assignment of the minimum
    fails in the page, so the field of the minimum (the element found by
    the seventh command) was given no value; [add_ctc_details] returns
    [True] all the same, for every pair of salaries. *)
Theorem ctc_stage_succeeds_without_the_minimum :
  forall min_salary max_salary : Z,
    let out :=
      add_ctc_details (R := Empty_set) min_salary max_salary (ready assignment_fails) in
    result_of out = Normal true /\
    field_value (events_of out) 6 = None /\
    field_value (events_of out) 7 = Some (PInt max_salary).
Proof. intros. vm_compute. repeat split. Qed.

(** In front of a healthy browser the stage does what C7 says: it
    clicks the control of the range mode, then assigns the minimum and
    then the maximum by script, and the two fields hold exactly the
    values given. *)
Lemma ctc_stage_writes_the_values_given :
  forall min_salary max_salary : Z,
    let out :=
      add_ctc_details (R := Empty_set) min_salary max_salary
        (ready (healthy "Acme Robotics")) in
    result_of out = Normal true /\
    map cmd (events_of out) =
      [ CUntil 15 element_to_be_clickable (XPATH, "//div[text()='Specify Range']");
        CExecuteScript js_scroll_true [AElement 2];
        CClick 2;
        CSleep 2000;
        CExecuteScript js_scroll_top [];
        CSleep 1000;
        CFindElement (ID, "ctcMin");
        CFindElement (ID, "ctcMax");
        CExecuteScript js_set_value [AElement 6; AValue (PInt min_salary)];
        CSleep 500;
        CExecuteScript js_set_value [AElement 7; AValue (PInt max_salary)] ] /\
    field_value (events_of out) 6 = Some (PInt min_salary) /\
    field_value (events_of out) 7 = Some (PInt max_salary).
Proof. intros. vm_compute. repeat split. Qed.

(** ** The salaries *)












Lemma over_limit_short limit count : count <= 640 -> Py.over_limit limit count = false.
Proof.
  intros H. unfold Py.over_limit.
  replace (640 <? count) with false; [ reflexivity | ].
  symmetry. apply Nat.ltb_ge. exact H.
Qed.

(** The limit does not apply to a number of at most 640 digits. *)
Lemma int_of_a_short_text limit s z count :
  Py.read_number s = Some (z, count) -> count <= 640 -> Py.int limit s = Some z.
Proof.
  intros H Hc. unfold Py.int. rewrite H, (over_limit_short limit count Hc).
  reflexivity.
Qed.




(** The coercion on texts of digits, under the usual limit of 4300
    digits: the decimal digits of any script are read as their number;
    a text of digits that are not all decimal (a superscript two) makes
    [int] raise, which the test [isdigit] does not prevent, and so does
    a text of more digits than the limit (641 under the least limit
    there can be), which is read where there is no limit; a text with
    white space or a sign is not a text of digits and gives 0. *)
Lemma salary_of_digit_texts :
  Main.salary_of_text 4300 "1200000" = inr 1200000%Z /\
  Main.salary_of_text 4300 "١٢٣" = inr 123%Z /\
  Main.salary_of_text 4300 "5²" = inl Exception /\
  Main.salary_of_text 640 (nines 641) = inl Exception /\
  Main.salary_of_text 0 (nines 641) = inr (10 ^ 641 - 1)%Z /\
  Main.salary_of_text 4300 " 12" = inr 0%Z /\
  Main.salary_of_text 4300 "-5" = inr 0%Z.
Proof.
  repeat match goal with |- _ /\ _ => split end; vm_compute; reflexivity.
Qed.

(** ** The default job record *)


(** ** What the stages give back *)

Lemma call_guarded {R R'} (body : M event R R) (cs : list (clause event R R)) :
  (forall e, exists b, pick e cs = Some (return_ b)) ->
  forall s, exists b, result_of (call (R' := R') (try_except body cs) s) = Normal b.
Proof.
  intros H s. unfold result_of, call, try_except.
  destruct (body s) as [[[a | r | e] s1] t1]; simpl; eauto.
  destruct (H e) as [b ->]. simpl. eauto.
Qed.

Lemma call_guarded_then {R R'} (body : M event R unit) (cs : list (clause event R unit))
    (v : R) :
  (forall e, pick e cs = Some (ret tt)) ->
  forall s,
    exists b, result_of (call (R' := R') (try_except body cs ;; return_ v) s) = Normal b.
Proof.
  intros H s. unfold result_of, call, bind, try_except.
  destruct (body s) as [[[a | r | e] s1] t1]; simpl; eauto.
  rewrite (H e). simpl. eauto.
Qed.

(** X1.  The eleven stages from the login to the equity checkbox end
    with [except Exception]: whatever the browser does, each returns a
    boolean and raises nothing. *)
Lemma stages_with_a_last_handler_return_a_boolean :
  forall (R : Type) (job : JobData) (s : core),
    (exists b, result_of (login (R := R) s) = Normal b) /\
    (exists b, result_of (select_placement_option (R := R) "Placements 2025" s) = Normal b) /\
    (exists b, result_of (fill_company_data (R := R) (company_name job) s) = Normal b) /\
    (exists b, result_of (fill_job_profile_title (R := R) (job_title job) s) = Normal b) /\
    (exists b, result_of (fill_job_profile_source (R := R) s) = Normal b) /\
    (exists b, result_of (fill_job_location (R := R) (location job) s) = Normal b) /\
    (exists b, result_of (fill_position_type (R := R) s) = Normal b) /\
    (exists b, result_of (fill_job_function (R := R) (job_function job) s) = Normal b) /\
    (exists b, result_of (fill_category (R := R) s) = Normal b) /\
    (exists b, result_of (add_ctc_details (R := R) (min_salary job) (max_salary job) s)
               = Normal b) /\
    (exists b, result_of (click_is_equity_checkbox (R := R) s) = Normal b).
Proof.
  intros R job s.
  repeat split.
  all: first
         [ apply call_guarded; intros e; destruct e; simpl; eauto
         | apply call_guarded_then; intros e; destruct e; reflexivity ].
Qed.

(** X2.  The flow of [fill_company_data], for every company name and
    every behaviour of the browser: [add_new_company] is called exactly
    when the first [select_company] did not return [True], and then
    once; [select_company] is called again exactly when
    [add_new_company] returned [True]; and what that second call
    returns is not looked at. *)
Lemma company_stage_flow :
  forall (R : Type) (name : string) (s : core),
    fill_company_data (R := R) name s =
    match select_company (R := bool) name s with
    | (Normal true, s1, t1) => (Normal true, s1, t1)
    | (Normal false, s1, t1) =>
        match add_new_company (R := bool) name s1 with
        | (Normal true, s2, t2) =>
            match select_company (R := bool) name s2 with
            | (Normal _, s3, t3) => (Normal true, s3, t1 ++ t2 ++ t3)
            | (Returned r, s3, t3) => (Normal r, s3, t1 ++ t2 ++ t3)
            | (Raised _, s3, t3) => (Normal false, s3, t1 ++ t2 ++ t3)
            end
        | (Normal false, s2, t2) => (Normal false, s2, t1 ++ t2)
        | (Returned r, s2, t2) => (Normal r, s2, t1 ++ t2)
        | (Raised _, s2, t2) => (Normal false, s2, t1 ++ t2)
        end
    | (Returned r, s1, t1) => (Normal r, s1, t1)
    | (Raised _, s1, t1) => (Normal false, s1, t1)
    end.
Proof.
  intros R name s. unfold fill_company_data, call, try_except, bind.
  destruct (select_company name s) as [[[[|] | r | e] s1] t1]; simpl;
    try (rewrite ?app_nil_r; reflexivity).
  destruct (add_new_company name s1) as [[[[|] | r | e] s2] t2]; simpl;
    try (rewrite ?app_nil_r; reflexivity).
  destruct (select_company name s2) as [[[b | r | e] s3] t3]; simpl;
    rewrite ?app_nil_r; reflexivity.
Qed.

(** ** Running a method by cases on what the browser answers *)

Ltac split_on t :=
  let E := fresh "E" in
  destruct t eqn:E; simpl; rewrite ?E; simpl.

Ltac run_cmd :=
  match goal with
  | |- context [match reply_unit ?b ?n with _ => _ end] => split_on (reply_unit b n)
  | |- context [match reply_element ?b ?n with _ => _ end] => split_on (reply_element b n)
  | |- context [match reply_elements ?b ?n with _ => _ end] => split_on (reply_elements b n)
  | |- context [match reply_bool ?b ?n with _ => _ end] => split_on (reply_bool b n)
  | |- context [match reply_text ?b ?n with _ => _ end] => split_on (reply_text b n)
  | |- context [match driver ?s with _ => _ end] => split_on (driver s)
  | |- context [match wait ?s with _ => _ end] => split_on (wait s)
  | |- context [match element_interaction ?s with _ => _ end] =>
      split_on (element_interaction s)
  | |- context [match wait_driver ?w with _ => _ end] => split_on (wait_driver w)
  | e : exn |- _ =>
      match goal with
      | |- context [is_TimeoutException e] => idtac
      | |- context [is_NoSuchElementException e] => idtac
      | |- context [is_ElementClickInterceptedException e] => idtac
      | |- context [is_WebDriverException e] => idtac
      | |- context [is_Timeout_or_NoSuchElement e] => idtac
      | |- context [match e with TimeoutException => _ | _ => _ end] => idtac
      end; destruct e; simpl
  | |- context [if ?b then _ else _] => is_var b; destruct b; simpl
  | |- context [match ?l with nil => _ | _ => _ end] => is_var l; destruct l; simpl
  end.

Ltac unfold_prims :=
  unfold wait_until, wait_until_all,
    driver_execute_script, driver_find_element, driver_find_elements,
    driver_save_screenshot, driver_action_chains_click;
  unfold new_wait, until, until_all,
    self_driver, self_wait, self_element_interaction,
    get, find_element, find_elements, execute_script, save_screenshot,
    action_chains_click, click, clear, send_keys, text, is_displayed,
    find_element_in, find_elements_in, switch_to_frame, switch_to_default_content,
    sleep;
  unfold remote_unit, remote_element, remote_elements, remote_bool, remote_text,
    outcome_of, failure_of;
  unfold call, try_except, try_finally, bind, ret, return_, raise, gets.

Ltac use_set_up H :=
  let d := fresh "d" in
  let Hd := fresh "Hd" in
  let Hw := fresh "Hw" in
  let Hi := fresh "Hi" in
  destruct H as (d & Hd & Hw & Hi).

(** ** The driver *)

(** X3.  [setup_driver] is all or nothing.  When it returns, the
    automator holds the new session as its driver, a wait of 15 and the
    interaction helper on that driver, the session is open, and the two
    commands sent are the installation of the driver binary and the
    start of the browser with the automator's headless flag.  When it
    raises, it raises what the failed command raised, as the last
    command sent, and the automator holds what it held. *)
Theorem setup_driver_all_or_nothing :
  forall (R : Type) (s : core),
    let out := setup_driver (R := R) s in
    match result_of out with
    | Normal _ =>
        exists d,
          driver (state_of out) = Some d /\
          wait (state_of out) = Some {| wait_driver := Some d; timeout := 15 |} /\
          element_interaction (state_of out) =
            Some {| ei_driver := d;
                    ei_wait := {| wait_driver := Some d; timeout := 15 |} |} /\
          open_sessions (state_of out) = d :: open_sessions s /\
          map cmd (events_of out) = [CInstall; CNewSession (headless s)]
    | Raised e =>
        same_self s (state_of out) /\
        (exists pre c, events_of out = pre ++ [Ev c (Some e)])
    | Returned _ => False
    end.
Proof.
  intros R s out. subst out.
  unfold setup_driver, install, Chrome, modify, result_of, state_of, events_of.
  unfold_prims. simpl.
  destruct (reply_unit (ui s) (tick s)) as [e |] eqn:E0; simpl.
  - destruct (is_WebDriverException e); simpl;
      (split; [ repeat split | exists [], CInstall; reflexivity ]).
  - destruct (reply_unit (ui s) (S (tick s))) as [e |] eqn:E1; simpl.
    + destruct (is_WebDriverException e); simpl;
        (split; [ repeat split
                | exists [Ev CInstall None], (CNewSession (headless s)); reflexivity ]).
    + exists (S (tick s)). repeat split.
Qed.

(** X5.  Between [setup_driver] and [teardown] no stage touches the
    session: each of the seventeen stage functions leaves the driver,
    the session's wait, the interaction helper and the set of open
    sessions as it found them, for every job record and every behaviour
    of the browser. *)
Theorem stages_leave_the_session_alone :
  forall (job : JobData),
    Forall (fun p => forall s, same_self s (state_of (snd p s)))
      (stages_after_setup job).
Proof.
  intros job. eapply Forall_impl; [ | apply stages_keep ].
  intros [st m] H s. apply (H s).
Qed.

(** ** The interaction helpers *)

(** X6.  [js_input] sends one command, the assignment of the value by
    script, and returns whether it went through; the field holds the
    value exactly when [js_input] returned [True]. *)
Theorem js_input_reports_the_assignment :
  forall (R : Type) (self : Interaction) (el : element) (value : pyval) (s : core),
    let a := reply_unit (ui s) (tick s) in
    js_input (R := R) self el value s =
      (Normal (succeeded a), bump s,
       [Ev (CExecuteScript js_set_value [AElement el; AValue value]) a]) /\
    field_value (events_of (js_input (R := R) self el value s)) el =
      (if succeeded a then Some value else None).
Proof.
  intros R self el value s a. subst a.
  unfold js_input, events_of. unfold_prims. simpl.
  destruct (reply_unit (ui s) (tick s)) as [e |]; simpl.
  - split; reflexivity.
  - split; [ reflexivity | ]. unfold assigned. simpl. now rewrite Nat.eqb_refl.
Qed.

(** X7.  The click the long stages repeat has two fallbacks, tried in
    order and only on failure: the native click, then the click by
    script, then the click through an action chain.  It raises only
    what the last of the three raised (or an [AttributeError] when there
    is no driver for the fallbacks). *)
Theorem click_falls_back_twice :
  forall (R : Type) (el : element) (s : core),
    let a0 := reply_unit (ui s) (tick s) in
    let a1 := reply_unit (ui s) (S (tick s)) in
    let a2 := reply_unit (ui s) (S (S (tick s))) in
    let forced := CExecuteScript js_click [AElement el] in
    click_js_actions (R := R) el s =
      match a0 with
      | None => (Normal tt, bump s, [Ev (CClick el) None])
      | Some _ =>
          match driver s with
          | None => (Raised AttributeError, bump s, [Ev (CClick el) a0])
          | Some _ =>
              match a1 with
              | None => (Normal tt, bump (bump s), [Ev (CClick el) a0; Ev forced None])
              | Some _ =>
                  (match a2 with None => Normal tt | Some e => Raised e end,
                   bump (bump (bump s)),
                   [Ev (CClick el) a0; Ev forced a1; Ev (CActionChainsClick el) a2])
              end
          end
      end.
Proof.
  intros R el s a0 a1 a2 forced. subst a0 a1 a2 forced.
  unfold click_js_actions. unfold_prims. simpl.
  destruct (reply_unit (ui s) (tick s)) as [e0 |]; simpl; [ | reflexivity ].
  destruct (driver s) as [d |] eqn:D; simpl; rewrite ?D; simpl; [ | reflexivity ].
  destruct (reply_unit (ui s) (S (tick s))) as [e1 |]; simpl; [ | reflexivity ].
  destruct (reply_unit (ui s) (S (S (tick s)))) as [e2 |]; reflexivity.
Qed.

(** ** The search for a clickable element *)

Lemma first_clickable_rounds R w sels :
  first_clickable (R := R) w sels = for_ sels None (clickable_round w).
Proof. reflexivity. Qed.

Lemma clickable_round_eq R w sel found s :
  clickable_round (R := R) w sel found s =
  match wait_driver w with
  | None => (Normal (Continue found), s, [])
  | Some _ =>
      match reply_element (ui s) (tick s) with
      | inl e => (Normal (Continue found), bump s,
                  [Ev (CUntil (timeout w) element_to_be_clickable sel) (Some e)])
      | inr el => (Normal (Break (Some el)), bump s,
                   [Ev (CUntil (timeout w) element_to_be_clickable sel) None])
      end
  end.
Proof.
  unfold clickable_round, try_except, bind, until, remote_element, raise, ret.
  destruct (wait_driver w); simpl; [ | reflexivity ].
  destruct (reply_element (ui s) (tick s)); reflexivity.
Qed.

Lemma for_cons {E R X S} (x : X) xs (acc : S) (body : X -> S -> M E R (control S)) s :
  for_ (x :: xs) acc body s =
  match body x acc s with
  | (Normal (Continue acc'), s1, t1) =>
      match for_ xs acc' body s1 with (r, s2, t2) => (r, s2, t1 ++ t2) end
  | (Normal (Break acc'), s1, t1) => (Normal acc', s1, t1)
  | (Returned r, s1, t1) => (Returned r, s1, t1)
  | (Raised e, s1, t1) => (Raised e, s1, t1)
  end.
Proof.
  simpl. unfold bind. destruct (body x acc s) as [[[[a | a] | r | e] s1] t1]; auto.
  unfold ret. now rewrite app_nil_r.
Qed.

Lemma first_clickable_without_driver R (w : WebDriverWait) sels :
  wait_driver w = None ->
  forall s, first_clickable (R := R) w sels s = (Normal None, s, []).
Proof.
  intros W. rewrite first_clickable_rounds. generalize (@None element) as found.
  induction sels as [| sel sels IH]; intros found s; [ reflexivity | ].
  rewrite for_cons, clickable_round_eq, W, IH. reflexivity.
Qed.

Lemma first_clickable_with_driver R (w : WebDriverWait) d sels :
  wait_driver w = Some d ->
  forall (found : option element) (s : core),
    let out := for_ sels found (clickable_round (R := R) w) s in
    ui (state_of out) = ui s /\
    tick (state_of out) = tick s + List.length (events_of out) /\
    (exists n, map cmd (events_of out)
               = map (CUntil (timeout w) element_to_be_clickable) (firstn n sels)) /\
    ((exists pre c el,
         result_of out = Normal (Some el) /\
         events_of out = pre ++ [Ev c None] /\
         Forall failed pre /\
         reply_element (ui s) (tick s + List.length pre) = inr el)
     \/ (result_of out = Normal found /\
         Forall failed (events_of out) /\
         List.length (events_of out) = List.length sels)).
Proof.
  intros W.
  induction sels as [| sel sels IH]; intros found s.
  - simpl. repeat split; auto. exists 0. reflexivity.
  - cbn zeta. rewrite for_cons, clickable_round_eq, W.
    destruct (reply_element (ui s) (tick s)) as [e | el] eqn:E0.
    + specialize (IH found (bump s)). cbn zeta in IH.
      destruct (for_ sels found (clickable_round w) (bump s)) as [[r s1] t1].
      unfold result_of, state_of, events_of in *. simpl in *.
      destruct IH as (Hu & Ht & [n Hn] & Hr).
      split; [ exact Hu | ]. split; [ rewrite Ht; lia | ].
      split; [ exists (S n); simpl; now rewrite Hn | ].
      destruct Hr as [(pre & c & el & -> & -> & Hp & Hel) | (-> & Hf & Hl)].
      * left.
        exists (Ev (CUntil (timeout w) element_to_be_clickable sel) (Some e) :: pre), c, el.
        repeat split.
        -- constructor; [ unfold failed; simpl; discriminate | exact Hp ].
        -- simpl. rewrite <- Hel. f_equal. lia.
      * right. repeat split.
        -- constructor; [ unfold failed; simpl; discriminate | exact Hf ].
        -- now rewrite Hl.
    + unfold result_of, state_of, events_of. simpl.
      split; [ reflexivity | ]. split; [ lia | ].
      split; [ exists 1; reflexivity | ].
      left. exists [], (CUntil (timeout w) element_to_be_clickable sel), el.
      repeat split; auto. simpl. now rewrite Nat.add_0_r.
Qed.

(** X8.  The search the long stages repeat waits for the selectors in
    the order given and stops at the first wait that goes through: the
    element it gives back is the answer to that wait, all waits before
    it failed, and no later selector is tried.  It gives back nothing
    only when every selector was tried and failed (or there is no
    driver to wait on), and it never raises. *)
Theorem first_clickable_takes_the_first_match :
  forall (R : Type) (w : WebDriverWait) (sels : list locator) (s : core),
    let out := first_clickable (R := R) w sels s in
    (exists n, map cmd (events_of out)
               = map (CUntil (timeout w) element_to_be_clickable) (firstn n sels)) /\
    match result_of out with
    | Normal (Some el) =>
        exists pre c,
          events_of out = pre ++ [Ev c None] /\
          Forall failed pre /\
          reply_element (ui s) (tick s + List.length pre) = inr el
    | Normal None =>
        Forall failed (events_of out) /\
        (wait_driver w = None \/ List.length (events_of out) = List.length sels)
    | Returned _ | Raised _ => False
    end.
Proof.
  intros R w sels s out. subst out.
  destruct (wait_driver w) as [d |] eqn:W.
  - rewrite first_clickable_rounds.
    destruct (first_clickable_with_driver R w d sels W None s)
      as (_ & _ & Hn & Hr).
    split; [ exact Hn | ].
    destruct Hr as [(pre & c & el & -> & He & Hp & Hel) | (-> & Hf & Hl)].
    + exists pre, c. auto.
    + auto.
  - rewrite (first_clickable_without_driver R w sels W s).
    unfold result_of, events_of. simpl. split.
    + exists 0. reflexivity.
    + split; [ constructor | now left ].
Qed.

(** ** The login page *)

(** X9.  With the automator set up, [_find_login_button] tries three
    selectors in order: the wait for the submit input, and only when
    that times out the button with the text, and only when that is
    missing any button.  It returns the first element found and [None]
    when the third is missing too; any other failure leaves the method
    as an exception. *)
Theorem find_login_button_tries_three_selectors :
  forall (R : Type) (s : core),
    set_up s ->
    let out := _find_login_button (R := R) s in
    let r0 := reply_element (ui s) (tick s) in
    let r1 := reply_element (ui s) (S (tick s)) in
    let r2 := reply_element (ui s) (S (S (tick s))) in
    result_of out =
      match r0 with
      | inr b => Normal (Some b)
      | inl TimeoutException =>
          match r1 with
          | inr b => Normal (Some b)
          | inl NoSuchElementException =>
              match r2 with
              | inr b => Normal (Some b)
              | inl NoSuchElementException => Normal None
              | inl e => Raised e
              end
          | inl e => Raised e
          end
      | inl e => Raised e
      end /\
    exists n,
      map cmd (events_of out) =
      firstn (S n)
        [ CUntil 15 element_to_be_clickable
            (XPATH, "//input[@type='submit' and @value='Login']");
          CFindElement (XPATH, "//button[contains(text(),'Login')]");
          CFindElement (CSS_SELECTOR, "button") ].
Proof.
  intros R s H out r0 r1 r2. subst out r0 r1 r2. use_set_up H.
  unfold _find_login_button, result_of, events_of. unfold_prims. simpl.
  rewrite Hw; simpl.
  destruct (reply_element (ui s) (tick s)) as [[] | b]; simpl;
    try (split; [ reflexivity | exists 0; reflexivity ]).
  rewrite Hd; simpl.
  destruct (reply_element (ui s) (S (tick s))) as [[] | b]; simpl;
    try (split; [ reflexivity | exists 1; reflexivity ]).
  rewrite Hd; simpl.
  destruct (reply_element (ui s) (S (S (tick s)))) as [[] | b]; simpl;
    split; try reflexivity; exists 2; reflexivity.
Qed.

(** X9 in front of the healthy browser, after the setup: the first
    selector finds the button. *)
Lemma find_login_button_tries_three_selectors_witness :
  set_up (ready (healthy "Dashboard")) /\
  result_of (_find_login_button (R := Empty_set) (ready (healthy "Dashboard")))
  = Normal (Some 2).
Proof.
  assert (H : set_up (ready (healthy "Dashboard"))) by (exists 1; repeat split).
  split; [ exact H | ].
  exact (proj1 (find_login_button_tries_three_selectors Empty_set _ H)).
Defined.

Lemma nonempty_app {A : Type} (l k : list A) :
  nonempty (l ++ k) = nonempty l || nonempty k.
Proof. destruct l; reflexivity. Qed.

Lemma nonempty_rev {A : Type} (l : list A) : nonempty (rev l) = nonempty l.
Proof.
  destruct l as [| a l]; [ reflexivity | ].
  simpl. rewrite nonempty_app. simpl. apply orb_true_r.
Qed.

Lemma nonempty_encode_point p : nonempty (Py.encode_point p) = true.
Proof.
  unfold Py.encode_point.
  repeat match goal with |- context [if ?b then _ else _] => destruct b end;
    reflexivity.
Qed.

Lemma truthy_encode l : Py.truthy (Py.encode l) = nonempty l.
Proof.
  destruct l as [| p l]; [ reflexivity | ].
  unfold Py.encode. cbn [flat_map].
  pose proof (nonempty_encode_point p) as H.
  destruct (Py.encode_point p); [ discriminate | reflexivity ].
Qed.

Lemma nonempty_decode s : nonempty (Py.decode s) = Py.truthy s.
Proof.
  destruct s as [| a s]; [ reflexivity | ].
  cbn [Py.decode Py.truthy]. cbv zeta.
  repeat match goal with
         | |- context [match ?x with _ => _ end] =>
             match x with
             | context [match _ with _ => _ end] => fail 1
             | _ => destruct x
             end
         end; reflexivity.
Qed.

Lemma nonempty_lower_point p : nonempty (Py.lower_point p) = true.
Proof.
  unfold Py.lower_point. destruct (p =? 304)%N; [ reflexivity | ].
  destruct (find _ Py.lower_table) as [[[[first last] step] target] |]; reflexivity.
Qed.

Lemma nonempty_lower_points b l : nonempty (Py.lower_points b l) = nonempty l.
Proof.
  destruct l as [| c l]; [ reflexivity | ].
  cbn [Py.lower_points]. rewrite nonempty_app.
  destruct (c =? 931)%N; [ reflexivity | ].
  rewrite nonempty_lower_point. reflexivity.
Qed.

Lemma truthy_lower t : Py.truthy (Py.lower t) = Py.truthy t.
Proof.
  unfold Py.lower.
  rewrite truthy_encode, nonempty_lower_points. apply nonempty_decode.
Qed.

Lemma forallb_rev {A : Type} (f : A -> bool) (l : list A) :
  forallb f (rev l) = forallb f l.
Proof.
  induction l as [| a l IH]; [ reflexivity | ].
  simpl. rewrite forallb_app, IH. simpl.
  rewrite andb_true_r. apply andb_comm.
Qed.

Lemma nonempty_drop_space l :
  nonempty (Py.drop_space l) = negb (forallb Py.is_space l).
Proof.
  induction l as [| c l IH]; [ reflexivity | ].
  cbn [Py.drop_space forallb]. destruct (Py.is_space c); [ exact IH | reflexivity ].
Qed.

Lemma blank_drop_space l :
  forallb Py.is_space (Py.drop_space l) = forallb Py.is_space l.
Proof.
  induction l as [| c l IH]; [ reflexivity | ].
  cbn [Py.drop_space]. destruct (Py.is_space c) eqn:E.
  - cbn [forallb]. rewrite E. exact IH.
  - reflexivity.
Qed.

(** A text has something left after [strip] and [lower] exactly when
    one of its characters is not white space. *)
Lemma truthy_strip t : Py.truthy (Py.lower (Py.strip t)) = negb (blank t).
Proof.
  rewrite truthy_lower. unfold Py.strip, blank.
  rewrite truthy_encode, nonempty_rev, nonempty_drop_space.
  rewrite forallb_rev, blank_drop_space. reflexivity.
Qed.

(** X10.  With the automator set up, [_check_for_login_errors] reports
    an error exactly when the error banner is found and its text has a
    character that is not white space.  A missing banner, a banner
    whose text is empty or blank, and a read of the text that raises
    [NoSuchElementException] all count as no error; any other failure
    leaves the method as an exception. *)
Theorem login_error_needs_visible_text :
  forall (R : Type) (s : core),
    set_up s ->
    let out := _check_for_login_errors (R := R) s in
    result_of out =
      match reply_element (ui s) (tick s) with
      | inl NoSuchElementException => Normal false
      | inl e => Raised e
      | inr banner =>
          match reply_text (ui s) (S (tick s)) with
          | inl NoSuchElementException => Normal false
          | inl e => Raised e
          | inr t => Normal (negb (blank t))
          end
      end.
Proof.
  intros R s H out. subst out. use_set_up H.
  unfold _check_for_login_errors, result_of. unfold_prims.
  cbn -[Py.strip Py.lower Py.truthy]. rewrite Hd; cbn -[Py.strip Py.lower Py.truthy].
  destruct (reply_element (ui s) (tick s)) as [[] | b];
    cbn -[Py.strip Py.lower Py.truthy]; try reflexivity.
  destruct (reply_text (ui s) (S (tick s))) as [[] | t];
    cbn -[Py.strip Py.lower Py.truthy]; try reflexivity.
  rewrite truthy_strip. destruct (blank t); reflexivity.
Qed.

(** X10 in front of a browser whose every element, the banner too, has
    the text ["Invalid password"]. *)
Lemma login_error_needs_visible_text_witness :
  set_up (ready (healthy "Invalid password")) /\
  result_of (_check_for_login_errors (R := Empty_set) (ready (healthy "Invalid password")))
  = Normal true.
Proof.
  assert (H : set_up (ready (healthy "Invalid password"))) by (exists 1; repeat split).
  split; [ exact H | ].
  exact (login_error_needs_visible_text Empty_set _ H).
Defined.

(** White space is that of every script: a banner whose text is an
    ideographic space and a no-break space is no error. *)
Lemma login_error_of_a_blank_banner :
  Py.strip "　 Invalid 　" = "Invalid" /\
  result_of (_check_for_login_errors (R := Empty_set) (ready (healthy "　 ")))
  = Normal false.
Proof.
  split; vm_compute; reflexivity.
Qed.

(** X11.  With the automator set up, [is_on_job_posting_form] sends at
    most two commands, the wait for the form and the search for the
    label of the company field, and returns [True] exactly when both
    went through; it never raises. *)
Theorem job_posting_form_check :
  forall (R : Type) (s : core),
    set_up s ->
    is_on_job_posting_form (R := R) s =
      match reply_element (ui s) (tick s) with
      | inl e =>
          (Normal false, bump s,
           [Ev (CUntil 15 presence_of_element_located (NAME, "createJobProfileForm"))
              (Some e)])
      | inr _ =>
          let a := reply_element (ui s) (S (tick s)) in
          (Normal (match a with inr _ => true | inl _ => false end), bump (bump s),
           [Ev (CUntil 15 presence_of_element_located (NAME, "createJobProfileForm"))
              None;
            Ev (CFindElement
                  (XPATH, "//label[@for='campus_placement' and contains(text(), 'Company')]"))
              (match a with inl e => Some e | inr _ => None end)])
      end.
Proof.
  intros R s H. use_set_up H.
  unfold is_on_job_posting_form. unfold_prims. simpl.
  rewrite Hw; simpl.
  destruct (reply_element (ui s) (tick s)) as [[] | b]; simpl; try reflexivity.
  rewrite Hd; simpl.
  destruct (reply_element (ui s) (S (tick s))) as [[] | b']; reflexivity.
Qed.

(** X11 in front of the healthy browser, after the setup. *)
Lemma job_posting_form_check_witness :
  set_up (ready (healthy "Dashboard")) /\
  result_of (is_on_job_posting_form (R := Empty_set) (ready (healthy "Dashboard")))
  = Normal true.
Proof.
  assert (H : set_up (ready (healthy "Dashboard"))) by (exists 1; repeat split).
  split; [ exact H | ].
  exact (f_equal (fun x => result_of x) (job_posting_form_check Empty_set _ H)).
Defined.

(** ** The rich-text stages, when they succeed *)

(** X12.  When [fill_tinymce_field_by_label] returns [True] the driver
    is back in the default content and the one text typed is the
    content given.  It never lets a [TimeoutException] or a
    [NoSuchElementException] out. *)
Theorem rich_text_true_means_typed_and_back :
  forall (R : Type) (label content : string) (s : core),
    let out := fill_tinymce_field_by_label (R := R) label content s in
    match result_of out with
    | Normal true =>
        context_of (state_of out) = DefaultContent /\
        typed (events_of out) = [content]
    | Normal false => True
    | Returned _ => False
    | Raised e => is_Timeout_or_NoSuchElement e = false
    end.
Proof.
  intros R label content s out. subst out.
  unfold fill_tinymce_field_by_label, result_of, state_of, events_of.
  unfold_prims. simpl.
  repeat run_cmd; auto.
Qed.

(** ** Conditions on the commands of a block *)

Section Ensures.
Context {R : Type} (N : list event -> Prop) (Q : R -> list event -> Prop)
  (X : list event -> Prop) (H : sequential N Q X).

Lemma ensures_ret A (a : A) : ensures N Q X (ret a).
Proof. intros s. apply (seq_nil H). Qed.

Lemma ensures_gets A (f : core -> A) : ensures N Q X (gets f).
Proof. intros s. apply (seq_nil H). Qed.

Lemma ensures_return A (r : R) : Q r [] -> ensures N Q X (return_ (A := A) r).
Proof. intros Hr s. exact Hr. Qed.

Lemma ensures_raise A (e : exn) : X [] -> ensures N Q X (raise (A := A) e).
Proof. intros Hx s. exact Hx. Qed.

Lemma ensures_bind A B (m : M event R A) (k : A -> M event R B) :
  ensures N Q X m -> (forall a, ensures N Q X (k a)) -> ensures N Q X (bind m k).
Proof.
  intros Hm Hk s. unfold bind. specialize (Hm s).
  destruct (m s) as [[r s1] t1]. unfold result_of, events_of in *; simpl in *.
  destruct r as [a | r | e]; simpl; auto.
  specialize (Hk a s1). destruct (k a s1) as [[r2 s2] t2]; simpl in *.
  destruct r2; simpl.
  - now apply (seq_normal H).
  - now apply (seq_return H).
  - now apply (seq_raise H).
Qed.

Lemma ensures_for Y S (xs : list Y) (acc : S) (body : Y -> S -> M event R (control S)) :
  (forall x a, ensures N Q X (body x a)) -> ensures N Q X (for_ xs acc body).
Proof.
  intros Hb. revert acc. induction xs as [| x xs IH]; intros acc; simpl.
  - apply ensures_ret.
  - apply ensures_bind; auto. intros [a | a]; auto. apply ensures_ret.
Qed.

(** A handler goes on from what the failed body sent. *)
Lemma ensures_try_except A (body : M event R A) (cs : list (clause event R A)) :
  ensures N Q X body ->
  (forall t, X t -> N t) ->
  Forall (fun c => forall e, ensures N Q X (snd c e)) cs ->
  ensures N Q X (try_except body cs).
Proof.
  intros Hm Hx Hc s. unfold try_except. specialize (Hm s).
  destruct (body s) as [[r s1] t1]. unfold result_of, events_of in *; simpl in *.
  destruct r as [a | r | e]; simpl; auto.
  assert (Hp : forall h, pick e cs = Some h -> ensures N Q X h).
  { clear - Hc. induction Hc as [| [test h'] cs' Hh _ IH]; simpl; intros h.
    - discriminate.
    - destruct (test e); [ intros [= <-]; apply Hh | apply IH ]. }
  destruct (pick e cs) as [h |]; simpl; auto.
  specialize (Hp h eq_refl s1). destruct (h s1) as [[r2 s2] t2]; simpl in *.
  apply Hx in Hm.
  destruct r2; simpl.
  - now apply (seq_normal H).
  - now apply (seq_return H).
  - now apply (seq_raise H).
Qed.

Lemma ensures_remote_unit c :
  N [Ev c None] -> (forall e, X [Ev c (Some e)]) -> ensures N Q X (remote_unit c).
Proof.
  intros Hn Hx s. unfold remote_unit, result_of, events_of; simpl.
  destruct (reply_unit (ui s) (tick s)); auto.
Qed.

Lemma ensures_remote_element c :
  N [Ev c None] -> (forall e, X [Ev c (Some e)]) -> ensures N Q X (remote_element c).
Proof.
  intros Hn Hx s. unfold remote_element, result_of, events_of; simpl.
  destruct (reply_element (ui s) (tick s)); simpl; auto.
Qed.

Lemma ensures_remote_elements c :
  N [Ev c None] -> (forall e, X [Ev c (Some e)]) -> ensures N Q X (remote_elements c).
Proof.
  intros Hn Hx s. unfold remote_elements, result_of, events_of; simpl.
  destruct (reply_elements (ui s) (tick s)); simpl; auto.
Qed.

Lemma ensures_remote_bool c :
  N [Ev c None] -> (forall e, X [Ev c (Some e)]) -> ensures N Q X (remote_bool c).
Proof.
  intros Hn Hx s. unfold remote_bool, result_of, events_of; simpl.
  destruct (reply_bool (ui s) (tick s)); simpl; auto.
Qed.

Lemma ensures_remote_text c :
  N [Ev c None] -> (forall e, X [Ev c (Some e)]) -> ensures N Q X (remote_text c).
Proof.
  intros Hn Hx s. unfold remote_text, result_of, events_of; simpl.
  destruct (reply_text (ui s) (tick s)); simpl; auto.
Qed.

Lemma ensures_sleep ms : N [Ev (CSleep ms) None] -> ensures N Q X (sleep ms).
Proof. intros Hn s. exact Hn. Qed.

Lemma ensures_switch_to_frame d e :
  N [Ev (CSwitchToFrame e) None] -> (forall x, X [Ev (CSwitchToFrame e) (Some x)]) ->
  ensures N Q X (switch_to_frame d e).
Proof.
  intros Hn Hx s. unfold switch_to_frame, result_of, events_of.
  destruct (reply_unit (ui s) (tick s)); simpl; auto.
Qed.

Lemma ensures_switch_to_default_content d :
  N [Ev CSwitchToDefaultContent None] ->
  (forall x, X [Ev CSwitchToDefaultContent (Some x)]) ->
  ensures N Q X (switch_to_default_content d).
Proof.
  intros Hn Hx s. unfold switch_to_default_content, result_of, events_of.
  destruct (reply_unit (ui s) (tick s)); simpl; auto.
Qed.

Lemma ensures_self_driver : X [] -> ensures N Q X self_driver.
Proof.
  intros Hx s. unfold self_driver, result_of, events_of.
  destruct (driver s); simpl; auto. apply (seq_nil H).
Qed.

Lemma ensures_self_wait : X [] -> ensures N Q X self_wait.
Proof.
  intros Hx s. unfold self_wait, result_of, events_of.
  destruct (wait s); simpl; auto. apply (seq_nil H).
Qed.

Lemma ensures_self_element_interaction : X [] -> ensures N Q X self_element_interaction.
Proof.
  intros Hx s. unfold self_element_interaction, result_of, events_of.
  destruct (element_interaction s); simpl; auto. apply (seq_nil H).
Qed.

Lemma ensures_until w c l :
  X [] -> N [Ev (CUntil (timeout w) c l) None] ->
  (forall e, X [Ev (CUntil (timeout w) c l) (Some e)]) ->
  ensures N Q X (until w c l).
Proof.
  intros H0 Hn Hx. unfold until. destruct (wait_driver w) as [d |].
  - now apply ensures_remote_element.
  - now apply ensures_raise.
Qed.

Lemma ensures_until_all w l :
  X [] -> N [Ev (CUntil (timeout w) presence_of_all_elements_located l) None] ->
  (forall e, X [Ev (CUntil (timeout w) presence_of_all_elements_located l) (Some e)]) ->
  ensures N Q X (until_all w l).
Proof.
  intros H0 Hn Hx. unfold until_all. destruct (wait_driver w) as [d |].
  - intros s. unfold result_of, events_of.
    destruct (reply_elements (ui s) (tick s)) as [e | [| x xs]]; simpl; auto.
  - now apply ensures_raise.
Qed.

End Ensures.

Ltac ensures_clauses :=
  lazymatch goal with
  | |- Forall _ (_ :: _) => constructor; [ simpl; intros | ensures_clauses ]
  | |- Forall _ [] => constructor
  end.

Ltac ensures_step :=
  lazymatch goal with
  | |- ensures _ _ _ (bind _ _) => apply ensures_bind; [ assumption | | intros ]
  | |- ensures _ _ _ (try_except _ _) =>
      apply ensures_try_except; [ assumption | | | ensures_clauses ]
  | |- ensures _ _ _ (for_ _ _ _) => apply ensures_for; [ assumption | intros ]
  | |- ensures _ _ _ (if ?c then _ else _) => destruct c
  | |- ensures _ _ _ (match ?x with _ => _ end) => destruct x
  | |- ensures _ _ _ (ret _) => apply ensures_ret; assumption
  | |- ensures _ _ _ (gets _) => apply ensures_gets; assumption
  | |- ensures _ _ _ (return_ _) => apply ensures_return
  | |- ensures _ _ _ (raise _) => apply ensures_raise
  | |- ensures _ _ _ (sleep _) => apply ensures_sleep
  | |- ensures _ _ _ self_driver => apply ensures_self_driver; [ assumption | ]
  | |- ensures _ _ _ self_wait => apply ensures_self_wait; [ assumption | ]
  | |- ensures _ _ _ self_element_interaction =>
      apply ensures_self_element_interaction; [ assumption | ]
  | |- ensures _ _ _ (switch_to_frame _ _) => apply ensures_switch_to_frame
  | |- ensures _ _ _ (switch_to_default_content _) =>
      apply ensures_switch_to_default_content
  | |- ensures _ _ _ (until _ _ _) => apply ensures_until
  | |- ensures _ _ _ (until_all _ _) => apply ensures_until_all
  | |- ensures _ _ _ (remote_unit _) => apply ensures_remote_unit
  | |- ensures _ _ _ (remote_element _) => apply ensures_remote_element
  | |- ensures _ _ _ (remote_elements _) => apply ensures_remote_elements
  | |- ensures _ _ _ (remote_bool _) => apply ensures_remote_bool
  | |- ensures _ _ _ (remote_text _) => apply ensures_remote_text
  end.

Ltac ensures_unfold :=
  unfold wait_until, wait_until_all, new_wait,
    driver_execute_script, driver_find_element, driver_find_elements,
    driver_save_screenshot, driver_action_chains_click,
    get, find_element, find_elements, execute_script, save_screenshot,
    action_chains_click, click, clear, send_keys, text, is_displayed,
    find_element_in, find_elements_in.

(** *** Blocks that return or raise *)

Lemma leaves_return R A (r : R) : leaves (return_ (E := event) (A := A) r).
Proof. intros s. exact I. Qed.

Lemma leaves_raise R A e : leaves (raise (E := event) (R := R) (A := A) e).
Proof. intros s. exact I. Qed.

Lemma leaves_bind R A B (m : M event R A) (k : A -> M event R B) :
  (forall a, leaves (k a)) -> leaves (bind m k).
Proof.
  intros Hk s. unfold bind. destruct (m s) as [[[a | r | e] s1] t1]; try exact I.
  specialize (Hk a s1). destruct (k a s1) as [[r2 s2] t2]. exact Hk.
Qed.

Lemma leaves_try_except R A (body : M event R A) (cs : list (clause event R A)) :
  leaves body -> Forall (fun c => forall e, leaves (snd c e)) cs ->
  leaves (try_except body cs).
Proof.
  intros Hb Hc s. unfold try_except. specialize (Hb s).
  destruct (body s) as [[[a | r | e] s1] t1]; try exact Hb.
  assert (Hp : forall h, pick e cs = Some h -> leaves h).
  { clear - Hc. induction Hc as [| [test h'] cs' Hh _ IH]; simpl; intros h.
    - discriminate.
    - destruct (test e); [ intros [= <-]; apply Hh | apply IH ]. }
  destruct (pick e cs) as [h |]; [ | exact I ].
  specialize (Hp h eq_refl s1). destruct (h s1) as [[r2 s2] t2]. exact Hp.
Qed.

Ltac leaves_all :=
  repeat
    lazymatch goal with
    | |- leaves (return_ _) => apply leaves_return
    | |- leaves (raise _) => apply leaves_raise
    | |- leaves (try_except _ _) => apply leaves_try_except; [ | ensures_clauses ]
    | |- leaves (bind _ _) => apply leaves_bind; intros
    | |- leaves (if ?c then _ else _) => destruct c
    | |- leaves (match ?x with _ => _ end) => destruct x
    end.

(** *** Stages in which every failure ends the stage *)

Lemma faultless_sequential :
  sequential (Forall passed) (fun (r : bool) t => r = true -> Forall passed t)
    (fun _ => True).
Proof.
  split; auto.
  - intros t1 t2 H1 H2. apply Forall_app. now split.
  - intros r t1 t2 H1 H2 Hr. apply Forall_app. auto.
Qed.

Ltac faultless_all :=
  unfold faultless; pose proof faultless_sequential; ensures_unfold;
  repeat ensures_step;
  try solve [ exact I | intros; exact I | intros; discriminate
            | repeat constructor | intros; repeat constructor ].

(** [try: body] / [except ..: return False] *)
Lemma strict_stage {R'} (body : M event bool bool) (cs : list (clause event bool bool)) :
  faultless body -> leaves body ->
  Forall (fun c => forall e, never_true (snd c e) /\ leaves (snd c e)) cs ->
  true_only_if (Forall passed) (call (R' := R') (try_except body cs)).
Proof.
  intros Hb Hl Hc s. unfold call, try_except. specialize (Hb s). specialize (Hl s).
  destruct (body s) as [[r s1] t1]. unfold result_of, events_of in *; simpl in *.
  destruct r as [a | [|] | e]; simpl; auto; try contradiction.
  assert (Hp : forall h, pick e cs = Some h -> never_true h /\ leaves h).
  { clear - Hc. induction Hc as [| [test h'] cs' Hh _ IH]; simpl; intros h.
    - discriminate.
    - destruct (test e); [ intros [= <-]; apply Hh | apply IH ]. }
  destruct (pick e cs) as [h |]; simpl; auto.
  destruct (Hp h eq_refl) as [Hn Hv]. specialize (Hn s1). specialize (Hv s1).
  unfold result_of in *.
  destruct (h s1) as [[[a | [|] | x] s2] t2]; simpl in *; auto; contradiction.
Qed.

(** [try: body] / [except ..: log], then [return False] *)
Lemma strict_stage_then {R'} (body : M event bool unit)
    (cs : list (clause event bool unit)) :
  faultless body ->
  Forall (fun c => forall e, never_true (snd c e)) cs ->
  true_only_if (Forall passed) (call (R' := R') (try_except body cs ;; return_ false)).
Proof.
  intros Hb Hc s. unfold call, bind, try_except. specialize (Hb s).
  destruct (body s) as [[r s1] t1]. unfold result_of, events_of in *; simpl in *.
  destruct r as [a | [|] | e]; simpl; auto.
  assert (Hp : forall h, pick e cs = Some h -> never_true h).
  { clear - Hc. induction Hc as [| [test h'] cs' Hh _ IH]; simpl; intros h.
    - discriminate.
    - destruct (test e); [ intros [= <-]; apply Hh | apply IH ]. }
  destruct (pick e cs) as [h |]; simpl; auto.
  specialize (Hp h eq_refl s1). unfold result_of in *.
  destruct (h s1) as [[[a | [|] | x] s2] t2]; simpl in *; auto; contradiction.
Qed.

Lemma never_true_return_false A : never_true (return_ (A := A) false).
Proof. intros s. exact I. Qed.

Lemma never_true_ret A (a : A) : never_true (ret a).
Proof. intros s. exact I. Qed.

Ltac handlers_false :=
  ensures_clauses;
  first [ split; [ apply never_true_return_false | apply leaves_return ]
        | apply never_true_ret ].

Ltac strict :=
  first [ apply strict_stage; [ faultless_all | leaves_all | handlers_false ]
        | apply strict_stage_then; [ faultless_all | handlers_false ] ].

(** X13.  In twelve methods every failure ends the method: when one of
    them returns [True], every command it sent went through.  They are
    the placement menu, the selection of a company and the sub-flow
    that adds one, the title, the source, the location, the position
    type, the job function, the category, the equity checkbox, the
    rich-text fields and the check for the job form.  (The login, the
    company stage as a whole, the salary stage, create-and-confirm and
    the three long stages are not among them: they go on after some
    failures.) *)
Theorem true_means_every_command_went_through :
  forall (R : Type) (text label content : string),
    true_only_if (Forall passed) (select_placement_option (R := R) text) /\
    true_only_if (Forall passed) (select_company (R := R) text) /\
    true_only_if (Forall passed) (add_new_company (R := R) text) /\
    true_only_if (Forall passed) (fill_job_profile_title (R := R) text) /\
    true_only_if (Forall passed) (fill_job_profile_source (R := R)) /\
    true_only_if (Forall passed) (fill_job_location (R := R) text) /\
    true_only_if (Forall passed) (fill_position_type (R := R)) /\
    true_only_if (Forall passed) (fill_job_function (R := R) text) /\
    true_only_if (Forall passed) (fill_category (R := R)) /\
    true_only_if (Forall passed) (click_is_equity_checkbox (R := R)) /\
    true_only_if (Forall passed) (fill_tinymce_field_by_label (R := R) label content) /\
    true_only_if (Forall passed) (is_on_job_posting_form (R := R)).
Proof.
  intros R text label content.
  split; [ unfold select_placement_option; strict | ].
  split; [ unfold select_company; strict | ].
  split; [ unfold add_new_company; strict | ].
  split; [ unfold fill_job_profile_title; strict | ].
  split; [ unfold fill_job_profile_source; strict | ].
  split; [ unfold fill_job_location; strict | ].
  split; [ unfold fill_position_type; strict | ].
  split; [ unfold fill_job_function; strict | ].
  split; [ unfold fill_category; strict | ].
  split; [ unfold click_is_equity_checkbox; strict | ].
  split; [ | unfold is_on_job_posting_form; strict ].
  unfold fill_tinymce_field_by_label. apply strict_stage.
  - faultless_all.
  - leaves_all.
  - ensures_clauses. split.
    + intros s. unfold result_of. unfold_prims. simpl. repeat run_cmd; exact I.
    + leaves_all.
Qed.

(** *** Stages that go on after some failures *)

Lemma reached_sequential p :
  sequential (fun _ => True) (fun (r : bool) t => r = true -> Exists p t) (fun _ => True).
Proof.
  split; auto. intros r t1 t2 _ H Hr. apply Exists_app. auto.
Qed.

(** Once a statement has sent a command that satisfies [p], whatever
    follows does not undo it. *)
Lemma reached_after p A B (m : M event bool A) (k : A -> M event bool B) :
  ensures (Exists p) (fun r t => r = true -> Exists p t) (fun _ => True) m ->
  reached p (bind m k).
Proof.
  intros Hm s. unfold bind. specialize (Hm s).
  destruct (m s) as [[r s1] t1]. unfold result_of, events_of in *; simpl in *.
  destruct r as [a | r | e]; simpl; auto.
  destruct (k a s1) as [[r2 s2] t2]; simpl. destruct r2; auto.
  intros _. apply Exists_app. auto.
Qed.

Lemma reached_call p R (body : M event R R) : reached p (call (R' := bool) body).
Proof.
  intros s. unfold call. destruct (body s) as [[[a | r | e] s1] t1]; exact I.
Qed.

Lemma reached_stage p R' (body : M event bool bool) :
  reached p body -> leaves body ->
  true_only_if (Exists p) (call (R' := R') body).
Proof.
  intros Hb Hl s. unfold call. specialize (Hb s). specialize (Hl s).
  destruct (body s) as [[r s1] t1]. unfold result_of, events_of in *; simpl in *.
  destruct r as [a | [|] | e]; simpl; auto. contradiction.
Qed.

Ltac established :=
  intros ?s; unfold result_of, events_of; unfold_prims; simpl;
  repeat run_cmd; try exact I; try (intros; discriminate); intros;
  apply Exists_cons_hd;
  first [ unfold waited_for; do 2 eexists; reflexivity
        | unfold typed_text; eexists; reflexivity ].

Ltac reached_step :=
  lazymatch goal with
  | |- ensures _ _ _ (bind (wait_until _ _) _) =>
      first [ apply reached_after; solve [ established ]
            | unfold wait_until at 1; apply ensures_bind; [ assumption | | intros ] ]
  | |- ensures _ _ _ (bind (until _ _ _) _) =>
      first [ apply reached_after; solve [ established ]
            | apply ensures_bind; [ assumption | | intros ] ]
  | |- ensures _ _ _ (bind (remote_unit (CSendKeys _ _)) _) =>
      first [ apply reached_after; solve [ established ]
            | apply ensures_bind; [ assumption | | intros ] ]
  | |- ensures _ _ _ (bind (try_except (bind (until _ _ _) _) _) _) =>
      first [ apply reached_after; solve [ established ]
            | apply ensures_bind; [ assumption | | intros ] ]
  | |- ensures _ _ _ (call _) => apply reached_call
  | |- ensures _ _ _ (wait_until _ _) => unfold wait_until
  | |- _ => ensures_step
  end.

Ltac reached_unfold :=
  unfold safe_click, safe_input, js_input, _find_login_button, _check_for_login_errors,
    first_clickable, last_resort_button, click_js_actions, click_js,
    wait_until_all, new_wait,
    driver_execute_script, driver_find_element, driver_find_elements,
    driver_save_screenshot, driver_action_chains_click,
    get, find_element, find_elements, execute_script, save_screenshot,
    action_chains_click, click, clear, send_keys, text, is_displayed,
    find_element_in, find_elements_in.

Ltac reached_all p :=
  apply reached_stage;
  [ unfold reached; pose proof (reached_sequential p); reached_unfold;
    repeat reached_step;
    try solve [ exact I | intros; exact I | intros; discriminate ]
  | leaves_all ].

(** X14.  The stages that go on after some failures still report
    success only after the element that ends them showed up: [login]
    only after the wait for the dashboard container went through,
    [click_create_and_confirm] only after the waits for the create
    button and for the OK button, [select_applicable_courses] only
    after the wait for the popup, [set_eligibility_criteria] and
    [setup_hiring_workflow] only after the wait for the Yes button of
    their confirmation. *)
Theorem true_means_the_key_element_showed :
  forall (R : Type),
    true_only_if (Exists (waited_for dashboard)) (login (R := R)) /\
    true_only_if (Exists (waited_for create_button)) (click_create_and_confirm (R := R)) /\
    true_only_if (Exists (waited_for ok_button)) (click_create_and_confirm (R := R)) /\
    true_only_if (Exists (waited_for courses_popup)) (select_applicable_courses (R := R)) /\
    true_only_if (Exists (waited_for eligibility_yes_button))
      (set_eligibility_criteria (R := R)) /\
    true_only_if (Exists (waited_for submit_yes_button)) (setup_hiring_workflow (R := R)).
Proof.
  intros R.
  split; [ unfold login; reached_all (waited_for dashboard) | ].
  split; [ unfold click_create_and_confirm; reached_all (waited_for create_button) | ].
  split; [ unfold click_create_and_confirm; reached_all (waited_for ok_button) | ].
  split; [ unfold select_applicable_courses; reached_all (waited_for courses_popup) | ].
  split; [ unfold set_eligibility_criteria;
           reached_all (waited_for eligibility_yes_button) | ].
  unfold setup_hiring_workflow. reached_all (waited_for submit_yes_button).
Qed.

(** ** The company stage, method by method *)

Lemma select_company_rounds R name :
  select_company (R := R) name =
  call
    (try_except
       (company_input <- wait_until presence_of_element_located (ID, "campus_placement") ;;
        clear company_input ;;
        send_keys company_input name ;;
        sleep 1500 ;;
        suggestions <- wait_until_all
          (XPATH, "//ul[contains(@class, 'dropdown-menu')]/li/a") ;;
        for_ suggestions tt (suggestion_round name) ;;
        return_ false)
       [ (is_TimeoutException, fun _ => return_ false);
         (is_Exception, fun _ => return_ false) ]).
Proof. reflexivity. Qed.

Lemma suggestion_round_eq name el s :
  suggestion_round name el tt s =
  match reply_text (ui s) (tick s) with
  | inl e => (Raised e, bump s, [Ev (CText el) (Some e)])
  | inr t =>
      if Py.contains (Py.lower name) (Py.lower t) then
        match reply_text (ui s) (S (tick s)) with
        | inl e => (Raised e, bump (bump s), [Ev (CText el) None; Ev (CText el) (Some e)])
        | inr _ =>
            match reply_unit (ui s) (S (S (tick s))) with
            | Some e => (Raised e, bump (bump (bump s)),
                         [Ev (CText el) None; Ev (CText el) None; Ev (CClick el) (Some e)])
            | None => (Returned true, bump (bump (bump s)),
                       [Ev (CText el) None; Ev (CText el) None; Ev (CClick el) None])
            end
        end
      else (Normal (Continue tt), bump s, [Ev (CText el) None])
  end.
Proof.
  unfold suggestion_round. unfold_prims. simpl.
  destruct (reply_text (ui s) (tick s)) as [e | t]; simpl; [ reflexivity | ].
  destruct (Py.contains (Py.lower name) (Py.lower t)); simpl; [ | reflexivity ].
  destruct (reply_text (ui s) (S (tick s))) as [e | t']; simpl; [ reflexivity | ].
  destruct (reply_unit (ui s) (S (S (tick s)))) as [e |]; reflexivity.
Qed.

Lemma suggestion_loop name (l : list element) :
  forall s,
    let out := for_ l tt (suggestion_round name) s in
    ui (state_of out) = ui s /\
    match result_of out with
    | Returned true =>
        exists el t,
          In el l /\
          clicked (events_of out) = [el] /\ typed (events_of out) = [] /\
          3 <= tick (state_of out) /\
          reply_text (ui s) (tick (state_of out) - 3) = inr t /\
          Py.contains (Py.lower name) (Py.lower t) = true
    | Returned false => False
    | Normal _ | Raised _ => clicked (events_of out) = [] /\ typed (events_of out) = []
    end.
Proof.
  induction l as [| el l IH]; intros s.
  - simpl. auto.
  - cbn zeta. rewrite for_cons, suggestion_round_eq.
    destruct (reply_text (ui s) (tick s)) as [e | t] eqn:E0.
    { simpl. auto. }
    destruct (Py.contains (Py.lower name) (Py.lower t)) eqn:C.
    + destruct (reply_text (ui s) (S (tick s))) as [e | t'].
      { simpl. auto. }
      destruct (reply_unit (ui s) (S (S (tick s)))) as [e |].
      { simpl. auto. }
      unfold result_of, state_of, events_of. simpl. split; [ reflexivity | ].
      exists el, t. repeat split; auto; try lia.
      rewrite Nat.sub_0_r. exact E0.
    + specialize (IH (bump s)). cbn zeta in IH.
      destruct (for_ l tt (suggestion_round name) (bump s)) as [[r s1] t1].
      unfold result_of, state_of, events_of in *. simpl in *.
      destruct IH as [Hu IH]. split; [ exact Hu | ].
      destruct r as [[] | [|] | e]; auto.
      destruct IH as (el' & t' & Hin & Hc & Ht & Hk & Hr & Hm).
      exists el', t'. repeat split; auto.
Qed.

Opaque for_.

(** X15.  [select_company] returns [True] only after it clicked one
    suggestion, and only that: an element of the list the browser
    showed, whose text as read just before contains the company name,
    case apart; the one text it typed is the name.  When it returns
    [False] it clicked nothing.  It never raises. *)
Theorem select_company_clicks_a_matching_suggestion :
  forall (R : Type) (name : string) (s : core),
    let out := select_company (R := R) name s in
    match result_of out with
    | Normal true =>
        exists el t suggestions,
          reply_elements (ui s) (tick s + 3) = inr suggestions /\
          In el suggestions /\
          reply_text (ui s) (tick (state_of out) - 3) = inr t /\
          Py.contains (Py.lower name) (Py.lower t) = true /\
          clicked (events_of out) = [el] /\
          typed (events_of out) = [name]
    | Normal false => clicked (events_of out) = []
    | Returned _ | Raised _ => False
    end.
Proof.
  intros R name s out. subst out. rewrite select_company_rounds.
  unfold result_of, state_of, events_of. unfold_prims. simpl.
  repeat run_cmd; auto.
  match goal with
  | |- context [for_ ?l tt (suggestion_round name) ?s0] =>
      pose proof (suggestion_loop name l s0) as L; cbn zeta in L;
      destruct (for_ l tt (suggestion_round name) s0) as [[r sf] tf]
  end.
  unfold result_of, state_of, events_of in L. simpl in L. destruct L as [Hu L].
  destruct r as [[] | [|] | x]; simpl.
  - rewrite app_nil_r. unfold clicked in *. simpl. tauto.
  - destruct L as (el & t & Hin & Hc & Ht & Hk & Hr & Hm).
    exists el, t. eexists. replace (tick s + 3) with (S (S (S (tick s)))) by lia.
    split; [ eassumption | ]. repeat split; auto.
    unfold typed in *. simpl. now rewrite Ht.
  - contradiction.
  - destruct x; simpl; rewrite app_nil_r; unfold clicked in *; simpl; tauto.
Qed.

(** The letters of every script are folded: before a browser whose
    suggestions read ["Nestlé India"], [select_company] finds the
    name written in capitals. *)
Lemma select_company_folds_every_script :
  Py.lower "NESTLÉ" = "nestlé" /\
  Py.lower "ΟΔΟΣ ΑΘΗΝΑΣ" = "οδος αθηνας" /\
  result_of (select_company (R := Empty_set) "NESTLÉ" (ready (healthy "Nestlé India")))
  = Normal true.
Proof.
  repeat match goal with |- _ /\ _ => split end; vm_compute; reflexivity.
Qed.

Transparent for_.

(** X16.  [add_new_company] does nothing to the page unless the message
    that no company matches is found and displayed: otherwise it returns
    [False] having clicked nothing and typed nothing. *)
Theorem add_new_company_needs_the_message :
  forall (R : Type) (name : string) (s : core),
    let out := add_new_company (R := R) name s in
    match reply_element (ui s) (tick s), reply_bool (ui s) (S (tick s)) with
    | inr _, inr true => True
    | _, _ =>
        result_of out = Normal false /\
        clicked (events_of out) = [] /\ typed (events_of out) = []
    end.
Proof.
  intros R name s out. subst out.
  destruct (reply_element (ui s) (tick s)) as [e0 | m] eqn:E0;
    [ | destruct (reply_bool (ui s) (S (tick s))) as [e1 | [|]] eqn:E1; [ | exact I | ] ].
  all: unfold add_new_company, result_of, events_of; unfold_prims; simpl.
  all: destruct (driver s) as [d |] eqn:D; simpl; rewrite ?D, ?E0; simpl;
    rewrite ?D, ?E1; simpl; auto.
  all: try (destruct e0; simpl; auto).
  all: try (destruct e1; simpl; auto).
Qed.

(** ** The source of the job profile *)

(** X17.  [fill_job_profile_source] takes the first option of the
    drop-down, whatever it is: when it returns [True] it sent exactly
    eight commands, all of which went through, and the second click is
    on the head of the list of options; no text is read.  It never
    raises. *)
Theorem profile_source_takes_the_first_option :
  forall (R : Type) (s : core),
    let out := fill_job_profile_source (R := R) s in
    match result_of out with
    | Normal true =>
        exists w box option rest,
          wait s = Some w /\
          reply_element (ui s) (tick s) = inr box /\
          reply_elements (ui s) (tick s + 3) = inr (option :: rest) /\
          events_of out =
            [ Ev (CUntil (timeout w) element_to_be_clickable
                    (CLASS_NAME, "chosen-container")) None;
              Ev (CExecuteScript js_scroll_center [AElement box]) None;
              Ev (CSleep 500) None;
              Ev (CClick box) None;
              Ev (CSleep 500) None;
              Ev (CUntil (timeout w) presence_of_all_elements_located
                    (CLASS_NAME, "active-result")) None;
              Ev (CExecuteScript js_scroll_center [AElement option]) None;
              Ev (CClick option) None ]
    | Normal false => True
    | Returned _ | Raised _ => False
    end.
Proof.
  intros R s out. subst out.
  unfold fill_job_profile_source, result_of, events_of. unfold_prims. simpl.
  replace (tick s + 3) with (S (S (S (tick s)))) by lia.
  repeat run_cmd; auto.
  unfold bind; simpl. repeat run_cmd; auto.
  do 4 eexists. repeat split; eauto. congruence.
Qed.

(** ** The salary stage, for every browser *)


(** ** What leaves the last four stages *)

Lemma guarded_by_screenshots R' (body : M event bool bool) (f1 f2 : string) s :
  let out :=
    call (R' := R')
      (try_except body
         [ (is_TimeoutException, fun _ => driver_save_screenshot f1 ;; return_ false);
           (is_Exception, fun _ => driver_save_screenshot f2 ;; return_ false) ]) s in
  match result_of out with
  | Raised e =>
      (e = AttributeError /\ driver (state_of out) = None) \/
      screenshot_failed e (events_of out)
  | Returned _ => False
  | Normal _ => True
  end.
Proof.
  unfold call, try_except, result_of, state_of, events_of.
  destruct (body s) as [[[a | r | e] s1] t1]; simpl; auto.
  assert (H : forall f,
             match
               fst (fst (let (p, t2) := (driver_save_screenshot (R := bool) f ;;
                                         return_ (A := bool) false) s1 in
                         let (r, s2) := p in (r, s2, t1 ++ t2)))
             with
             | Raised x =>
                 (x = AttributeError /\
                  driver (snd (fst (let (p, t2) := (driver_save_screenshot (R := bool) f ;;
                                                    return_ (A := bool) false) s1 in
                                    let (r, s2) := p in (r, s2, t1 ++ t2)))) = None) \/
                 screenshot_failed x
                   (snd (let (p, t2) := (driver_save_screenshot (R := bool) f ;;
                                         return_ (A := bool) false) s1 in
                         let (r, s2) := p in (r, s2, t1 ++ t2)))
             | _ => True
             end).
  { intros f. unfold_prims. simpl.
    destruct (driver s1) as [d |] eqn:D; simpl; auto.
    destruct (reply_unit (ui s1) (tick s1)) as [x |]; simpl; auto.
    right. exists t1, f. reflexivity. }
  destruct (is_TimeoutException e); simpl.
  - specialize (H f1).
    destruct ((driver_save_screenshot f1 ;; return_ false) s1) as [[[a | r | x] s2] t2];
      simpl in *; auto.
  - specialize (H f2).
    destruct ((driver_save_screenshot f2 ;; return_ false) s1) as [[[a | r | x] s2] t2];
      simpl in *; auto.
Qed.

Lemma guarded_against_web_driver R' (body : M event bool bool) s :
  match
    result_of
      (call (R' := R')
         (try_except body [ (is_WebDriverException, fun _ => return_ false) ]) s)
  with
  | Raised e => is_WebDriverException e = false
  | Returned _ => False
  | Normal _ => True
  end.
Proof.
  unfold call, try_except, result_of.
  destruct (body s) as [[[a | r | e] s1] t1]; simpl; auto.
  destruct (is_WebDriverException e) eqn:E; simpl; auto.
Qed.

(** X19.  The four stages after the rich-text fields do not end with a
    plain [except Exception: return False].  An exception that leaves
    [click_create_and_confirm] is never a [WebDriverException] (so
    never a timeout, a missing element or an intercepted click).  An
    exception leaves one of the three long stages only when the
    screenshot taken by its last handler fails, and then it is that
    failure (or when the automator has no driver). *)
Theorem what_leaves_the_last_stages :
  forall (R : Type),
    (forall s,
       match result_of (click_create_and_confirm (R := R) s) with
       | Raised e => is_WebDriverException e = false
       | Returned _ => False
       | Normal _ => True
       end) /\
    raises_only_from_the_screenshot (select_applicable_courses (R := R)) /\
    raises_only_from_the_screenshot (set_eligibility_criteria (R := R)) /\
    raises_only_from_the_screenshot (setup_hiring_workflow (R := R)).
Proof.
  intros R. split; [ | split; [ | split ] ].
  - intros s. apply guarded_against_web_driver.
  - intros s. destruct (keeps_select_applicable_courses R s) as [(Hd & _) _].
    rewrite <- Hd. unfold select_applicable_courses. apply guarded_by_screenshots.
  - intros s. destruct (keeps_set_eligibility_criteria R s) as [(Hd & _) _].
    rewrite <- Hd. unfold set_eligibility_criteria. apply guarded_by_screenshots.
  - intros s. destruct (keeps_setup_hiring_workflow R s) as [(Hd & _) _].
    rewrite <- Hd. unfold setup_hiring_workflow. apply guarded_by_screenshots.
Qed.

(** ** The form of [main.py] *)

Lemma decode_ascii (a : ascii) (s : string) :
  (N_of_ascii a <? 128)%N = true ->
  Py.decode (String a s) = N_of_ascii a :: Py.decode s.
Proof. intros H. cbn [Py.decode]. cbv zeta. rewrite H. reflexivity. Qed.

Lemma digit_char (d : Z) :
  (0 <= d < 10)%Z ->
  (forall s, Py.decode (String (ascii_of_nat (48 + Z.to_nat d)) s)
             = digit_point d :: Py.decode s) /\
  Py.is_digit (digit_point d) = true /\
  Py.token_of (digit_point d) = Py.TDigit d.
Proof.
  intros Hd.
  assert (E : (d = 0 \/ d = 1 \/ d = 2 \/ d = 3 \/ d = 4 \/ d = 5 \/ d = 6 \/
               d = 7 \/ d = 8 \/ d = 9)%Z) by lia.
  repeat destruct E as [-> | E]; try subst d;
    (split; [ intros s; apply decode_ascii; reflexivity
            | split; vm_compute; reflexivity ]).
Qed.

Lemma digits_S fuel n acc :
  Py.digits (S fuel) n acc =
  if (n / 10 =? 0)%Z then String (ascii_of_nat (48 + Z.to_nat (n mod 10))) acc
  else Py.digits fuel (n / 10) (String (ascii_of_nat (48 + Z.to_nat (n mod 10))) acc).
Proof. reflexivity. Qed.

Lemma shift_digit (a p n : Z) :
  (10 * (a * p + n / 10) + n mod 10 = a * (p * 10) + n)%Z.
Proof. pose proof (Z.div_mod n 10 ltac:(lia)) as Hdm. lia. Qed.

(** What [str] writes for a number are its decimal digits, when the
    fuel covers the binary length of the number. *)
Lemma digits_spec (fuel : nat) :
  forall (n : Z) (acc : string),
    (0 <= n < 2 ^ Z.of_nat (S fuel))%Z ->
    exists (d : Z) (ds : list Z),
      Forall (fun d => 0 <= d < 10)%Z (d :: ds) /\
      Py.decode (Py.digits (S fuel) n acc)
      = map digit_point (d :: ds) ++ Py.decode acc /\
      String.length (Py.digits (S fuel) n acc)
      = List.length (d :: ds) + String.length acc /\
      forall a, fold_left read_digit (d :: ds) a
                = (a * 10 ^ Z.of_nat (List.length (d :: ds)) + n)%Z.
Proof.
  induction fuel as [| fuel IH]; intros n acc Hn.
  - assert (Hd : (0 <= n mod 10 < 10)%Z) by (apply Z.mod_pos_bound; lia).
    change (2 ^ Z.of_nat 1)%Z with 2%Z in Hn.
    assert (Hq : (n / 10 = 0)%Z) by (apply Z.div_small; lia).
    assert (Hm : (n mod 10 = n)%Z) by (apply Z.mod_small; lia).
    destruct (digit_char (n mod 10) Hd) as (D1 & _).
    rewrite digits_S, Hq, Z.eqb_refl. exists (n mod 10)%Z, [].
    split; [ repeat constructor; lia | ]. split; [ apply D1 | ].
    split; [ reflexivity | ].
    intros a. cbn [fold_left List.length]. unfold read_digit.
    change (10 ^ Z.of_nat 1)%Z with 10%Z. lia.
  - assert (Hd : (0 <= n mod 10 < 10)%Z) by (apply Z.mod_pos_bound; lia).
    destruct (digit_char (n mod 10) Hd) as (D1 & _).
    rewrite digits_S. destruct (n / 10 =? 0)%Z eqn:Q.
    + apply Z.eqb_eq in Q. exists (n mod 10)%Z, [].
      split; [ repeat constructor; lia | ]. split; [ apply D1 | ].
      split; [ reflexivity | ].
      intros a. cbn [fold_left List.length]. unfold read_digit.
      change (10 ^ Z.of_nat 1)%Z with 10%Z.
      pose proof (Z.div_mod n 10 ltac:(lia)) as Hdm. lia.
    + assert (Hn' : (0 <= n / 10 < 2 ^ Z.of_nat (S fuel))%Z).
      { split; [ apply Z.div_pos; lia | ].
        apply Z.div_lt_upper_bound; [ lia | ].
        replace (Z.of_nat (S (S fuel))) with (Z.of_nat (S fuel) + 1)%Z in Hn by lia.
        rewrite Z.pow_add_r in Hn by lia.
        change (2 ^ 1)%Z with 2%Z in Hn.
        assert (0 < 2 ^ Z.of_nat (S fuel))%Z by (apply Z.pow_pos_nonneg; lia).
        lia. }
      destruct (IH (n / 10)%Z (String (ascii_of_nat (48 + Z.to_nat (n mod 10))) acc) Hn')
        as (d & ds & F & D & L & K).
      exists d, (ds ++ [n mod 10]%Z). split; [ | split; [ | split ] ].
      * change (d :: ds ++ [n mod 10]%Z) with ((d :: ds) ++ [n mod 10]%Z).
        apply Forall_app. split; [ exact F | repeat constructor; lia ].
      * rewrite D, D1.
        change (d :: ds ++ [n mod 10]%Z) with ((d :: ds) ++ [n mod 10]%Z).
        rewrite map_app, <- app_assoc. reflexivity.
      * rewrite L.
        change (d :: ds ++ [n mod 10]%Z) with ((d :: ds) ++ [n mod 10]%Z).
        rewrite length_app. cbn [String.length List.length]. lia.
      * intros a.
        change (d :: ds ++ [n mod 10]%Z) with ((d :: ds) ++ [n mod 10]%Z).
        rewrite fold_left_app, K, length_app. cbn [fold_left].
        unfold read_digit.
        change (List.length [(n mod 10)%Z]) with 1.
        rewrite Nat2Z.inj_add. change (Z.of_nat 1) with 1%Z.
        rewrite Z.pow_add_r by lia. change (10 ^ 1)%Z with 10%Z.
        apply shift_digit.
Qed.

Lemma digits_are_digits (ds : list Z) :
  Forall (fun d => 0 <= d < 10)%Z ds ->
  forallb Py.is_digit (map digit_point ds) = true /\
  map Py.token_of (map digit_point ds) = map Py.TDigit ds.
Proof.
  induction 1 as [| d ds Hd _ [IH1 IH2]]; [ split; reflexivity | ].
  destruct (digit_char d Hd) as (_ & D2 & D3).
  cbn [map forallb]. rewrite D2, D3, IH1, IH2. split; reflexivity.
Qed.

Lemma more_digits_of_digits (ds : list Z) :
  forall acc count,
    Py.more_digits acc count false (map Py.TDigit ds)
    = Some (fold_left read_digit ds acc, List.length ds + count, []).
Proof.
  induction ds as [| d ds IH]; intros acc count; [ reflexivity | ].
  cbn [map Py.more_digits fold_left List.length]. rewrite IH.
  rewrite Nat.add_succ_r. reflexivity.
Qed.

Lemma fuel_covers (z : Z) :
  (0 <= z)%Z -> (0 <= z < 2 ^ Z.of_nat (S (Z.to_nat (Z.log2 z))))%Z.
Proof.
  intros Hz. split; [ exact Hz | ].
  replace (Z.of_nat (S (Z.to_nat (Z.log2 z)))) with (Z.succ (Z.log2 z))
    by (pose proof (Z.log2_nonneg z); lia).
  destruct (Z.eq_dec z 0) as [-> | Hnz]; [ reflexivity | ].
  apply Z.log2_spec. lia.
Qed.

(** [str] raises for a number exactly when its digits are over the
    limit. *)
Lemma str_int_raises limit z :
  Py.str_int limit z = None <-> Py.over_limit limit (decimal_length z) = true.
Proof.
  unfold Py.str_int, decimal_length. cbv zeta.
  destruct (Py.over_limit limit _); split; intros H; try reflexivity; discriminate.
Qed.

(** The text [str] writes for a natural number is a text of digits that
    [int] reads as the number. *)
Lemma str_int_of_a_natural limit (z : Z) text :
  (0 <= z)%Z -> Py.str_int limit z = Some text ->
  Py.isdigit text = true /\ Py.int limit text = Some z.
Proof.
  intros Hz. unfold Py.str_int. cbv zeta.
  destruct (z <? 0)%Z eqn:N; [ apply Z.ltb_lt in N; lia | ].
  cbv iota. rewrite Z.abs_eq by lia.
  destruct (digits_spec (Z.to_nat (Z.log2 z)) z EmptyString (fuel_covers z Hz))
    as (d & ds & F & D & L & K).
  destruct (digits_are_digits (d :: ds) F) as [A T].
  cbn [Py.decode] in D. rewrite app_nil_r in D.
  cbn [String.length] in L. rewrite Nat.add_0_r in L. rewrite L.
  destruct (Py.over_limit limit (List.length (d :: ds))) eqn:O; [ discriminate | ].
  intros E.
  assert (Ht : text = Py.digits (S (Z.to_nat (Z.log2 z))) z EmptyString)
    by congruence.
  subst text. clear E. split.
  - unfold Py.isdigit. rewrite D. cbn [map]. cbn [map] in A. exact A.
  - unfold Py.int, Py.read_number. rewrite D, T.
    cbn [map Py.skip_spaces snd fst]. cbv zeta.
    cbn [snd fst]. rewrite more_digits_of_digits. cbn [Py.skip_spaces].
    replace (List.length ds + 1) with (List.length (d :: ds))
      by (cbn [List.length]; lia).
    rewrite O.
    specialize (K 0%Z). cbn [fold_left] in K. unfold read_digit at 2 in K.
    rewrite Z.mul_0_r, Z.add_0_l in K. rewrite K. f_equal. lia.
Qed.

(** The text [str] writes for a negative number is not a text of
    digits. *)
Lemma str_int_of_a_negative limit (z : Z) text :
  (z < 0)%Z -> Py.str_int limit z = Some text -> Py.isdigit text = false.
Proof.
  intros Hz. unfold Py.str_int. cbv zeta.
  destruct (z <? 0)%Z eqn:N; [ | apply Z.ltb_ge in N; lia ].
  cbv iota. destruct (Py.over_limit limit _); [ discriminate | ].
  intros E.
  assert (Ht : text = String "-" (Py.digits (S (Z.to_nat (Z.log2 (Z.abs z))))
                                    (Z.abs z) EmptyString)) by congruence.
  subst text. clear E. unfold Py.isdigit. rewrite decode_ascii by reflexivity. reflexivity.
Qed.

(** What the form reads back from what it shows for the value [v]. *)
Lemma shown_then_read limit (v : pyval) :
  match Main.str limit v with
  | inr shown =>
      Main.salary_of_text limit shown =
        match v with
        | PInt z => inr (Z.max 0 z)
        | PStr t => Main.salary_of_text limit t
        end
  | inl e =>
      e = Exception /\
      exists z, v = PInt z /\ Py.over_limit limit (decimal_length z) = true
  end.
Proof.
  destruct v as [z | t]; [ | reflexivity ].
  unfold Main.str. destruct (Py.str_int limit z) as [text |] eqn:E.
  - unfold Main.salary_of_text. destruct (Z.lt_ge_cases z 0) as [N | P].
    + rewrite (str_int_of_a_negative limit z text N E). f_equal. lia.
    + destruct (str_int_of_a_natural limit z text P E) as [-> ->]. f_equal. lia.
  - split; [ reflexivity | ]. exists z. split; [ reflexivity | ].
    apply str_int_raises. exact E.
Qed.

(** X20.  What the form shows for a salary is read back, by "Update
    Details", as the number stored when that number is not negative,
    and as [0] when it is negative (its text starts with a minus sign,
    which is not a digit), raising nothing; a stored text is read as
    the form reads any text; without a stored value the form shows,
    and reads back, the defaults 1000000 and 1500000.  This holds
    under every limit of the interpreter on the digits of a number;
    the form fails to show a salary, with the [ValueError] of [str],
    only for a stored number of more than 640 digits and of more
    digits than the limit, and never where there is no limit. *)
Theorem salary_shown_then_read :
  forall (limit : nat) (job_data : Main.dict),
    match Main.min_salary_shown limit job_data with
    | inr shown =>
        Main.salary_of_text limit shown =
          match Main.dict_get job_data "min_salary" (PStr "1000000") with
          | PInt z => inr (Z.max 0 z)
          | PStr t => Main.salary_of_text limit t
          end
    | inl e =>
        e = Exception /\
        exists z, Main.dict_get job_data "min_salary" (PStr "1000000") = PInt z /\
                  Py.over_limit limit (decimal_length z) = true
    end /\
    match Main.max_salary_shown limit job_data with
    | inr shown =>
        Main.salary_of_text limit shown =
          match Main.dict_get job_data "max_salary" (PStr "1500000") with
          | PInt z => inr (Z.max 0 z)
          | PStr t => Main.salary_of_text limit t
          end
    | inl e =>
        e = Exception /\
        exists z, Main.dict_get job_data "max_salary" (PStr "1500000") = PInt z /\
                  Py.over_limit limit (decimal_length z) = true
    end /\
    (exists shown, Main.min_salary_shown 0 job_data = inr shown) /\
    (exists shown, Main.max_salary_shown 0 job_data = inr shown) /\
    Main.min_salary_shown limit [] = inr "1000000" /\
    Main.max_salary_shown limit [] = inr "1500000" /\
    Main.salary_of_text limit "1000000" = inr 1000000%Z /\
    Main.salary_of_text limit "1500000" = inr 1500000%Z.
Proof.
  intros limit job_data. unfold Main.min_salary_shown, Main.max_salary_shown.
  assert (H0 : forall v, exists shown, Main.str 0 v = inr shown).
  { intros [z | t]; [ | exists t; reflexivity ].
    unfold Main.str, Py.str_int. cbv zeta.
    replace (Py.over_limit 0 _) with false; [ eexists; reflexivity | ].
    unfold Py.over_limit. cbn [Nat.ltb Nat.leb]. now rewrite andb_false_r. }
  assert (H1 : forall s z, Py.isdigit s = true -> Py.read_number s = Some (z, 7) ->
                           Main.salary_of_text limit s = inr z).
  { intros s z D R. unfold Main.salary_of_text.
    rewrite D, (int_of_a_short_text limit s z 7 R); [ reflexivity | lia ]. }
  split; [ apply shown_then_read | ].
  split; [ apply shown_then_read | ].
  split; [ apply H0 | ]. split; [ apply H0 | ].
  split; [ reflexivity | ]. split; [ reflexivity | ].
  split; apply H1; vm_compute; reflexivity.
Qed.

Lemma dict_get_defaults (d : Main.dict) (key : string) (a b : pyval) :
  Main.dict_get d key a = Main.dict_get d key b \/
  (Main.dict_get d key a = a /\ Main.dict_get d key b = b).
Proof.
  induction d as [| [k v] d IH]; simpl.
  - right. split; reflexivity.
  - destruct (String.eqb k key); [ left; reflexivity | exact IH ].
Qed.

Lemma list_index_found (f : string) (options : list string) :
  existsb (String.eqb f) options = true ->
  exists i, Main.list_index (PStr f) options = inr i /\ nth_error options i = Some f.
Proof.
  induction options as [| o options IH]; simpl; [ discriminate | ].
  destruct (String.eqb o f) eqn:E.
  - intros _. exists 0. apply String.eqb_eq in E. subst. split; reflexivity.
  - rewrite String.eqb_sym, E. simpl. intros H.
    destruct (IH H) as (i & -> & Hn). exists (S i). split; [ reflexivity | exact Hn ].
Qed.

(** X21.  The index the form gives the "Job Function" select box never
    raises and is always the place of one of the five options: the
    place of the stored job function when that is one of the options,
    and the first place otherwise (nothing stored, a number, or a text
    that is no option), although the two look-ups of the expression use
    different defaults. *)
Theorem job_function_index_is_a_valid_option :
  forall (job_data : Main.dict),
    let stored := Main.dict_get job_data "job_function" (PStr EmptyString) in
    exists i,
      Main.job_function_index job_data = inr i /\
      i < List.length Main.job_functions /\
      if Main.is_in stored Main.job_functions
      then option_map PStr (nth_error Main.job_functions i) = Some stored
      else i = 0.
Proof.
  intros job_data stored. unfold Main.job_function_index. fold stored.
  destruct (Main.is_in stored Main.job_functions) eqn:I; simpl.
  - destruct stored as [z | f] eqn:Hs; [ discriminate | ].
    assert (G : Main.dict_get job_data "job_function" (PStr "Software Development")
                = PStr f).
    { destruct (dict_get_defaults job_data "job_function" (PStr EmptyString)
                  (PStr "Software Development")) as [E | [E _]].
      - rewrite <- E. exact Hs.
      - fold stored in E. rewrite Hs in E. injection E as ->. discriminate. }
    rewrite G. unfold Main.is_in in I.
    destruct (list_index_found f Main.job_functions I) as (i & Hi & Hn).
    exists i. split; [ exact Hi | ]. split.
    + apply (proj1 (nth_error_Some Main.job_functions i)). rewrite Hn. discriminate.
    + rewrite Hn. reflexivity.
  - exists 0. repeat split. simpl. lia.
Qed.

(** ** The cached model client *)

(** X22.  [get_instance] builds the client at most once.  When a call
    gives a client, the class holds it, and every later call gives that
    same client without building anything; the call itself built one
    client when the class held none and none when it held one.  When a
    call raises, it is the construction that raised, and the class
    still holds no client, so the next call builds again. *)
Theorem model_client_is_built_once :
  forall (c : OpenAIModel.cls),
    match OpenAIModel.get_instance c with
    | (inr m, c1) =>
        OpenAIModel._instance c1 = Some m /\
        OpenAIModel.constructed c1 =
          match OpenAIModel._instance c with
          | Some _ => OpenAIModel.constructed c
          | None => S (OpenAIModel.constructed c)
          end /\
        forall n, OpenAIModel.get_instances n c1 = (repeat (inr m) n, c1)
    | (inl e, c1) =>
        OpenAIModel._instance c = None /\ OpenAIModel._instance c1 = None /\
        OpenAIModel.AzureChatOpenAI c (OpenAIModel.constructed c) = Some e /\
        OpenAIModel.constructed c1 = S (OpenAIModel.constructed c)
    end.
Proof.
  intros c. unfold OpenAIModel.get_instance, OpenAIModel.load_model.
  destruct (OpenAIModel._instance c) as [m |] eqn:I.
  - split; [ exact I | ]. split; [ reflexivity | ].
    induction n as [| n IH]; simpl; [ reflexivity | ].
    unfold OpenAIModel.get_instance at 1. rewrite I, IH. reflexivity.
  - destruct (OpenAIModel.AzureChatOpenAI c (OpenAIModel.constructed c)) as [e |] eqn:A;
      simpl.
    + repeat split; assumption.
    + repeat split.
      induction n as [| n IH]; simpl; [ reflexivity | ].
      rewrite IH. reflexivity.
Qed.

(** ** A run that succeeded *)

Lemma select_company_types_the_name R name :
  true_only_if (Exists (typed_text name)) (select_company (R := R) name).
Proof. unfold select_company. reached_all (typed_text name). Qed.

Lemma add_new_company_types_the_name R name :
  true_only_if (Exists (typed_text name)) (add_new_company (R := R) name).
Proof. unfold add_new_company. reached_all (typed_text name). Qed.

Lemma call_never_returns {E R R'} (body : M E R R) s :
  match result_of (call (R' := R') body s) with Returned _ => False | _ => True end.
Proof. unfold call, result_of. destruct (body s) as [[[a | r | e] s1] t1]; exact I. Qed.

Lemma company_stage_types_the_name R name :
  true_only_if (Exists (typed_text name)) (fill_company_data (R := R) name).
Proof.
  intros s. unfold fill_company_data, call, try_except, bind, result_of, events_of.
  pose proof (select_company_types_the_name bool name s) as H1.
  pose proof (call_never_returns _ s
              : match result_of (select_company (R := bool) name s) with
                | Returned _ => False | _ => True end) as N1.
  unfold result_of, events_of in H1, N1.
  destruct (select_company name s) as [[[[|] | r | e] s1] t1]; simpl in *;
    auto; try contradiction.
  - now rewrite app_nil_r.
  - pose proof (add_new_company_types_the_name bool name s1) as H2.
    pose proof (call_never_returns _ s1
                : match result_of (add_new_company (R := bool) name s1) with
                  | Returned _ => False | _ => True end) as N2.
    unfold result_of, events_of in H2, N2.
    destruct (add_new_company name s1) as [[[[|] | r | e] s2] t2]; simpl in *;
      auto; try contradiction.
    pose proof (call_never_returns _ s2
                : match result_of (select_company (R := bool) name s2) with
                  | Returned _ => False | _ => True end) as N3.
    unfold result_of in N3.
    destruct (select_company name s2) as [[[b | r | e] s3] t3]; simpl in *;
      try contradiction; try exact I.
    rewrite app_nil_r. apply Exists_app. right. apply Exists_app. now left.
Qed.

Ltac no_evidence := intros s; simpl; destruct (result_of _) as [[|] | |]; exact I.

Lemma stages_give_evidence job :
  Forall (fun p => true_only_if (stage_evidence job (fst p)) (snd p))
    (stages_after_setup job).
Proof.
  unfold stages_after_setup.
  constructor; [ simpl; unfold login; reached_all (waited_for dashboard) | ].
  constructor; [ no_evidence | ].
  constructor; [ apply company_stage_types_the_name | ].
  constructor; [ simpl; unfold fill_job_profile_title;
                 reached_all (typed_text (job_title job)) | ].
  constructor; [ no_evidence | ].
  constructor; [ simpl; unfold fill_job_location;
                 reached_all (typed_text (location job)) | ].
  constructor; [ no_evidence | ].
  constructor; [ simpl; unfold fill_job_function;
                 reached_all (typed_text (job_function job)) | ].
  constructor; [ no_evidence | ].
  constructor; [ no_evidence | ].
  constructor; [ no_evidence | ].
  constructor; [ simpl; unfold fill_tinymce_field_by_label;
                 reached_all (typed_text (salary_breakup job)) | ].
  constructor; [ simpl; unfold fill_tinymce_field_by_label;
                 reached_all (typed_text (job_description job)) | ].
  constructor; [ simpl; unfold click_create_and_confirm;
                 reached_all (waited_for ok_button) | ].
  constructor; [ simpl; unfold select_applicable_courses;
                 reached_all (waited_for courses_popup) | ].
  constructor; [ simpl; unfold set_eligibility_criteria;
                 reached_all (waited_for eligibility_yes_button) | ].
  constructor; [ simpl; unfold setup_hiring_workflow;
                 reached_all (waited_for submit_yes_button) | ].
  constructor.
Qed.

Lemma pipeline_reports A P (k : M step bool A) l :
  Forall (fun p => true_only_if (P (fst p)) (snd p)) l ->
  (forall s, Forall (reports P) (events_of (k s))) ->
  forall s, Forall (reports P) (events_of (pipeline l k s)).
Proof.
  intros Hl Hk. induction Hl as [| [st m] l Hm _ IH]; intros s.
  - apply Hk.
  - rewrite pipeline_cons. specialize (Hm s). simpl in Hm.
    unfold result_of, events_of in *.
    destruct (m s) as [[[[|] | [] | e] sa] ta]; simpl in *.
    + specialize (IH sa). destruct (pipeline l k sa) as [[r s2] t2]. simpl in *.
      constructor; [ exact Hm | exact IH ].
    + repeat constructor.
    + repeat constructor.
Qed.

Lemma run_reports R P job_data s :
  Forall (fun p => true_only_if (P (fst p)) (snd p))
    (stages_after_setup (job_or_default job_data)) ->
  Forall (reports P) (events_of (run (R := R) job_data s)).
Proof.
  intros Hl. rewrite run_pipeline. unfold run_as_pipeline.
  set (k := pause 10000 ;; ret true).
  assert (Hk : forall s, Forall (reports P) (events_of (k s))).
  { intros s0. repeat constructor. }
  pose proof (pipeline_reports bool P k _ Hl Hk) as Hp. clearbody k.
  unfold call, bind, try_finally, try_except, invoke, return_, events_of.
  destruct (setup_driver s) as [[[[] | [] | e] s1] t0]; cbv beta iota zeta.
  - specialize (Hp s1). unfold events_of in Hp.
    destruct (pipeline _ k s1) as [[[b | b | e] s2] t2]; simpl in *.
    all: destruct (teardown_spec Empty_set s2) as (s' & t1 & Ht & _); rewrite Ht; simpl.
    all: rewrite ?app_nil_r; constructor; [ exact I | ].
    all: apply Forall_app; split; [ exact Hp | repeat constructor ].
  - simpl. destruct (teardown_spec Empty_set s1) as (s' & t1 & Ht & _). rewrite Ht. simpl.
    repeat constructor.
Qed.

Lemma piped_true_calls s l tr :
  piped s l tr true ->
  Forall (fun st => exists evs, In (Called st (ReturnedBool true) evs) tr) l.
Proof.
  intros H. remember true as ok eqn:E. induction H as [| st l evs tr ok Hb P IH | ]; subst.
  - constructor.
  - constructor.
    + exists evs. now left.
    + eapply Forall_impl; [ | apply IH; reflexivity ].
      intros st' [evs' Hin]. exists evs'. now right.
  - discriminate.
Qed.

Lemma commands_of_called p st r evs tr :
  In (Called st r evs) tr -> Exists p evs -> Exists p (commands_of tr).
Proof.
  intros Hin He. unfold commands_of.
  apply Exists_exists in He. destruct He as (e & Hi & Hp).
  apply Exists_exists. exists e. split; [ | exact Hp ].
  apply in_flat_map. exists (Called st r evs). split; assumption.
Qed.

(** X23.  A run that returns [True] did the work, for every job record
    and every behaviour of the browser: among its commands are the
    successful wait for the dashboard after the login, the typing of
    the company name, the title, the location, the job function, the
    salary break-up and the description of the record (the defaults
    when no record is given), and the successful waits for the OK
    button of the creation, the popup of the courses and the Yes
    buttons of the eligibility and of the submission.  (The login name,
    the password and the two salaries are not in this list: the login
    and the salary stage drop what their helpers return.) *)
Theorem a_run_that_succeeded_did_the_work :
  forall (R : Type) (job_data : option JobData) (s : core),
    let out := run (R := R) job_data s in
    let job := job_or_default job_data in
    let cmds := commands_of (events_of out) in
    match result_of out with
    | Normal true =>
        Exists (waited_for dashboard) cmds /\
        Exists (typed_text (company_name job)) cmds /\
        Exists (typed_text (job_title job)) cmds /\
        Exists (typed_text (location job)) cmds /\
        Exists (typed_text (job_function job)) cmds /\
        Exists (typed_text (salary_breakup job)) cmds /\
        Exists (typed_text (job_description job)) cmds /\
        Exists (waited_for ok_button) cmds /\
        Exists (waited_for courses_popup) cmds /\
        Exists (waited_for eligibility_yes_button) cmds /\
        Exists (waited_for submit_yes_button) cmds
    | _ => True
    end.
Proof.
  intros R job_data s out job cmds. subst out job cmds.
  pose proof (run_reports R (stage_evidence (job_or_default job_data)) job_data s
                (stages_give_evidence _)) as Hr.
  destruct (run_shape R job_data s)
    as (r0 & t0 & mid & t1 & b & s' & E & _ & _ & _ & _ & Hcase).
  rewrite E in *. unfold result_of, events_of in *. simpl fst in *. simpl snd in *.
  destruct b; [ | exact I ].
  destruct Hcase as [(e & _ & _ & D) | (s1 & tr & -> & _ & P & ->)]; [ discriminate | ].
  apply piped_true_calls in P.
  assert (Hst : forall st, In st stage_names ->
                exists evs,
                  In (Called st (ReturnedBool true) evs)
                     (Called DriverSetup ReturnedNone t0
                        :: (tr ++ [Paused 10000]) ++ [Called Teardown ReturnedNone t1]) /\
                  stage_evidence (job_or_default job_data) st evs).
  { intros st Hin. rewrite Forall_forall in P. destruct (P st Hin) as [evs He].
    exists evs.
    assert (Hin' : In (Called st (ReturnedBool true) evs)
                     (Called DriverSetup ReturnedNone t0
                        :: (tr ++ [Paused 10000]) ++ [Called Teardown ReturnedNone t1])).
    { right. apply in_or_app. left. apply in_or_app. now left. }
    split; [ exact Hin' | ].
    rewrite Forall_forall in Hr. apply (Hr _ Hin'). }
  repeat split.
  all: match goal with
       | |- Exists (waited_for dashboard) _ => destruct (Hst Login) as (evs & Hi & He)
       | |- Exists (typed_text (company_name _)) _ =>
           destruct (Hst CompanyData) as (evs & Hi & He)
       | |- Exists (typed_text (job_title _)) _ => destruct (Hst JobTitle) as (evs & Hi & He)
       | |- Exists (typed_text (location _)) _ => destruct (Hst Location) as (evs & Hi & He)
       | |- Exists (typed_text (job_function _)) _ =>
           destruct (Hst JobFunction) as (evs & Hi & He)
       | |- Exists (typed_text (salary_breakup _)) _ =>
           destruct (Hst SalaryBreakup) as (evs & Hi & He)
       | |- Exists (typed_text (job_description _)) _ =>
           destruct (Hst JobDescription) as (evs & Hi & He)
       | |- Exists (waited_for ok_button) _ =>
           destruct (Hst CreateAndConfirm) as (evs & Hi & He)
       | |- Exists (waited_for courses_popup) _ =>
           destruct (Hst ApplicableCourses) as (evs & Hi & He)
       | |- Exists (waited_for eligibility_yes_button) _ =>
           destruct (Hst EligibilityCriteria) as (evs & Hi & He)
       | |- Exists (waited_for submit_yes_button) _ =>
           destruct (Hst HiringWorkflow) as (evs & Hi & He)
       end.
  all: try (unfold stage_names; simpl; tauto).
  all: eapply commands_of_called; [ exact Hi | exact He ].
Qed.
